(** * Grades, authorization and CGPA aggregation of the CGPA calculator

    A shallow embedding of the grade model (models/Grade.js), of the grade
    routes (routes/grades.js), of the bulk loops of routes/subjects.js and
    routes/users.js, and of the authorization middleware, followed by the
    properties of the specification, proved or refuted on it.

    Conventions.
    - A JavaScript [Number] is a binary64 value.  The marks, credits,
      grade points and semesters of the documents are integers of [Z]:
      on integers below 2^53 the sums, products and comparisons of the
      source are exact.  What is not exact is computed as the source
      does: a quotient is the binary64 value nearest to the exact one
      ([Number.div]), and the hook of the grade model is given a second
      time on marks that are any Number ([pre_save_number]), to tell
      what the integer documents leave out.  A value that can be [NaN]
      is an [option Z] whose [None] is [NaN].
    - An [ObjectId] is a [nat]; the source compares ids through
      [toString()], which is equality of ids.
    - A field that may be [undefined] is an [option].
    - A route is a function of the store and of the authenticated actor
      ([req.user]) to a response, paired with the new store where the
      route writes.  An exception caught by the route's [catch] is the
      response 500. *)

From Stdlib Require Import ZArith QArith Qround List String Ascii Bool Lia.
From Stdlib Require Import DecimalString Permutation Sorted.
Import ListNotations.
Open Scope string_scope.
Open Scope list_scope.
Open Scope Z_scope.

(** * Part I: the embedding *)

Definition ObjectId := nat.

Bind Scope nat_scope with ObjectId.

(** ** Enumerations of the schemas *)

Inductive Role := admin | hod | teacher | student.

Module Letter.
Inductive t := O | Aplus | A | Bplus | B | C | P | F | Ab.
End Letter.

Inductive ExamType := Regular | Supplementary | Improvement.

Definition Role_eqb (a b : Role) : bool :=
  match a, b with
  | admin, admin | hod, hod | teacher, teacher | student, student => true
  | _, _ => false
  end.

Definition ExamType_eqb (a b : ExamType) : bool :=
  match a, b with
  | Regular, Regular | Supplementary, Supplementary
  | Improvement, Improvement => true
  | _, _ => false
  end.

(** [roles.includes(req.user.role)] *)
Definition includes (roles : list Role) (r : Role) : bool :=
  existsb (Role_eqb r) roles.

(** [x?.toString() !== y.toString()] negated: an undefined left side
    differs from every id. *)
Definition opt_id_is (x : option ObjectId) (y : ObjectId) : bool :=
  match x with
  | Some v => Nat.eqb v y
  | None => false
  end.

(** ** JavaScript numbers *)

(** A finite Number is kept as the rational it denotes.  [binary64 x] is
    the Number nearest to the rational [x], of two nearest the one with
    the even significand: the Number an operation returns whose exact
    result is [x].  The significand has 53 bits; the exponent is not
    limited, the values of the program lying far from the ends of its
    range. *)
Module Number.

(** The integer nearest to [n / d], for [0 < d]; of two nearest, the
    even one. *)
Definition half_even (n d : Z) : Z :=
  let q := n / d in
  let r := n mod d in
  if 2 * r <? d then q
  else if d <? 2 * r then q + 1
  else if Z.even q then q else q + 1.

(** The exponent [e] of the last bit of the Number nearest to [a / d],
    for [0 < a] and [0 < d]: [2^52 <= (a / d) / 2^e < 2^53]. *)
Definition exponent (a d : Z) : Z :=
  let k := Z.log2 a - Z.log2 d in
  let reached := if 0 <=? k then d * 2 ^ k <=? a else d <=? a * 2 ^ (- k) in
  if reached then k - 52 else k - 53.

Definition significand (a d e : Z) : Z :=
  if e <=? 0 then half_even (a * 2 ^ (- e)) d else half_even a (d * 2 ^ e).

Definition binary64 (x : Q) : Q :=
  let n := Qnum x in
  let d := Z.pos (Qden x) in
  if n =? 0 then 0%Q
  else
    let a := Z.abs n in
    let e := exponent a d in
    let m := significand a d e in
    Qred ((Z.sgn n * m * 2 ^ Z.max e 0) # Z.to_pos (2 ^ Z.max (- e) 0)).

(** [x + y], [x * y] and [x / y] on Numbers, [y] not being 0. *)
Definition add (x y : Q) : Q := binary64 (x + y).
Definition mul (x y : Q) : Q := binary64 (x * y).
Definition div (x y : Q) : Q := binary64 (x / y).

End Number.

(** ** JavaScript strings and the setters of the schemas *)

(** [trim: true], [lowercase: true] and [uppercase: true] of a String
    path: the value is changed when it is assigned to a document and
    when it is cast in a query.  White space is the one of the ASCII
    range. *)
Definition is_space (c : ascii) : bool :=
  let n := nat_of_ascii c in
  Nat.eqb n 32 || ((9 <=? n)%nat && (n <=? 13)%nat).

Fixpoint trimStart (s : string) : string :=
  match s with
  | EmptyString => EmptyString
  | String c rest => if is_space c then trimStart rest else s
  end.

Fixpoint trimEnd (s : string) : string :=
  match s with
  | EmptyString => EmptyString
  | String c rest =>
      match trimEnd rest with
      | EmptyString => if is_space c then EmptyString
                       else String c EmptyString
      | kept => String c kept
      end
  end.

Definition trim (s : string) : string := trimEnd (trimStart s).

Definition lower_ascii (c : ascii) : ascii :=
  let n := nat_of_ascii c in
  if (65 <=? n)%nat && (n <=? 90)%nat then ascii_of_nat (n + 32) else c.

Fixpoint toLowerCase (s : string) : string :=
  match s with
  | EmptyString => EmptyString
  | String c rest => String (lower_ascii c) (toLowerCase rest)
  end.

Definition upper_ascii (c : ascii) : ascii :=
  let n := nat_of_ascii c in
  if (97 <=? n)%nat && (n <=? 122)%nat then ascii_of_nat (n - 32) else c.

Fixpoint toUpperCase (s : string) : string :=
  match s with
  | EmptyString => EmptyString
  | String c rest => String (upper_ascii c) (toUpperCase rest)
  end.

(** ** models/Grade.js *)

(** The marks of a document.  The schema types them [Number]; the
    documents of the embedding hold integer marks, and [pre_save_number]
    below is the hook on marks that are any Number. *)
Module Marks.
Record t := mk {
  theory : option Z;
  practical : option Z;
  internal : option Z;
  total : option Z
}.

(** the nested path with nothing set *)
Definition empty : t := mk None None None None.
End Marks.

Module Grade.
Record t := mk {
  _id : ObjectId;
  student : ObjectId;
  subject : ObjectId;
  teacher : ObjectId;
  marks : Marks.t;
  grade : option Letter.t;
  gradePoints : option Z;
  semester : Z;
  academicYear : string;
  examType : ExamType;
  isPublished : bool;
  publishedAt : option nat;
  remarks : option string
}.

Definition set_marks (m : Marks.t) (g : t) : t :=
  mk (_id g) (student g) (subject g) (teacher g) m (grade g)
     (gradePoints g) (semester g) (academicYear g) (examType g)
     (isPublished g) (publishedAt g) (remarks g).

Definition set_grade (l : Letter.t) (p : Z) (g : t) : t :=
  mk (_id g) (student g) (subject g) (teacher g) (marks g) (Some l)
     (Some p) (semester g) (academicYear g) (examType g)
     (isPublished g) (publishedAt g) (remarks g).

Definition set_teacher (u : ObjectId) (g : t) : t :=
  mk (_id g) (student g) (subject g) u (marks g) (grade g)
     (gradePoints g) (semester g) (academicYear g) (examType g)
     (isPublished g) (publishedAt g) (remarks g).

Definition set_semester (s : Z) (g : t) : t :=
  mk (_id g) (student g) (subject g) (teacher g) (marks g) (grade g)
     (gradePoints g) s (academicYear g) (examType g)
     (isPublished g) (publishedAt g) (remarks g).

Definition set_academicYear (y : string) (g : t) : t :=
  mk (_id g) (student g) (subject g) (teacher g) (marks g) (grade g)
     (gradePoints g) (semester g) y (examType g)
     (isPublished g) (publishedAt g) (remarks g).

Definition set_remarks (r : option string) (g : t) : t :=
  mk (_id g) (student g) (subject g) (teacher g) (marks g) (grade g)
     (gradePoints g) (semester g) (academicYear g) (examType g)
     (isPublished g) (publishedAt g) r.

Definition set_isPublished (b : bool) (g : t) : t :=
  mk (_id g) (student g) (subject g) (teacher g) (marks g) (grade g)
     (gradePoints g) (semester g) (academicYear g) (examType g)
     b (publishedAt g) (remarks g).

Definition set_publishedAt (d : option nat) (g : t) : t :=
  mk (_id g) (student g) (subject g) (teacher g) (marks g) (grade g)
     (gradePoints g) (semester g) (academicYear g) (examType g)
     (isPublished g) d (remarks g).
End Grade.

(** [x || 0] on a number that may be undefined: undefined and 0 are the
    falsy values, both give 0. *)
Definition or0 (x : option Z) : Z :=
  match x with
  | Some v => if v =? 0 then 0 else v
  | None => 0
  end.

(** [total >= n] where [total] may be undefined: a comparison with
    undefined is false. *)
Definition geq (total : option Z) (n : Z) : bool :=
  match total with
  | Some t => n <=? t
  | None => false
  end.

(** [gradeSchema.methods.calculateGrade] *)
Definition calculateGrade (g : Grade.t) : Grade.t :=
  let total := Marks.total (Grade.marks g) in
  if geq total 90 then Grade.set_grade Letter.O 10 g
  else if geq total 80 then Grade.set_grade Letter.Aplus 9 g
  else if geq total 70 then Grade.set_grade Letter.A 8 g
  else if geq total 60 then Grade.set_grade Letter.Bplus 7 g
  else if geq total 55 then Grade.set_grade Letter.B 6 g
  else if geq total 50 then Grade.set_grade Letter.C 5 g
  else if geq total 40 then Grade.set_grade Letter.P 4 g
  else Grade.set_grade Letter.F 0 g.

(** [gradeSchema.pre('save')]: the total is rebuilt from the three
    components, then the letter and the points from the total. *)
Definition pre_save (g : Grade.t) : Grade.t :=
  let m := Grade.marks g in
  let m' := Marks.mk (Marks.theory m) (Marks.practical m) (Marks.internal m)
              (Some (or0 (Marks.theory m) + or0 (Marks.practical m)
                     + or0 (Marks.internal m))) in
  calculateGrade (Grade.set_marks m' g).

(** The scale of the specification (section 4.1), read as a table;
    Part II compares [calculateGrade] with it. *)
Definition scale (total : Z) : Letter.t * Z :=
  if 90 <=? total then (Letter.O, 10)
  else if 80 <=? total then (Letter.Aplus, 9)
  else if 70 <=? total then (Letter.A, 8)
  else if 60 <=? total then (Letter.Bplus, 7)
  else if 55 <=? total then (Letter.B, 6)
  else if 50 <=? total then (Letter.C, 5)
  else if 40 <=? total then (Letter.P, 4)
  else (Letter.F, 0).

(** A component of the marks is absent or within 0..100: [min: 0],
    [max: 100] of the schema, and the checks
    [x !== undefined && (x < 0 || x > 100)] of the routes. *)
Definition component_okb (x : option Z) : bool :=
  match x with
  | Some v => (0 <=? v) && (v <=? 100)
  | None => true
  end.

Definition component_ok (x : option Z) : Prop :=
  match x with
  | Some v => 0 <= v <= 100
  | None => True
  end.

(** *** The hook on marks that are any Number *)

(** The marks as a request can send them, each component a Number. *)
Module NumberMarks.
Record t := mk {
  theory : option Q;
  practical : option Q;
  internal : option Q;
  total : option Q
}.
End NumberMarks.

(** [x || 0] and [total >= n] on Numbers *)
Definition number_or0 (x : option Q) : Q :=
  match x with
  | Some v => if Qeq_bool v 0 then 0%Q else v
  | None => 0%Q
  end.

Definition number_geq (total : option Q) (n : Z) : bool :=
  match total with
  | Some t => Qle_bool (inject_Z n) t
  | None => false
  end.

(** [gradeSchema.methods.calculateGrade]: the letter and the points it
    sets. *)
Definition calculateGrade_number (total : option Q) : Letter.t * Z :=
  if number_geq total 90 then (Letter.O, 10)
  else if number_geq total 80 then (Letter.Aplus, 9)
  else if number_geq total 70 then (Letter.A, 8)
  else if number_geq total 60 then (Letter.Bplus, 7)
  else if number_geq total 55 then (Letter.B, 6)
  else if number_geq total 50 then (Letter.C, 5)
  else if number_geq total 40 then (Letter.P, 4)
  else (Letter.F, 0).

(** [gradeSchema.pre('save')]: the marks it leaves, and the letter and
    the points.  The two additions are those of the source, from the
    left, each rounded. *)
Definition pre_save_number (m : NumberMarks.t)
  : NumberMarks.t * (Letter.t * Z) :=
  let total :=
    Number.add
      (Number.add (number_or0 (NumberMarks.theory m))
         (number_or0 (NumberMarks.practical m)))
      (number_or0 (NumberMarks.internal m)) in
  (NumberMarks.mk (NumberMarks.theory m) (NumberMarks.practical m)
     (NumberMarks.internal m) (Some total),
   calculateGrade_number (Some total)).

(** The range check of the routes and of the schema on a component. *)
Definition number_okb (x : option Q) : bool :=
  match x with
  | Some v => Qle_bool 0 v && Qle_bool v 100
  | None => true
  end.

(** Integer marks, as the Numbers they are. *)
Definition as_numbers (m : Marks.t) : NumberMarks.t :=
  NumberMarks.mk (option_map inject_Z (Marks.theory m))
    (option_map inject_Z (Marks.practical m))
    (option_map inject_Z (Marks.internal m))
    (option_map inject_Z (Marks.total m)).

(** ** models/Subject.js and models/User.js *)

Module Subject.
Record t := mk {
  _id : ObjectId;
  name : string;
  code : string;
  credits : Z;
  department : ObjectId;
  semester : Z;
  academicYear : string;
  teacher : option ObjectId;
  isActive : bool
}.
End Subject.

Module User.
Record t := mk {
  _id : ObjectId;
  userId : string;
  email : string;
  password : string;
  firstName : string;
  lastName : string;
  role : Role;
  department : option ObjectId;
  academicYear : option string;
  semester : option Z;
  rollNumber : option string;
  employeeId : option string;
  isActive : bool
}.
End User.

(** ** The store: the three collections the routes read and write *)

Record Store := mkStore {
  grades : list Grade.t;
  subjects : list Subject.t;
  users : list User.t
}.

Definition set_grades (gs : list Grade.t) (st : Store) : Store :=
  mkStore gs (subjects st) (users st).

Definition set_subjects (ss : list Subject.t) (st : Store) : Store :=
  mkStore (grades st) ss (users st).

Definition set_users (us : list User.t) (st : Store) : Store :=
  mkStore (grades st) (subjects st) us.

(** What the code of a route can throw: the two failures of a [save()],
    and the access to a field of [null] or [undefined]. *)
Inductive Exception :=
| ValidationError (path : string)
| DuplicateKey (index : string)
| TypeError.

(** The responses of the routes, by status. *)
Inductive Response (T : Type) :=
| Ok200 (body : T)
| Created201 (body : T)
| BadRequest400 (message : string)
| Forbidden403 (message : string)
| NotFound404 (message : string)
| ServerError500.

Arguments Ok200 {T} body.
Arguments Created201 {T} body.
Arguments BadRequest400 {T} message.
Arguments Forbidden403 {T} message.
Arguments NotFound404 {T} message.
Arguments ServerError500 {T}.

(** The request went through: status 200 or 201. *)
Definition succeeded {T} (r : Response T) : Prop :=
  match r with
  | Ok200 _ | Created201 _ => True
  | _ => False
  end.

(** [Model.findById], [Grade.findOne({student, subject, examType})] *)
Definition Grade_findById (id : ObjectId) (st : Store) : option Grade.t :=
  find (fun g => Nat.eqb (Grade._id g) id) (grades st).

Definition Subject_findById (id : ObjectId) (st : Store) : option Subject.t :=
  find (fun s => Nat.eqb (Subject._id s) id) (subjects st).

Definition User_findById (id : ObjectId) (st : Store) : option User.t :=
  find (fun u => Nat.eqb (User._id u) id) (users st).

Definition same_key (s j : ObjectId) (e : ExamType) (g : Grade.t) : bool :=
  Nat.eqb (Grade.student g) s && Nat.eqb (Grade.subject g) j
  && ExamType_eqb (Grade.examType g) e.

Definition Grade_findOne (s j : ObjectId) (e : ExamType) (st : Store)
  : option Grade.t :=
  find (same_key s j e) (grades st).

(** The id given to a [new Grade(...)]: one the collection does not hold. *)
Definition fresh_id (ids : list ObjectId) : ObjectId :=
  S (fold_right Nat.max 0%nat ids).

(** [within lo hi x]: [min] and [max] of a Number path, which test a
    value that is there. *)
Definition within (lo hi : Z) (x : option Z) : bool :=
  match x with
  | Some v => (lo <=? v) && (v <=? hi)
  | None => true
  end.

(** The validation of a grade: the range and presence constraints of
    [gradeSchema], on the document as it is when [save()] is called.
    The paths the hook fills are tested as the caller or the last save
    left them: a document without [grade] or [gradePoints] is refused. *)
Definition Grade_validate (g : Grade.t) : option Exception :=
  if negb (component_okb (Marks.theory (Grade.marks g)))
  then Some (ValidationError "marks.theory")
  else if negb (component_okb (Marks.practical (Grade.marks g)))
  then Some (ValidationError "marks.practical")
  else if negb (component_okb (Marks.internal (Grade.marks g)))
  then Some (ValidationError "marks.internal")
  else if negb (within 0 300 (Marks.total (Grade.marks g)))
  then Some (ValidationError "marks.total")
  else
    match Grade.grade g, Grade.gradePoints g with
    | None, _ => Some (ValidationError "grade")
    | _, None => Some (ValidationError "gradePoints")
    | Some _, Some p =>
        if negb ((0 <=? p) && (p <=? 10))
        then Some (ValidationError "gradePoints")
        else if negb ((1 <=? Grade.semester g) && (Grade.semester g <=? 8))
        then Some (ValidationError "semester")
        else if String.eqb (Grade.academicYear g) EmptyString
        then Some (ValidationError "academicYear")
        else None
    end.

(** Writing a document back: the one with its [_id] is replaced, a new
    one is added. *)
Definition persist (g : Grade.t) (gs : list Grade.t) : list Grade.t :=
  if existsb (fun x => Nat.eqb (Grade._id x) (Grade._id g)) gs
  then map (fun x => if Nat.eqb (Grade._id x) (Grade._id g) then g else x) gs
  else gs ++ [g].

(** [await doc.save()] on a grade.  The validation is the first of the
    pre-save hooks, so the document is checked against the schema
    before the hook of the model fills the derived paths; then the
    document is written.  The result is the saved document and the new
    store, or what was thrown.  The unique index on (student, subject,
    examType) rejects nothing here: the routes look the key up before
    they create, and no update changes a key. *)
Definition Grade_save (g : Grade.t) (st : Store)
  : Exception + (Grade.t * Store) :=
  match Grade_validate g with
  | Some e => inl e
  | None =>
      let g' := pre_save g in
      inr (g', set_grades (persist g' (grades st)) st)
  end.

(** ** middleware/auth.js *)

(** [authorize(...roles)]: the request passes when the actor's role is
    listed, and is answered 403 otherwise. *)
Definition authorize (roles : list Role) (actor : User.t) : bool :=
  includes roles (User.role actor).

Definition insufficient : string :=
  "Access denied. Insufficient permissions.".

(** ** routes/grades.js: reading *)

Inductive SubjectCond :=
| SubjectIs (id : ObjectId)
| SubjectIn (ids : list ObjectId).

(** The [filter] object handed to [Grade.find]. *)
Module Filter.
Record t := mk {
  student : option ObjectId;
  subject : option SubjectCond;
  teacher : option ObjectId;
  semester : option Z;
  academicYear : option string;
  examType : option ExamType;
  isPublished : option bool
}.

Definition empty : t := mk None None None None None None None.
End Filter.

Definition opt_test {T} (c : option T) (p : T -> bool) : bool :=
  match c with
  | Some v => p v
  | None => true
  end.

Definition subject_cond (c : SubjectCond) (j : ObjectId) : bool :=
  match c with
  | SubjectIs id => Nat.eqb j id
  | SubjectIn ids => existsb (Nat.eqb j) ids
  end.

Definition matches (f : Filter.t) (g : Grade.t) : bool :=
  opt_test (Filter.student f) (Nat.eqb (Grade.student g))
  && opt_test (Filter.subject f) (fun c => subject_cond c (Grade.subject g))
  && opt_test (Filter.teacher f) (Nat.eqb (Grade.teacher g))
  && opt_test (Filter.semester f) (Z.eqb (Grade.semester g))
  && opt_test (Filter.academicYear f) (String.eqb (Grade.academicYear g))
  && opt_test (Filter.examType f) (ExamType_eqb (Grade.examType g))
  && opt_test (Filter.isPublished f) (Bool.eqb (Grade.isPublished g)).

(** [Grade.find(filter)] *)
Definition Grade_find (f : Filter.t) (st : Store) : list Grade.t :=
  filter (matches f) (grades st).

(** [req.query] of GET /api/grades *)
Module ListQuery.
Record t := mk {
  student : option ObjectId;
  subject : option ObjectId;
  teacher : option ObjectId;
  semester : option Z;
  academicYear : option string;
  examType : option ExamType;
  isPublished : option string;
  page : nat;
  limit : nat
}.
End ListQuery.

(** "Apply role-based filtering".  [None] is the exception of
    [req.user.department._id] on an actor without department. *)
Definition role_filter (st : Store) (actor : User.t) : option Filter.t :=
  match User.role actor with
  | student =>
      Some (Filter.mk (Some (User._id actor)) None None None None None
              (Some true))
  | teacher =>
      Some (Filter.mk None None (Some (User._id actor)) None None None None)
  | hod =>
      match User.department actor with
      | None => None
      | Some d =>
          let own := filter (fun s => Nat.eqb (Subject.department s) d)
                       (subjects st) in
          Some (Filter.mk None (Some (SubjectIn (map Subject._id own)))
                  None None None None None)
      end
  | admin => Some Filter.empty
  end.

(** "Apply query filters": each assignment of the source, in its order. *)
Definition query_filter (actor : User.t) (q : ListQuery.t) (f : Filter.t)
  : Filter.t :=
  let r := User.role actor in
  let f_student :=
    match ListQuery.student q with
    | Some s => if includes [admin; hod; teacher] r then Some s
                else Filter.student f
    | None => Filter.student f
    end in
  let f_subject :=
    match ListQuery.subject q with
    | Some j => Some (SubjectIs j)
    | None => Filter.subject f
    end in
  let f_teacher :=
    match ListQuery.teacher q with
    | Some t => if includes [admin; hod] r then Some t else Filter.teacher f
    | None => Filter.teacher f
    end in
  let f_semester :=
    match ListQuery.semester q with
    | Some s => Some s
    | None => Filter.semester f
    end in
  let f_academicYear :=
    match ListQuery.academicYear q with
    | Some y => Some y
    | None => Filter.academicYear f
    end in
  let f_examType :=
    match ListQuery.examType q with
    | Some e => Some e
    | None => Filter.examType f
    end in
  let f_isPublished :=
    match ListQuery.isPublished q with
    | Some s => if negb (Role_eqb r student) then Some (String.eqb s "true")
                else Filter.isPublished f
    | None => Filter.isPublished f
    end in
  Filter.mk f_student f_subject f_teacher f_semester f_academicYear
    f_examType f_isPublished.

Module GradeList.
Record t := mk {
  grades : list Grade.t;
  currentPage : nat;
  total : nat
}.
End GradeList.

(** [.sort({createdAt: -1})]: a collection lists its documents in the
    order of their creation, an update leaving a document in its place,
    so the sort is the reversal.  (Documents created within the same
    millisecond have the same [createdAt]; the database leaves their
    order open.) *)
Definition newest_first (l : list Grade.t) : list Grade.t := rev l.

(** [.limit(limit * 1).skip((page - 1) * limit)], skip first as the
    driver does.  A limit of 0 is no limit; the page 0 asks for a
    negative skip, which the database refuses: [None]. *)
Definition paged (page limit : nat) (l : list Grade.t)
  : option (list Grade.t) :=
  if Nat.eqb limit 0 then Some l
  else if Nat.eqb page 0 then None
  else Some (firstn limit (skipn ((page - 1) * limit) l)).

(** GET /api/grades.  The documents are returned as stored: the
    populated names are not part of the embedding. *)
Definition get_grades (st : Store) (actor : User.t) (q : ListQuery.t)
  : Response GradeList.t :=
  match role_filter st actor with
  | None => ServerError500
  | Some f0 =>
      let f := query_filter actor q f0 in
      let found := Grade_find f st in
      match paged (ListQuery.page q) (ListQuery.limit q)
              (newest_first found) with
      | None => ServerError500
      | Some shown =>
          Ok200 (GradeList.mk shown (ListQuery.page q) (List.length found))
      end
  end.

(** GET /api/grades/:id.  The permission check reads the populated
    [student], [teacher] and [subject]: a reference that resolves to no
    document is [null] there and the access to its field throws. *)
Definition get_grade (st : Store) (actor : User.t) (id : ObjectId)
  : Response Grade.t :=
  match Grade_findById id st with
  | None => NotFound404 "Grade not found"
  | Some grade =>
      match User.role actor with
      | student =>
          match User_findById (Grade.student grade) st with
          | None => ServerError500
          | Some s =>
              if negb (Nat.eqb (User._id s) (User._id actor))
                 || negb (Grade.isPublished grade)
              then Forbidden403 "Access denied"
              else Ok200 grade
          end
      | teacher =>
          match User_findById (Grade.teacher grade) st with
          | None => ServerError500
          | Some t =>
              if negb (Nat.eqb (User._id t) (User._id actor))
              then Forbidden403 "Access denied"
              else Ok200 grade
          end
      | hod =>
          match Subject_findById (Grade.subject grade) st,
                User.department actor with
          | Some sj, Some d =>
              if negb (Nat.eqb (Subject.department sj) d)
              then Forbidden403 "Access denied"
              else Ok200 grade
          | _, _ => ServerError500
          end
      | admin => Ok200 grade
      end
  end.

(** ** routes/grades.js: writing *)

(** [req.body] of POST /api/grades *)
Module GradeBody.
Record t := mk {
  student : option ObjectId;
  subject : option ObjectId;
  marks : option Marks.t;
  semester : option Z;
  academicYear : option string;
  examType : option ExamType;
  remarks : option string
}.
End GradeBody.

(** The three range checks on the marks of a body, with the message of
    the first that fails. *)
Definition check_marks (m : Marks.t) : option string :=
  if negb (component_okb (Marks.theory m))
  then Some "Theory marks must be between 0 and 100"
  else if negb (component_okb (Marks.practical m))
  then Some "Practical marks must be between 0 and 100"
  else if negb (component_okb (Marks.internal m))
  then Some "Internal marks must be between 0 and 100"
  else None.

(** The express-validator chain of POST /api/grades: the four values when
    every check passes. *)
Definition validated (b : GradeBody.t)
  : option (ObjectId * ObjectId * Z * string) :=
  match GradeBody.student b, GradeBody.subject b,
        GradeBody.semester b, GradeBody.academicYear b with
  | Some s, Some j, Some sem, Some y =>
      if (1 <=? sem) && (sem <=? 8) && negb (String.eqb y EmptyString)
      then Some (s, j, sem, y)
      else None
  | _, _, _, _ => None
  end.

(** The role check of POST /api/grades on the subject; [Some r] is the
    early answer. *)
Definition post_permission (actor : User.t) (subjectDoc : Subject.t)
  : option (Response Grade.t) :=
  match User.role actor with
  | teacher =>
      if negb (opt_id_is (Subject.teacher subjectDoc) (User._id actor))
      then Some (Forbidden403 "You are not assigned to this subject")
      else None
  | hod =>
      match User.department actor with
      | None => Some ServerError500
      | Some d =>
          if negb (Nat.eqb (Subject.department subjectDoc) d)
          then Some (Forbidden403 "Subject not in your department")
          else None
      end
  | _ => None
  end.

(** "Update existing grade" of POST /api/grades; [remarks] is a path
    with [trim: true]. *)
Definition post_update (existingGrade : Grade.t) (actor : User.t)
  (marks : Marks.t) (sem : Z) (y : string) (remarks : option string)
  : Grade.t :=
  Grade.set_isPublished false
    (Grade.set_remarks (option_map trim remarks)
       (Grade.set_teacher (User._id actor)
          (Grade.set_academicYear y
             (Grade.set_semester sem
                (Grade.set_marks marks existingGrade))))).

(** POST /api/grades *)
Definition post_grade (st : Store) (actor : User.t) (b : GradeBody.t)
  : Store * Response Grade.t :=
  if negb (authorize [admin; hod; teacher] actor)
  then (st, Forbidden403 insufficient)
  else
  match validated b with
  | None => (st, BadRequest400 "errors")
  | Some (s, j, sem, y) =>
  let examType :=
    match GradeBody.examType b with Some e => e | None => Regular end in
  match Subject_findById j st with
  | None => (st, BadRequest400 "Invalid subject")
  | Some subjectDoc =>
  match post_permission actor subjectDoc with
  | Some r => (st, r)
  | None =>
  match User_findById s st with
  | None => (st, BadRequest400 "Invalid student")
  | Some studentDoc =>
  if negb (Role_eqb (User.role studentDoc) student)
  then (st, BadRequest400 "Invalid student")
  else
  match User.department studentDoc with
  | None => (st, ServerError500)
  | Some sd =>
  if negb (Nat.eqb sd (Subject.department subjectDoc))
  then (st, BadRequest400 "Student not in subject department")
  else
  match GradeBody.marks b with
  | None => (st, BadRequest400 "Valid marks object is required")
  | Some marks =>
  match check_marks marks with
  | Some msg => (st, BadRequest400 msg)
  | None =>
  match Grade_findOne s j examType st with
  | Some existingGrade =>
      match Grade_save (post_update existingGrade actor marks sem y
                          (GradeBody.remarks b)) st with
      | inl _ => (st, ServerError500)
      | inr (g, st') => (st', Ok200 g)
      end
  | None =>
      let grade :=
        Grade.mk (fresh_id (map Grade._id (grades st))) s j (User._id actor)
          marks None None sem y examType false None
          (option_map trim (GradeBody.remarks b)) in
      match Grade_save grade st with
      | inl _ => (st, ServerError500)
      | inr (g, st') => (st', Created201 g)
      end
  end end end end end end end end.

(** [req.body] of PUT /api/grades/:id *)
Module PutBody.
Record t := mk {
  marks : option Marks.t;
  remarks : option string;
  isPublished : option bool
}.
End PutBody.

(** The role check of PUT and DELETE /api/grades/:id. *)
Definition put_permission (st : Store) (actor : User.t) (grade : Grade.t)
  : option (Response Grade.t) :=
  match User.role actor with
  | teacher =>
      if negb (Nat.eqb (Grade.teacher grade) (User._id actor))
      then Some (Forbidden403 "Access denied")
      else None
  | hod =>
      match Subject_findById (Grade.subject grade) st,
            User.department actor with
      | Some sj, Some d =>
          if negb (Nat.eqb (Subject.department sj) d)
          then Some (Forbidden403 "Access denied")
          else None
      | _, _ => Some ServerError500
      end
  | _ => None
  end.

(** The assignments of PUT /api/grades/:id once the marks are checked. *)
Definition put_update (grade : Grade.t) (b : PutBody.t) (now : nat)
  : Grade.t :=
  let g1 :=
    match PutBody.marks b with
    | Some m => Grade.set_marks m grade
    | None => grade
    end in
  let g2 :=
    match PutBody.remarks b with
    | Some r => Grade.set_remarks (Some (trim r)) g1
    | None => g1
    end in
  match PutBody.isPublished b with
  | Some p =>
      let g3 := Grade.set_isPublished p g2 in
      if p then Grade.set_publishedAt (Some now) g3 else g3
  | None => g2
  end.

(** PUT /api/grades/:id; [now] is the [new Date()] of the request. *)
Definition put_grade (st : Store) (actor : User.t) (id : ObjectId)
  (b : PutBody.t) (now : nat) : Store * Response Grade.t :=
  if negb (authorize [admin; hod; teacher] actor)
  then (st, Forbidden403 insufficient)
  else
  match Grade_findById id st with
  | None => (st, NotFound404 "Grade not found")
  | Some grade =>
  match put_permission st actor grade with
  | Some r => (st, r)
  | None =>
  match match PutBody.marks b with
        | Some m => check_marks m
        | None => None
        end with
  | Some msg => (st, BadRequest400 msg)
  | None =>
      match Grade_save (put_update grade b now) st with
      | inl _ => (st, ServerError500)
      | inr (g, st') => (st', Ok200 g)
      end
  end end end.

(** DELETE /api/grades/:id *)
Definition delete_grade (st : Store) (actor : User.t) (id : ObjectId)
  : Store * Response string :=
  if negb (authorize [admin; hod] actor)
  then (st, Forbidden403 insufficient)
  else
  match Grade_findById id st with
  | None => (st, NotFound404 "Grade not found")
  | Some grade =>
      let denied :=
        match User.role actor with
        | hod =>
            match Subject_findById (Grade.subject grade) st,
                  User.department actor with
            | Some sj, Some d =>
                if negb (Nat.eqb (Subject.department sj) d)
                then Some (Forbidden403 "Access denied")
                else None
            | _, _ => Some ServerError500
            end
        | _ => None
        end in
      match denied with
      | Some r => (st, r)
      | None =>
          (set_grades
             (filter (fun g => negb (Nat.eqb (Grade._id g) id)) (grades st))
             st,
           Ok200 "Grade deleted successfully")
      end
  end.

(** The permission loop of POST /api/grades/publish-bulk: the answer of
    the first grade that fails. *)
Fixpoint publish_permission (st : Store) (actor : User.t)
  (gs : list Grade.t) : option (Response nat) :=
  match gs with
  | [] => None
  | grade :: rest =>
      let denied :=
        match User.role actor with
        | teacher =>
            if negb (Nat.eqb (Grade.teacher grade) (User._id actor))
            then Some (Forbidden403 "Access denied for some grades")
            else None
        | hod =>
            match Subject_findById (Grade.subject grade) st,
                  User.department actor with
            | Some sj, Some d =>
                if negb (Nat.eqb (Subject.department sj) d)
                then Some (Forbidden403 "Access denied for some grades")
                else None
            | _, _ => Some ServerError500
            end
        | _ => None
        end in
      match denied with
      | Some r => Some r
      | None => publish_permission st actor rest
      end
  end.

Definition id_in (ids : list ObjectId) (g : Grade.t) : bool :=
  existsb (Nat.eqb (Grade._id g)) ids.

(** [Grade.updateMany({_id: {$in: gradeIds}}, {isPublished: true,
    publishedAt: new Date()})]: no document hook runs. *)
Definition publish_many (ids : list ObjectId) (now : nat)
  (gs : list Grade.t) : list Grade.t :=
  map (fun g =>
         if id_in ids g
         then Grade.set_publishedAt (Some now) (Grade.set_isPublished true g)
         else g) gs.

(** POST /api/grades/publish-bulk; the answer 200 carries the number its
    message states, [gradeIds.length]. *)
Definition publish_bulk (st : Store) (actor : User.t)
  (gradeIds : list ObjectId) (now : nat) : Store * Response nat :=
  if negb (authorize [admin; hod; teacher] actor)
  then (st, Forbidden403 insufficient)
  else
    let found := filter (id_in gradeIds) (grades st) in
    if negb (Nat.eqb (List.length found) (List.length gradeIds))
    then (st, BadRequest400 "Some grades not found")
    else
      match publish_permission st actor found with
      | Some r => (st, r)
      | None =>
          (set_grades (publish_many gradeIds now (grades st)) st,
           Ok200 (List.length gradeIds))
      end.

(** ** routes/grades.js: GET /api/grades/student/:studentId/cgpa *)

(** The numbers a division produces. *)
Inductive JSNumber :=
| Num (x : Q)
| Infinity (negative : bool)
| NaN.

(** [a + b] and [a * c] where the left operand may be [NaN] (a grade
    point read from a document that has none). *)
Definition js_add (a b : option Z) : option Z :=
  match a, b with
  | Some x, Some y => Some (x + y)
  | _, _ => None
  end.

Definition js_mul (a : option Z) (c : Z) : option Z :=
  match a with
  | Some x => Some (x * c)
  | None => None
  end.

(** [p / q]: of two integers, the Number nearest to the quotient. *)
Definition js_div (p : option Z) (q : Z) : JSNumber :=
  match p with
  | None => NaN
  | Some n =>
      if q =? 0 then (if n =? 0 then NaN else Infinity (n <? 0))
      else Num (Number.div (inject_Z n) (inject_Z q))
  end.

(** The text [x.toFixed(2)] writes: the digits of a number of hundredths,
    or the name of a value that is not finite. *)
Inductive Fixed :=
| Digits (hundredths : Z)
| TextInfinity (negative : bool)
| TextNaN.

(** The number of hundredths nearest to [x], a tie going away from zero:
    what [toFixed(2)] writes of the Number [x], which it reads exactly. *)
Definition round2 (x : Q) : Z :=
  if Qle_bool 0 x then Qfloor (x * inject_Z 100 + (1 # 2))
  else - Qfloor (- x * inject_Z 100 + (1 # 2)).

Definition toFixed2 (x : JSNumber) : Fixed :=
  match x with
  | Num q => Digits (round2 q)
  | Infinity b => TextInfinity b
  | NaN => TextNaN
  end.

(** What the ternaries of the route leave in [sgpa] and [cgpa]: the text
    of [toFixed(2)], or the number 0. *)
Inductive Sgpa :=
| SgpaText (s : Fixed)
| SgpaZero.

(** [parseFloat] of that text, as the answer carries it: the Number
    nearest to the decimal of the text, which [res.json] writes with the
    fewest digits that denote it, the decimal again.  The figure is kept
    as that decimal. *)
Definition parseFloat (v : Sgpa) : JSNumber :=
  match v with
  | SgpaText (Digits n) => Num (n # 100)
  | SgpaText (TextInfinity b) => Infinity b
  | SgpaText TextNaN => NaN
  | SgpaZero => Num 0
  end.

(** [credits > 0 ? (points / credits).toFixed(2) : 0] *)
Definition ratio (points : option Z) (credits : Z) : Sgpa :=
  if 0 <? credits then SgpaText (toFixed2 (js_div points credits))
  else SgpaZero.

Module SemGrade.
Record t := mk {
  subject : Subject.t;
  marks : Marks.t;
  grade : option Letter.t;
  gradePoints : option Z;
  credits : Z
}.
End SemGrade.

(** A value of the [semesterData] object. *)
Module SemData.
Record t := mk {
  semester : Z;
  totalGradePoints : option Z;
  totalCredits : Z;
  grades : list SemGrade.t
}.
End SemData.

(** An element of [semesterWise]: the fields of the entry and its [sgpa]. *)
Module SemesterWise.
Record t := mk {
  semester : Z;
  totalGradePoints : option Z;
  totalCredits : Z;
  grades : list SemGrade.t;
  sgpa : Sgpa
}.
End SemesterWise.

Module OverallGrade.
Record t := mk {
  subject : Subject.t;
  marks : Marks.t;
  grade : option Letter.t;
  gradePoints : option Z;
  semester : Z;
  academicYear : string
}.
End OverallGrade.

Module CgpaResult.
Record t := mk {
  cgpa : JSNumber;
  (** [sgpa: {}], a field of the answer without grades only *)
  sgpa : option (list (Z * Sgpa));
  totalCredits : Z;
  gradesCount : nat;
  semesterWise : list SemesterWise.t;
  overallGrades : list OverallGrade.t
}.
End CgpaResult.

(** The three additions of the loop body on the entry of a semester. *)
Definition add_to (d : SemData.t) (gradePoints : option Z) (credits : Z)
  (e : SemGrade.t) : SemData.t :=
  SemData.mk (SemData.semester d)
    (js_add (SemData.totalGradePoints d) gradePoints)
    (SemData.totalCredits d + credits)
    (SemData.grades d ++ [e]).

(** [semesterData[sem]], created when absent, then added to.  The object
    is kept as the list of its values in the order [Object.values] gives
    them: a semester is a small natural number, and such keys are
    enumerated ascending. *)
Fixpoint upsert (sem : Z) (gradePoints : option Z) (credits : Z)
  (e : SemGrade.t) (semesterData : list SemData.t) : list SemData.t :=
  let fresh := SemData.mk sem (Some 0) 0 [] in
  match semesterData with
  | [] => [add_to fresh gradePoints credits e]
  | d :: rest =>
      if sem =? SemData.semester d
      then add_to d gradePoints credits e :: rest
      else if sem <? SemData.semester d
      then add_to fresh gradePoints credits e :: d :: rest
      else d :: upsert sem gradePoints credits e rest
  end.

(** The variables the [forEach] of the route updates. *)
Record Acc := mkAcc {
  semesterData : list SemData.t;
  totalGradePoints : option Z;
  totalCredits : Z
}.

(** The body of [grades.forEach], on a grade with its populated subject. *)
Definition accumulate (a : Acc) (gs : Grade.t * Subject.t) : Acc :=
  let (grade, subject) := gs in
  let sem := Grade.semester grade in
  let credits := Subject.credits subject in
  let gradePoints := js_mul (Grade.gradePoints grade) credits in
  mkAcc
    (upsert sem gradePoints credits
       (SemGrade.mk subject (Grade.marks grade) (Grade.grade grade)
          (Grade.gradePoints grade) credits)
       (semesterData a))
    (js_add (totalGradePoints a) gradePoints)
    (totalCredits a + credits).

Definition with_sgpa (sem : SemData.t) : SemesterWise.t :=
  SemesterWise.mk (SemData.semester sem) (SemData.totalGradePoints sem)
    (SemData.totalCredits sem) (SemData.grades sem)
    (ratio (SemData.totalGradePoints sem) (SemData.totalCredits sem)).

Definition overall (gs : Grade.t * Subject.t) : OverallGrade.t :=
  let (grade, subject) := gs in
  OverallGrade.mk subject (Grade.marks grade) (Grade.grade grade)
    (Grade.gradePoints grade) (Grade.semester grade)
    (Grade.academicYear grade).

(** The answer of the route on a selection that is not empty. *)
Definition aggregate (grades : list (Grade.t * Subject.t)) : CgpaResult.t :=
  let a := fold_left accumulate grades (mkAcc [] (Some 0) 0) in
  let semesterWise := map with_sgpa (semesterData a) in
  let cgpa := ratio (totalGradePoints a) (totalCredits a) in
  CgpaResult.mk (parseFloat cgpa) None (totalCredits a)
    (List.length grades) semesterWise (map overall grades).

(** The answer of the route on an empty selection. *)
Definition no_grades : CgpaResult.t :=
  CgpaResult.mk (Num 0) (Some []) 0 0%nat [] [].

Module CgpaQuery.
Record t := mk {
  semester : option Z;
  academicYear : option string
}.
End CgpaQuery.

(** [.sort({semester: 1, ...})]: ascending by semester, grades of one
    semester keeping their order. *)
Fixpoint insert_by_semester (g : Grade.t) (l : list Grade.t) : list Grade.t :=
  match l with
  | [] => [g]
  | h :: t =>
      if Grade.semester g <=? Grade.semester h then g :: h :: t
      else h :: insert_by_semester g t
  end.

Definition sort_by_semester (l : list Grade.t) : list Grade.t :=
  fold_right insert_by_semester [] l.

(** The [filter] of the route and the grades it selects. *)
Definition cgpa_filter (studentId : ObjectId) (q : CgpaQuery.t) : Filter.t :=
  Filter.mk (Some studentId) None None (CgpaQuery.semester q)
    (CgpaQuery.academicYear q) None (Some true).

Definition selected (st : Store) (studentId : ObjectId) (q : CgpaQuery.t)
  : list Grade.t :=
  sort_by_semester (Grade_find (cgpa_filter studentId q) st).

(** [.populate('subject', ...)]: each grade with the document of its
    subject.  [None] when a subject resolves to no document: the loop of
    the route then reads [credits] of [null] and throws. *)
Fixpoint populate (st : Store) (gs : list Grade.t)
  : option (list (Grade.t * Subject.t)) :=
  match gs with
  | [] => Some []
  | g :: rest =>
      match Subject_findById (Grade.subject g) st, populate st rest with
      | Some s, Some l => Some ((g, s) :: l)
      | _, _ => None
      end
  end.

(** GET /api/grades/student/:studentId/cgpa *)
Definition get_cgpa (st : Store) (actor : User.t) (studentId : ObjectId)
  (q : CgpaQuery.t) : Response CgpaResult.t :=
  if Role_eqb (User.role actor) student
     && negb (Nat.eqb (User._id actor) studentId)
  then Forbidden403 "Access denied"
  else
    match selected st studentId q with
    | [] => Ok200 no_grades
    | grades =>
        match populate st grades with
        | None => ServerError500
        | Some populated => Ok200 (aggregate populated)
        end
    end.

(** The quantities the specification names (section 4.3), written from
    its words: the credit-weighted sum of the grade points, the sum of
    the credits, and the mean of the rounded per-semester values that the
    overall figure must not be. *)
Definition points_of (gs : Grade.t * Subject.t) : Z :=
  match Grade.gradePoints (fst gs) with
  | Some p => p * Subject.credits (snd gs)
  | None => 0
  end.

Definition weighted_points (grades : list (Grade.t * Subject.t)) : Z :=
  fold_right (fun gs acc => points_of gs + acc) 0 grades.

Definition credit_sum (grades : list (Grade.t * Subject.t)) : Z :=
  fold_right (fun gs acc => Subject.credits (snd gs) + acc) 0 grades.

Definition in_semester (sem : Z) (grades : list (Grade.t * Subject.t))
  : list (Grade.t * Subject.t) :=
  filter (fun gs => Grade.semester (fst gs) =? sem) grades.




(** ** The bulk loops *)

(** What the [error] of an element of [results.errors] holds: a message
    the loop writes, or the [message] of what was thrown. *)
Inductive Reason :=
| Message (text : string)
| Thrown (e : Exception).

(** An element of [results.success] or of [results.errors]: its [row]
    and its other fields. *)
Record Row (T : Type) := mkRow {
  row : nat;
  entry : T
}.

Arguments mkRow {T} row entry.
Arguments row {T} r.
Arguments entry {T} r.

Record Results (Done : Type) := mkResults {
  success : list (Row Done);
  errors : list (Row Reason)
}.

Arguments mkResults {Done} success errors.
Arguments success {Done} r.
Arguments errors {Done} r.

(** The loop the three routes share:

      for (let i = 0; i < items.length; i++) {
        try { ... results.success.push({row: i + 1, ...})
              or  results.errors.push({row: i + 1, error: ...}) }
        catch (error) {
          results.errors.push({row: i + 1, error: error.message}) }
      }

    [step st item] is one turn of it: the store it leaves, and the fields
    of the entry it pushes, to which the loop adds the row. *)
Section BulkLoop.

Variables State Item Done : Type.
Variable step : State -> Item -> State * (Done + Reason).

Definition push (i : nat) (o : Done + Reason) (r : Results Done)
  : Results Done :=
  match o with
  | inl s => mkResults (success r ++ [mkRow (i + 1) s]) (errors r)
  | inr e => mkResults (success r) (errors r ++ [mkRow (i + 1) e])
  end.

Fixpoint bulk_loop (st : State) (i : nat) (items : list Item)
  (r : Results Done) : State * Results Done :=
  match items with
  | [] => (st, r)
  | item :: rest =>
      let (st', o) := step st item in
      bulk_loop st' (S i) rest (push i o r)
  end.

End BulkLoop.

Arguments push {Done} i o r.
Arguments bulk_loop {State Item Done} step st i items r.

(** *** POST /api/grades/bulk-create *)

(** An element of [req.body.grades].  The fields are those a caller can
    set on the document through [...gradeData]. *)
Module GradeData.
Record t := mk {
  student : option ObjectId;
  subject : option ObjectId;
  marks : option Marks.t;
  semester : option Z;
  academicYear : option string;
  examType : option ExamType;
  remarks : option string;
  isPublished : option bool;
  grade : option Letter.t;
  gradePoints : option Z
}.
End GradeData.

Inductive Action := updated | created.

Record GradeSuccess := mkGradeSuccess {
  action : Action;
  gradeId : ObjectId
}.

Definition default {T} (d : T) (x : option T) : T :=
  match x with
  | Some v => v
  | None => d
  end.

(** [new Grade({...gradeData, teacher: req.user._id})].  A document
    without [semester] or [academicYear] does not pass the schema at
    [save()]; that rejection is taken here, where the record is built. *)
Definition new_grade (id : ObjectId) (s j : ObjectId) (d : GradeData.t)
  (uid : ObjectId) : Exception + Grade.t :=
  match GradeData.semester d, GradeData.academicYear d with
  | Some sem, Some y =>
      inr (Grade.mk id s j uid (default Marks.empty (GradeData.marks d))
             (GradeData.grade d) (GradeData.gradePoints d) sem y
             (default Regular (GradeData.examType d))
             (default false (GradeData.isPublished d)) None
             (option_map trim (GradeData.remarks d)))
  | None, _ => inl (ValidationError "semester")
  | _, None => inl (ValidationError "academicYear")
  end.

(** "Update existing grade" of the bulk loop *)
Definition bulk_update (existingGrade : Grade.t) (d : GradeData.t)
  (actor : User.t) : Grade.t :=
  Grade.set_teacher (User._id actor)
    (Grade.set_marks (default Marks.empty (GradeData.marks d))
       existingGrade).

(** One turn of the loop of POST /api/grades/bulk-create. *)
Definition bulk_grade_step (actor : User.t) (st : Store)
  (gradeData : GradeData.t) : Store * (GradeSuccess + Reason) :=
  match GradeData.student gradeData, GradeData.subject gradeData with
  | Some s, Some j =>
      match Grade_findOne s j
              (default Regular (GradeData.examType gradeData)) st with
      | Some existingGrade =>
          match Grade_save (bulk_update existingGrade gradeData actor) st with
          | inr (g, st') => (st', inl (mkGradeSuccess updated (Grade._id g)))
          | inl e => (st, inr (Thrown e))
          end
      | None =>
          match new_grade (fresh_id (map Grade._id (grades st))) s j
                  gradeData (User._id actor) with
          | inr grade =>
              match Grade_save grade st with
              | inr (g, st') =>
                  (st', inl (mkGradeSuccess created (Grade._id g)))
              | inl e => (st, inr (Thrown e))
              end
          | inl e => (st, inr (Thrown e))
          end
      end
  | _, _ =>
      (st, inr (Message "Student and subject are required"))
  end.

(** POST /api/grades/bulk-create *)
Definition bulk_create_grades (st : Store) (actor : User.t)
  (grades : list GradeData.t) : Store * Response (Results GradeSuccess) :=
  if negb (authorize [admin; hod; teacher] actor)
  then (st, Forbidden403 insufficient)
  else
    match grades with
    | [] => (st, BadRequest400 "Grades array is required")
    | _ =>
        let (st', results) :=
          bulk_loop (bulk_grade_step actor) st 0%nat grades (mkResults [] []) in
        (st', Ok200 results)
    end.

(** *** POST /api/subjects/bulk-create *)

(** An element of [req.body.subjects]. *)
Module SubjectData.
Record t := mk {
  name : option string;
  code : option string;
  credits : option Z;
  department : option ObjectId;
  semester : option Z;
  academicYear : option string;
  teacher : option ObjectId
}.

Definition set_department (d : ObjectId) (x : t) : t :=
  mk (name x) (code x) (credits x) (Some d) (semester x) (academicYear x)
     (teacher x).
End SubjectData.

Record SubjectSuccess := mkSubjectSuccess {
  ss_code : option string;
  ss_name : option string
}.

(** [enum: ['1st Year', '2nd Year', '3rd Year', '4th Year']] *)
Definition year_ok (y : string) : bool :=
  existsb (String.eqb y) ["1st Year"; "2nd Year"; "3rd Year"; "4th Year"].

(** A template literal prints an absent value as [undefined]. *)
Definition shown (x : option string) : string :=
  default "undefined" x.

(** The code of a subject as a document and a query hold it: the
    setters [uppercase] and [trim] of the path, after the
    [toUpperCase()] of the route. *)
Definition as_code (c : string) : string := trim (toUpperCase c).

(** [new Subject({...subjectData, code: subjectData.code?.toUpperCase()})]
    and its [save()]: the setters of the String paths, the required
    paths, the ranges and the enumeration of [subjectSchema], then the
    unique index on [code]. *)
Definition Subject_save (id : ObjectId) (d : SubjectData.t) (st : Store)
  : Exception + Store :=
  match SubjectData.name d, SubjectData.code d, SubjectData.credits d,
        SubjectData.department d, SubjectData.semester d,
        SubjectData.academicYear d with
  | Some n, Some c, Some cr, Some dep, Some sem, Some y =>
      if negb ((1 <=? cr) && (cr <=? 10)) then inl (ValidationError "credits")
      else if negb ((1 <=? sem) && (sem <=? 8))
      then inl (ValidationError "semester")
      else if negb (year_ok y) then inl (ValidationError "academicYear")
      else if String.eqb (trim n) EmptyString
      then inl (ValidationError "name")
      else if String.eqb (as_code c) EmptyString
      then inl (ValidationError "code")
      else if existsb (fun s => String.eqb (Subject.code s) (as_code c))
                (subjects st)
      then inl (DuplicateKey "code")
      else inr (set_subjects
                  (subjects st ++
                   [Subject.mk id (trim n) (as_code c) cr dep sem y
                      (SubjectData.teacher d) true]) st)
  | None, _, _, _, _, _ => inl (ValidationError "name")
  | _, None, _, _, _, _ => inl (ValidationError "code")
  | _, _, None, _, _, _ => inl (ValidationError "credits")
  | _, _, _, None, _, _ => inl (ValidationError "department")
  | _, _, _, _, None, _ => inl (ValidationError "semester")
  | _, _, _, _, _, None => inl (ValidationError "academicYear")
  end.

(** [Subject.findOne({code: ..., department: ...})]: an absent value
    matches no stored subject, both paths being required. *)
Definition Subject_findOne (code : option string) (dep : option ObjectId)
  (st : Store) : option Subject.t :=
  match code, dep with
  | Some c, Some d =>
      find (fun s => String.eqb (Subject.code s) c
                     && Nat.eqb (Subject.department s) d) (subjects st)
  | _, _ => None
  end.

(** One turn of the loop of POST /api/subjects/bulk-create. *)
Definition bulk_subject_step (actor : User.t) (st : Store)
  (item : SubjectData.t) : Store * (SubjectSuccess + Reason) :=
  let scoped :=
    match User.role actor with
    | hod =>
        match User.department actor with
        | Some d => inr (SubjectData.set_department d item)
        | None => inl TypeError
        end
    | _ => inr item
    end in
  match scoped with
  | inl e => (st, inr (Thrown e))
  | inr subjectData =>
      match Subject_findOne
              (option_map as_code (SubjectData.code subjectData))
              (SubjectData.department subjectData) st with
      | Some _ =>
          (st, inr (Message ("Subject "
                             ++ shown (SubjectData.code subjectData)
                             ++ " already exists in this department")))
      | None =>
          match Subject_save (fresh_id (map Subject._id (subjects st)))
                  subjectData st with
          | inr st' =>
              (st', inl (mkSubjectSuccess (SubjectData.code subjectData)
                           (SubjectData.name subjectData)))
          | inl e => (st, inr (Thrown e))
          end
      end
  end.

(** POST /api/subjects/bulk-create *)
Definition bulk_create_subjects (st : Store) (actor : User.t)
  (items : list SubjectData.t) : Store * Response (Results SubjectSuccess) :=
  if negb (authorize [admin; hod] actor)
  then (st, Forbidden403 insufficient)
  else
    match items with
    | [] => (st, BadRequest400 "Subjects array is required")
    | _ =>
        let (st', results) :=
          bulk_loop (bulk_subject_step actor) st 0%nat items
            (mkResults [] []) in
        (st', Ok200 results)
    end.

(** *** POST /api/users/bulk-create *)

(** An element of [req.body.users]. *)
Module UserData.
Record t := mk {
  userId : option string;
  email : option string;
  password : option string;
  firstName : option string;
  lastName : option string;
  role : option Role;
  department : option ObjectId;
  academicYear : option string;
  semester : option Z;
  rollNumber : option string;
  employeeId : option string
}.
End UserData.

Record UserSuccess := mkUserSuccess {
  us_userId : option string;
  us_name : string
}.

(** [required] on a string path: absent and empty are both refused. *)
Definition present (x : option string) : bool :=
  match x with
  | Some s => negb (String.eqb s EmptyString)
  | None => false
  end.

Definition is_some {T} (x : option T) : bool :=
  match x with
  | Some _ => true
  | None => false
  end.

Definition same_text (x : option string) (y : option string) : bool :=
  match x, y with
  | Some a, Some b => String.eqb a b
  | _, _ => false
  end.

(** The presence, length, range and enumeration constraints of
    [userSchema], the conditional ones by role. *)
Definition User_validate (d : UserData.t) : option Exception :=
  if negb (present (UserData.userId d)) then Some (ValidationError "userId")
  else if negb (present (UserData.email d)) then Some (ValidationError "email")
  else if negb (present (UserData.password d)
                && (6 <=? String.length (default EmptyString (UserData.password d)))%nat)
  then Some (ValidationError "password")
  else if negb (present (UserData.firstName d))
  then Some (ValidationError "firstName")
  else if negb (present (UserData.lastName d))
  then Some (ValidationError "lastName")
  else
    match UserData.role d with
    | None => Some (ValidationError "role")
    | Some r =>
        if negb (Role_eqb r admin) && negb (is_some (UserData.department d))
        then Some (ValidationError "department")
        else if Role_eqb r student
                && negb (present (UserData.academicYear d))
        then Some (ValidationError "academicYear")
        else if negb (opt_test (UserData.academicYear d) year_ok)
        then Some (ValidationError "academicYear")
        else if Role_eqb r student && negb (is_some (UserData.semester d))
        then Some (ValidationError "semester")
        else if negb (opt_test (UserData.semester d)
                        (fun s => (1 <=? s) && (s <=? 8)))
        then Some (ValidationError "semester")
        else if Role_eqb r student && negb (present (UserData.rollNumber d))
        then Some (ValidationError "rollNumber")
        else if (Role_eqb r teacher || Role_eqb r hod)
                && negb (present (UserData.employeeId d))
        then Some (ValidationError "employeeId")
        else None
    end.

(** The unique indexes of [userSchema]; the two sparse ones hold among
    the documents that have the path. *)
Definition User_duplicate (d : UserData.t) (us : list User.t)
  : option Exception :=
  if existsb (fun u => same_text (Some (User.userId u)) (UserData.userId d)) us
  then Some (DuplicateKey "userId")
  else if existsb (fun u => same_text (Some (User.email u)) (UserData.email d)) us
  then Some (DuplicateKey "email")
  else if existsb (fun u => same_text (User.rollNumber u) (UserData.rollNumber d)) us
  then Some (DuplicateKey "rollNumber")
  else if existsb (fun u => same_text (User.employeeId u) (UserData.employeeId d)) us
  then Some (DuplicateKey "employeeId")
  else None.

(** The setters of [userSchema], as [new User(userData)] applies them:
    [trim] on the login and the names, [lowercase] and [trim] on the
    email. *)
Definition as_email (e : string) : string := trim (toLowerCase e).

Definition with_setters (d : UserData.t) : UserData.t :=
  UserData.mk (option_map trim (UserData.userId d))
    (option_map as_email (UserData.email d)) (UserData.password d)
    (option_map trim (UserData.firstName d))
    (option_map trim (UserData.lastName d)) (UserData.role d)
    (UserData.department d) (UserData.academicYear d) (UserData.semester d)
    (UserData.rollNumber d) (UserData.employeeId d).

(** [new User(userData)] and its [save()].  The hook of the schema
    replaces the password by its bcrypt hash, a service outside this
    embedding: the stored text stands for the hash. *)
Definition User_save (id : ObjectId) (userData : UserData.t) (st : Store)
  : Exception + Store :=
  let d := with_setters userData in
  match User_validate d with
  | Some e => inl e
  | None =>
      match User_duplicate d (users st) with
      | Some e => inl e
      | None =>
          inr (set_users
                 (users st ++
                  [User.mk id (default EmptyString (UserData.userId d))
                     (default EmptyString (UserData.email d))
                     (default EmptyString (UserData.password d))
                     (default EmptyString (UserData.firstName d))
                     (default EmptyString (UserData.lastName d))
                     (default student (UserData.role d))
                     (UserData.department d) (UserData.academicYear d)
                     (UserData.semester d) (UserData.rollNumber d)
                     (UserData.employeeId d) true]) st)
      end
  end.

(** [User.findOne({$or: [{userId: ...}, {email: ...}]})]; the two
    values are cast as the paths are, through their setters. *)
Definition User_findOne (userId email : option string) (st : Store)
  : option User.t :=
  find (fun u => same_text (Some (User.userId u)) (option_map trim userId)
                 || same_text (Some (User.email u))
                      (option_map as_email email)) (users st).

(** One turn of the loop of POST /api/users/bulk-create. *)
Definition bulk_user_step (st : Store) (userData : UserData.t)
  : Store * (UserSuccess + Reason) :=
  match User_findOne (UserData.userId userData) (UserData.email userData)
          st with
  | Some _ =>
      (st, inr (Message ("User " ++ shown (UserData.userId userData)
                         ++ " already exists")))
  | None =>
      match User_save (fresh_id (map User._id (users st))) userData st with
      | inr st' =>
          (st', inl (mkUserSuccess (UserData.userId userData)
                       (shown (UserData.firstName userData) ++ " "
                        ++ shown (UserData.lastName userData))))
      | inl e => (st, inr (Thrown e))
      end
  end.

(** POST /api/users/bulk-create *)
Definition bulk_create_users (st : Store) (actor : User.t)
  (items : list UserData.t) : Store * Response (Results UserSuccess) :=
  if negb (authorize [admin] actor)
  then (st, Forbidden403 insufficient)
  else
    match items with
    | [] => (st, BadRequest400 "Users array is required")
    | _ =>
        let (st', results) :=
          bulk_loop bulk_user_step st 0%nat items (mkResults [] []) in
        (st', Ok200 results)
    end.

(** ** The writing requests, as one transition system *)

Inductive Request :=
| PostGrade (actor : User.t) (b : GradeBody.t)
| PutGrade (actor : User.t) (id : ObjectId) (b : PutBody.t) (now : nat)
| DeleteGrade (actor : User.t) (id : ObjectId)
| BulkCreateGrades (actor : User.t) (items : list GradeData.t)
| PublishBulk (actor : User.t) (gradeIds : list ObjectId) (now : nat)
| BulkCreateSubjects (actor : User.t) (items : list SubjectData.t)
| BulkCreateUsers (actor : User.t) (items : list UserData.t).

(** The store a request leaves. *)
Definition handle (st : Store) (r : Request) : Store :=
  match r with
  | PostGrade actor b => fst (post_grade st actor b)
  | PutGrade actor id b now => fst (put_grade st actor id b now)
  | DeleteGrade actor id => fst (delete_grade st actor id)
  | BulkCreateGrades actor items => fst (bulk_create_grades st actor items)
  | PublishBulk actor ids now => fst (publish_bulk st actor ids now)
  | BulkCreateSubjects actor items => fst (bulk_create_subjects st actor items)
  | BulkCreateUsers actor items => fst (bulk_create_users st actor items)
  end.

Definition run (st : Store) (rs : list Request) : Store :=
  fold_left handle rs st.

(** The derived fields of a grade agree with its marks: the total is the
    sum of the components and the letter and points are those of the
    scale at that total. *)
Definition derived_ok (g : Grade.t) : Prop :=
  let m := Grade.marks g in
  let t := or0 (Marks.theory m) + or0 (Marks.practical m)
           + or0 (Marks.internal m) in
  Marks.total m = Some t /\
  Grade.grade g = Some (fst (scale t)) /\
  Grade.gradePoints g = Some (snd (scale t)).

(** Every subject a grade of the store refers to is in the store. *)
Definition subjects_resolve (st : Store) : Prop :=
  forall g, In g (grades st) -> Subject_findById (Grade.subject g) st <> None.

(** * Part II: the properties *)

(** ** Facts on Numbers *)

(** Rounding to the nearest Number keeps a value that is not negative
    within the integer bounds it lies in. *)
Lemma half_even_nonneg (n d : Z) :
  0 <= n -> 0 < d -> 0 <= Number.half_even n d.
Proof.
  intros Hn Hd. unfold Number.half_even. cbv zeta.
  pose proof (Z.div_pos n d Hn Hd).
  repeat match goal with
         | |- context [if ?c then _ else _] => destruct c
         end; lia.
Qed.

Lemma half_even_le (n d N : Z) :
  0 < d -> n <= N * d -> Number.half_even n d <= N.
Proof.
  intros Hd H. unfold Number.half_even. cbv zeta.
  pose proof (Z.div_mod n d ltac:(lia)) as E.
  pose proof (Z.mod_pos_bound n d Hd) as B.
  assert (Q : n / d <= N) by (apply Z.div_le_upper_bound; lia).
  destruct (Z.ltb_spec (2 * (n mod d)) d); [exact Q|].
  assert (n / d < N) by nia.
  repeat match goal with
         | |- context [if ?c then _ else _] => destruct c
         end; lia.
Qed.

Lemma exponent_small (a d : Z) :
  0 < a -> 0 < d -> a < 2 ^ 53 * d -> Number.exponent a d <= 0.
Proof.
  intros Ha Hd H. unfold Number.exponent. cbv zeta.
  destruct (Z.log2_spec a Ha) as [La _].
  destruct (Z.log2_spec d Hd) as [_ Ld].
  pose proof (Z.log2_nonneg a). pose proof (Z.log2_nonneg d).
  assert (K : Z.log2 a - Z.log2 d <= 53).
  { destruct (Z.le_gt_cases (Z.log2 a - Z.log2 d) 53) as [|G]; [assumption|].
    exfalso.
    assert (2 ^ (Z.log2 d + 54) <= 2 ^ Z.log2 a)
      by (apply Z.pow_le_mono_r; lia).
    replace (Z.log2 d + 54) with (Z.succ (Z.log2 d) + 53) in * by lia.
    rewrite Z.pow_add_r in * by lia.
    assert (0 < 2 ^ 53) by (apply Z.pow_pos_nonneg; lia).
    nia. }
  destruct (Z.leb_spec 0 (Z.log2 a - Z.log2 d)) as [P|N].
  - destruct (Z.leb_spec (d * 2 ^ (Z.log2 a - Z.log2 d)) a) as [R|_]; [|lia].
    destruct (Z.eq_dec (Z.log2 a - Z.log2 d) 53) as [E|]; [|lia].
    rewrite E in R. lia.
  - destruct (_ <=? _); lia.
Qed.

Lemma binary64_bounds (x : Q) (K : Z) :
  (0 <= x)%Q -> (x <= inject_Z K)%Q -> K < 2 ^ 53 ->
  (0 <= Number.binary64 x)%Q /\ (Number.binary64 x <= inject_Z K)%Q.
Proof.
  intros H0 HK Hs. unfold Number.binary64. cbv zeta.
  destruct x as [n d]. unfold Qle in H0, HK.
  cbn [Qnum Qden inject_Z] in H0, HK |- *.
  destruct (Z.eqb_spec n 0) as [|Nz].
  - split; [apply Qle_refl|]. unfold Qle. simpl. lia.
  - assert (Hn : 0 < n) by lia.
    rewrite Z.abs_eq by lia. rewrite Z.sgn_pos by lia.
    assert (He : Number.exponent n (Z.pos d) <= 0).
    { apply exponent_small; [lia | lia |]. nia. }
    set (e := Number.exponent n (Z.pos d)) in *.
    rewrite Z.max_r by lia. rewrite Z.max_l by lia.
    unfold Number.significand.
    destruct (Z.leb_spec e 0) as [_|]; [|lia].
    assert (Hp : 0 < 2 ^ (- e)) by (apply Z.pow_pos_nonneg; lia).
    set (p := 2 ^ (- e)) in *.
    pose proof (half_even_nonneg (n * p) (Z.pos d) ltac:(nia) ltac:(lia))
      as M0.
    pose proof (half_even_le (n * p) (Z.pos d) (K * p) ltac:(lia)
                  ltac:(nia)) as M1.
    set (m := Number.half_even (n * p) (Z.pos d)) in *.
    split.
    + eapply Qle_trans; [|apply Qle_lteq; right; symmetry; apply Qred_correct].
      unfold Qle. cbn [Qnum Qden]. change (2 ^ 0) with 1. nia.
    + eapply Qle_trans; [apply Qle_lteq; right; apply Qred_correct|].
      unfold Qle. cbn [Qnum Qden inject_Z]. change (2 ^ 0) with 1.
      rewrite Z2Pos.id by lia. nia.
Qed.

(** Known values: the Number written 0.1; a third; 0.1 + 0.2, which is
    not the Number written 0.3; and two integers above 2^53 that lie
    halfway between two Numbers, rounded to the even one. *)
Example binary64_known_values :
  Number.binary64 (1 # 10) = 3602879701896397 # 36028797018963968 /\
  Number.div 1 3 = 6004799503160661 # 18014398509481984 /\
  Number.add (Number.binary64 (1 # 10)) (Number.binary64 (2 # 10))
  = 1351079888211149 # 4503599627370496 /\
  Number.binary64 (3 # 10) = 5404319552844595 # 18014398509481984 /\
  Number.binary64 (inject_Z 9007199254740993) = inject_Z 9007199254740992 /\
  Number.binary64 (inject_Z 9007199254740995) = inject_Z 9007199254740996.
Proof. vm_compute. repeat split; reflexivity. Qed.

(** The integers up to 300 are Numbers: rounding leaves them as they
    are, and so does adding two of them whose sum is within 300. *)
Definition exact_on (n : Z) : bool :=
  match Number.binary64 (inject_Z n) with
  | p # q => (p =? n) && (q =? 1)%positive
  end.

Lemma exact_upto_300 : forallb exact_on (map Z.of_nat (seq 0 301)) = true.
Proof. vm_compute. reflexivity. Qed.

Lemma binary64_integer (n : Z) :
  0 <= n <= 300 -> Number.binary64 (inject_Z n) = inject_Z n.
Proof.
  intros H. pose proof exact_upto_300 as E. rewrite forallb_forall in E.
  assert (Hin : In n (map Z.of_nat (seq 0 301))).
  { apply in_map_iff. exists (Z.to_nat n). split; [lia|].
    apply in_seq. lia. }
  specialize (E n Hin). unfold exact_on in E.
  destruct (Number.binary64 (inject_Z n)) as [p q].
  apply andb_true_iff in E. destruct E as [Ep Eq].
  apply Z.eqb_eq in Ep. apply Pos.eqb_eq in Eq. subst. reflexivity.
Qed.

Lemma add_integers (a b : Z) :
  0 <= a + b <= 300 ->
  Number.add (inject_Z a) (inject_Z b) = inject_Z (a + b).
Proof.
  intros H. unfold Number.add.
  replace (inject_Z a + inject_Z b)%Q with (inject_Z (a + b)).
  - apply binary64_integer. exact H.
  - unfold Qplus, inject_Z. cbn [Qnum Qden]. rewrite !Z.mul_1_r.
    reflexivity.
Qed.

Lemma number_or0_integer (x : option Z) :
  number_or0 (option_map inject_Z x) = inject_Z (or0 x).
Proof.
  destruct x as [v|]; [|reflexivity]. simpl.
  destruct (Z.eqb_spec v 0) as [->|N]; [reflexivity|].
  destruct (Qeq_bool (inject_Z v) 0) eqn:E; [|reflexivity].
  apply Qeq_bool_iff in E. unfold Qeq in E. simpl in E. lia.
Qed.

Lemma number_or0_default (x : option Q) :
  (number_or0 x == default 0%Q x)%Q.
Proof.
  destruct x as [v|]; simpl; [|reflexivity].
  destruct (Qeq_bool v 0) eqn:E; [|reflexivity].
  apply Qeq_bool_iff in E. symmetry. exact E.
Qed.

Lemma number_or0_range (x : option Q) :
  number_okb x = true ->
  (0 <= number_or0 x)%Q /\ (number_or0 x <= inject_Z 100)%Q.
Proof.
  destruct x as [v|]; simpl; [|intros _; split; discriminate].
  intros H. apply andb_true_iff in H. destruct H as [H0 H1].
  apply Qle_bool_iff in H0, H1.
  destruct (Qeq_bool v 0); [split; discriminate|]. split; assumption.
Qed.

Lemma number_okb_integer (x : option Z) :
  number_okb (option_map inject_Z x) = true -> component_ok x.
Proof.
  destruct x as [v|]; simpl; [|tauto].
  intros H. apply andb_true_iff in H. destruct H as [H0 H1].
  apply Qle_bool_iff in H0, H1.
  change 0%Q with (inject_Z 0) in H0. change 100%Q with (inject_Z 100) in H1.
  rewrite <- Zle_Qle in H0, H1. lia.
Qed.

(** The test [total >= n] of the scale on a Number. *)
Lemma number_geq_spec (t : Q) (n : Z) :
  (number_geq (Some t) n = true <-> (inject_Z n <= t)%Q) /\
  (number_geq (Some t) n = false <-> (t < inject_Z n)%Q).
Proof.
  unfold number_geq. split; [apply Qle_bool_iff|].
  split.
  - intros H. apply Qnot_le_lt. intros L. apply Qle_bool_iff in L.
    congruence.
  - intros H. destruct (Qle_bool (inject_Z n) t) eqn:E; [|reflexivity].
    apply Qle_bool_iff in E. exfalso. exact (Qlt_not_le _ _ H E).
Qed.

(** ** Small facts on the enumerations and on the hook *)

Lemma Role_eqb_eq (a b : Role) : Role_eqb a b = true <-> a = b.
Proof. destruct a, b; simpl; split; congruence. Qed.


Lemma component_okb_spec (x : option Z) :
  component_okb x = true <-> component_ok x.
Proof.
  destruct x as [v|]; simpl; [|tauto].
  rewrite andb_true_iff, !Z.leb_le. tauto.
Qed.

Lemma or0_default (x : option Z) :
  or0 x = match x with Some v => v | None => 0 end.
Proof.
  destruct x as [v|]; simpl; [|reflexivity].
  destruct (Z.eqb_spec v 0); congruence.
Qed.

Lemma or0_range (x : option Z) : component_ok x -> 0 <= or0 x <= 100.
Proof.
  rewrite or0_default. destruct x; simpl; lia.
Qed.

(** Case analysis on every test of the scale in the goal. *)
Ltac scale_cases :=
  repeat match goal with
         | |- context [if ?b then _ else _] => destruct b
         end.

Lemma pre_save_total (g : Grade.t) :
  Marks.total (Grade.marks (pre_save g)) =
  Some (or0 (Marks.theory (Grade.marks g))
        + or0 (Marks.practical (Grade.marks g))
        + or0 (Marks.internal (Grade.marks g))).
Proof.
  unfold pre_save, calculateGrade. simpl. scale_cases; reflexivity.
Qed.

Lemma calculateGrade_scale (g : Grade.t) (t : Z) :
  Marks.total (Grade.marks g) = Some t ->
  Grade.grade (calculateGrade g) = Some (fst (scale t)) /\
  Grade.gradePoints (calculateGrade g) = Some (snd (scale t)).
Proof.
  intros Ht. unfold calculateGrade, scale, geq. rewrite Ht.
  scale_cases; split; reflexivity.
Qed.

(** The hook changes the derived fields and nothing else. *)
Lemma calculateGrade_frame (g : Grade.t) :
  let g' := calculateGrade g in
  Grade._id g' = Grade._id g /\ Grade.student g' = Grade.student g /\
  Grade.subject g' = Grade.subject g /\ Grade.teacher g' = Grade.teacher g /\
  Grade.marks g' = Grade.marks g /\ Grade.semester g' = Grade.semester g /\
  Grade.academicYear g' = Grade.academicYear g /\
  Grade.examType g' = Grade.examType g /\
  Grade.isPublished g' = Grade.isPublished g /\
  Grade.publishedAt g' = Grade.publishedAt g /\
  Grade.remarks g' = Grade.remarks g.
Proof.
  unfold calculateGrade. scale_cases; simpl; repeat split; reflexivity.
Qed.

Lemma pre_save_frame (g : Grade.t) :
  let g' := pre_save g in
  Grade._id g' = Grade._id g /\ Grade.student g' = Grade.student g /\
  Grade.subject g' = Grade.subject g /\ Grade.teacher g' = Grade.teacher g /\
  Grade.semester g' = Grade.semester g /\
  Grade.academicYear g' = Grade.academicYear g /\
  Grade.examType g' = Grade.examType g /\
  Grade.isPublished g' = Grade.isPublished g /\
  Grade.publishedAt g' = Grade.publishedAt g /\
  Grade.remarks g' = Grade.remarks g /\
  Marks.theory (Grade.marks g') = Marks.theory (Grade.marks g) /\
  Marks.practical (Grade.marks g') = Marks.practical (Grade.marks g) /\
  Marks.internal (Grade.marks g') = Marks.internal (Grade.marks g).
Proof.
  unfold pre_save.
  match goal with |- context [calculateGrade ?x] =>
    destruct (calculateGrade_frame x)
      as (H1 & H2 & H3 & H4 & H5 & H6 & H7 & H8 & H9 & H10 & H11)
  end.
  cbv zeta. rewrite H1, H2, H3, H4, H5, H6, H7, H8, H9, H10, H11.
  simpl. repeat split; reflexivity.
Qed.

Lemma pre_save_derived_ok (g : Grade.t) : derived_ok (pre_save g).
Proof.
  destruct (pre_save_frame g)
    as (_ & _ & _ & _ & _ & _ & _ & _ & _ & _ & Ht & Hp & Hi).
  unfold derived_ok. cbv zeta. rewrite Ht, Hp, Hi.
  split; [apply pre_save_total|].
  unfold pre_save. apply calculateGrade_scale. reflexivity.
Qed.

(** ** C2: the total and the scale *)

Lemma calculateGrade_number_integer (s : Z) :
  calculateGrade_number (Some (inject_Z s)) = scale s.
Proof.
  unfold calculateGrade_number, scale, number_geq, Qle_bool.
  cbn [Qnum Qden inject_Z]. rewrite !Z.mul_1_r. reflexivity.
Qed.

(** Marks whose three Numbers are written 10.2, 21.9 and 7.9. *)
Definition marks_of_tenths : NumberMarks.t :=
  NumberMarks.mk (Some (Number.binary64 (102 # 10)))
    (Some (Number.binary64 (219 # 10))) (Some (Number.binary64 (79 # 10)))
    None.

(** C2, as the specification states it, does not hold of marks that are
    not integers, which the schema and the routes accept: on 10.2, 21.9
    and 7.9, each within 0..100 and of sum 40, the two additions of the
    hook leave a total below 40, which is not the sum of the three
    Numbers either, and the letter is F with 0 points where the scale
    gives P and 4 points at 40. *)
Lemma C2_fractions_miss_the_sum :
  number_okb (NumberMarks.theory marks_of_tenths) = true /\
  number_okb (NumberMarks.practical marks_of_tenths) = true /\
  number_okb (NumberMarks.internal marks_of_tenths) = true /\
  ((102 # 10) + (219 # 10) + (79 # 10) == 40)%Q /\
  exists t,
    NumberMarks.total (fst (pre_save_number marks_of_tenths)) = Some t /\
    (t < 40)%Q /\
    ~ (t == Number.binary64 (102 # 10) + Number.binary64 (219 # 10)
            + Number.binary64 (79 # 10))%Q /\
    snd (pre_save_number marks_of_tenths) = (Letter.F, 0) /\
    scale 40 = (Letter.P, 4).
Proof.
  do 4 (split; [reflexivity|]). eexists. split; [reflexivity|].
  split; [reflexivity|]. split; [|split; reflexivity].
  intros E. apply Qeq_bool_iff in E. vm_compute in E. discriminate E.
Qed.

(** C2 (amended). For marks whose components are Numbers, absent or
    within 0..100, the hook leaves as total the result of its two
    additions on the components (an absent one counting 0), each
    rounded to the nearest Number; the total lies within 0..300; and the
    letter and the points are those of the fixed scale on each of its
    eight intervals of the total.  When the components are integers, the
    total is their sum, and the hook on integer marks, used for the
    stored documents, leaves the same total, letter and points. *)
Theorem C2_total_and_scale (m : NumberMarks.t) :
  number_okb (NumberMarks.theory m) = true ->
  number_okb (NumberMarks.practical m) = true ->
  number_okb (NumberMarks.internal m) = true ->
  exists t,
    NumberMarks.total (fst (pre_save_number m)) = Some t /\
    t = Number.add
          (Number.add (number_or0 (NumberMarks.theory m))
             (number_or0 (NumberMarks.practical m)))
          (number_or0 (NumberMarks.internal m)) /\
    (number_or0 (NumberMarks.theory m)
     == default 0 (NumberMarks.theory m))%Q /\
    (number_or0 (NumberMarks.practical m)
     == default 0 (NumberMarks.practical m))%Q /\
    (number_or0 (NumberMarks.internal m)
     == default 0 (NumberMarks.internal m))%Q /\
    (0 <= t)%Q /\ (t <= 300)%Q /\
    let r := snd (pre_save_number m) in
    ((90 <= t)%Q -> r = (Letter.O, 10)) /\
    ((80 <= t)%Q /\ (t < 90)%Q -> r = (Letter.Aplus, 9)) /\
    ((70 <= t)%Q /\ (t < 80)%Q -> r = (Letter.A, 8)) /\
    ((60 <= t)%Q /\ (t < 70)%Q -> r = (Letter.Bplus, 7)) /\
    ((55 <= t)%Q /\ (t < 60)%Q -> r = (Letter.B, 6)) /\
    ((50 <= t)%Q /\ (t < 55)%Q -> r = (Letter.C, 5)) /\
    ((40 <= t)%Q /\ (t < 50)%Q -> r = (Letter.P, 4)) /\
    ((t < 40)%Q -> r = (Letter.F, 0)) /\
    forall g : Grade.t,
      m = as_numbers (Grade.marks g) ->
      let s := default 0 (Marks.theory (Grade.marks g))
               + default 0 (Marks.practical (Grade.marks g))
               + default 0 (Marks.internal (Grade.marks g)) in
      t = inject_Z s /\ 0 <= s <= 300 /\ r = scale s /\
      Marks.total (Grade.marks (pre_save g)) = Some s /\
      Grade.grade (pre_save g) = Some (fst (scale s)) /\
      Grade.gradePoints (pre_save g) = Some (snd (scale s)).
Proof.
  intros Ht Hp Hi.
  destruct (number_or0_range _ Ht) as [T0 T1].
  destruct (number_or0_range _ Hp) as [P0 P1].
  destruct (number_or0_range _ Hi) as [I0 I1].
  assert (S1 : (0 <= Number.add (number_or0 (NumberMarks.theory m))
                       (number_or0 (NumberMarks.practical m)))%Q /\
               (Number.add (number_or0 (NumberMarks.theory m))
                  (number_or0 (NumberMarks.practical m))
                <= inject_Z 200)%Q).
  { apply binary64_bounds; [| |reflexivity].
    - apply (Qle_trans _ (0 + 0)); [discriminate|].
      apply Qplus_le_compat; assumption.
    - apply (Qle_trans _ (inject_Z 100 + inject_Z 100)); [|discriminate].
      apply Qplus_le_compat; assumption. }
  destruct S1 as [S0 S1].
  assert (S2 : (0 <= Number.add
                       (Number.add (number_or0 (NumberMarks.theory m))
                          (number_or0 (NumberMarks.practical m)))
                       (number_or0 (NumberMarks.internal m)))%Q /\
               (Number.add
                  (Number.add (number_or0 (NumberMarks.theory m))
                     (number_or0 (NumberMarks.practical m)))
                  (number_or0 (NumberMarks.internal m))
                <= inject_Z 300)%Q).
  { apply binary64_bounds; [| |reflexivity].
    - apply (Qle_trans _ (0 + 0)); [discriminate|].
      apply Qplus_le_compat; assumption.
    - apply (Qle_trans _ (inject_Z 200 + inject_Z 100)); [|discriminate].
      apply Qplus_le_compat; assumption. }
  destruct S2 as [R0 R1].
  eexists. split; [reflexivity|]. split; [reflexivity|].
  do 3 (split; [apply number_or0_default|]).
  split; [exact R0|]. split; [exact R1|].
  unfold pre_save_number. cbv zeta. cbn [snd].
  set (t := Number.add (Number.add _ _) _) in *.
  assert (Scale :
    ((90 <= t)%Q -> calculateGrade_number (Some t) = (Letter.O, 10)) /\
    ((80 <= t)%Q /\ (t < 90)%Q ->
     calculateGrade_number (Some t) = (Letter.Aplus, 9)) /\
    ((70 <= t)%Q /\ (t < 80)%Q ->
     calculateGrade_number (Some t) = (Letter.A, 8)) /\
    ((60 <= t)%Q /\ (t < 70)%Q ->
     calculateGrade_number (Some t) = (Letter.Bplus, 7)) /\
    ((55 <= t)%Q /\ (t < 60)%Q ->
     calculateGrade_number (Some t) = (Letter.B, 6)) /\
    ((50 <= t)%Q /\ (t < 55)%Q ->
     calculateGrade_number (Some t) = (Letter.C, 5)) /\
    ((40 <= t)%Q /\ (t < 50)%Q ->
     calculateGrade_number (Some t) = (Letter.P, 4)) /\
    ((t < 40)%Q -> calculateGrade_number (Some t) = (Letter.F, 0))).
  { unfold calculateGrade_number. clearbody t. destruct t as [p q].
    repeat match goal with
           | |- context [number_geq (Some (p # q)) ?n] =>
               let E := fresh "E" in
               destruct (number_geq (Some (p # q)) n) eqn:E;
               [apply (proj1 (number_geq_spec _ _)) in E
               |apply (proj2 (number_geq_spec _ _)) in E]
           end;
      unfold Qle, Qlt in *; cbn [Qnum Qden inject_Z] in *;
      repeat split; intros; solve [reflexivity | exfalso; lia]. }
  destruct Scale as (C1 & C2 & C3 & C4 & C5 & C6 & C7 & C8).
  do 8 (split; [assumption|]).
  intros g Em. cbv zeta.
  assert (Et : t = inject_Z (or0 (Marks.theory (Grade.marks g))
                             + or0 (Marks.practical (Grade.marks g))
                             + or0 (Marks.internal (Grade.marks g))) /\
               0 <= or0 (Marks.theory (Grade.marks g))
                    + or0 (Marks.practical (Grade.marks g))
                    + or0 (Marks.internal (Grade.marks g)) <= 300).
  { subst m. unfold as_numbers in *.
    cbn [NumberMarks.theory NumberMarks.practical NumberMarks.internal] in *.
    pose proof (or0_range _ (number_okb_integer _ Ht)) as Zt.
    pose proof (or0_range _ (number_okb_integer _ Hp)) as Zp.
    pose proof (or0_range _ (number_okb_integer _ Hi)) as Zi.
    split; [|lia]. unfold t.
    rewrite !number_or0_integer. rewrite add_integers by lia.
    apply add_integers. lia. }
  destruct Et as [Et Rs]. rewrite !or0_default in Et, Rs.
  destruct (pre_save_derived_ok g) as (Htot & Hl & Hq).
  destruct (pre_save_frame g)
    as (_ & _ & _ & _ & _ & _ & _ & _ & _ & _ & Ft & Fp & Fi).
  cbv zeta in Htot, Hl, Hq. rewrite Ft, Fp, Fi in Htot, Hl, Hq.
  rewrite !or0_default in Htot, Hl, Hq.
  split; [exact Et|]. split; [exact Rs|].
  split; [rewrite Et; apply calculateGrade_number_integer|].
  split; [exact Htot|]. split; [exact Hl | exact Hq].
Qed.

(** The boundary values the specification lists. *)
Definition of_total (theory : Z) : Grade.t :=
  pre_save
    (Grade.mk 1%nat 1%nat 1%nat 1%nat (Marks.mk (Some theory) None None None) None None 1
       "1st Year" Regular false None None).

Lemma C2_witness :
  let g := Grade.mk 1%nat 1%nat 1%nat 1%nat
             (Marks.mk (Some 55) (Some 20) None (Some 7))
             (Some Letter.Ab) (Some 3) 1 "1st Year" Regular false None None in
  exists t,
    NumberMarks.total (fst (pre_save_number (as_numbers (Grade.marks g))))
    = Some t /\
    t = inject_Z 75 /\
    snd (pre_save_number (as_numbers (Grade.marks g))) = (Letter.A, 8) /\
    Marks.total (Grade.marks (pre_save g)) = Some 75 /\
    (Grade.grade (pre_save g), Grade.gradePoints (pre_save g))
    = (Some Letter.A, Some 8).
Proof.
  intros g.
  destruct (C2_total_and_scale (as_numbers (Grade.marks g))
              eq_refl eq_refl eq_refl)
    as (t & Ht & _ & _ & _ & _ & _ & _ & _ & _ & _ & _ & _ & _ & _ & _ & Hg).
  destruct (Hg g eq_refl) as (Et & _ & Er & Htot & Hl & Hq).
  exists t. split; [exact Ht|]. split; [exact Et|].
  split; [exact Er|]. split; [exact Htot|].
  rewrite Hl, Hq. reflexivity.
Defined.

Example scale_boundaries :
  map (fun t => (Grade.grade (of_total t), Grade.gradePoints (of_total t)))
      [39; 40; 49; 50; 54; 55; 59; 60; 69; 70; 79; 80; 89; 90; 100]
  = [(Some Letter.F, Some 0); (Some Letter.P, Some 4); (Some Letter.P, Some 4);
     (Some Letter.C, Some 5); (Some Letter.C, Some 5); (Some Letter.B, Some 6);
     (Some Letter.B, Some 6); (Some Letter.Bplus, Some 7);
     (Some Letter.Bplus, Some 7); (Some Letter.A, Some 8);
     (Some Letter.A, Some 8); (Some Letter.Aplus, Some 9);
     (Some Letter.Aplus, Some 9); (Some Letter.O, Some 10);
     (Some Letter.O, Some 10)].
Proof. reflexivity. Qed.

(** ** C3: the derived fields of every stored grade follow its marks *)


Lemma Grade_save_inr (g g' : Grade.t) (st st' : Store) :
  Grade_save g st = inr (g', st') ->
  Grade_validate g = None /\ g' = pre_save g /\
  st' = set_grades (persist (pre_save g) (grades st)) st.
Proof.
  unfold Grade_save. destruct (Grade_validate g); [discriminate|].
  intros H. inversion H. auto.
Qed.









(** An invariant of one turn is an invariant of the loop. *)
Lemma bulk_loop_invariant {State Item Done : Type}
  (step : State -> Item -> State * (Done + Reason))
  (Inv : State -> Prop) :
  (forall st x, Inv st -> Inv (fst (step st x))) ->
  forall items st i r, Inv st -> Inv (fst (bulk_loop step st i items r)).
Proof.
  intros Hstep. induction items as [|x rest IH]; intros st i r Hst;
    simpl; [assumption|].
  specialize (Hstep st x Hst).
  destruct (step st x) as [st' o]. apply IH. exact Hstep.
Qed.



(** The bulk loops on subjects and on users leave the grades alone. *)
Lemma Subject_save_inr (id : ObjectId) (d : SubjectData.t)
  (st st' : Store) :
  Subject_save id d st = inr st' ->
  exists s, st' = set_subjects (subjects st ++ [s]) st.
Proof.
  unfold Subject_save.
  repeat match goal with
         | |- context [match ?x with _ => _ end] => destruct x
         end; intros H; inversion H; eexists; reflexivity.
Qed.

Lemma User_save_inr (id : ObjectId) (d : UserData.t) (st st' : Store) :
  User_save id d st = inr st' ->
  exists u, st' = set_users (users st ++ [u]) st.
Proof.
  unfold User_save. cbv zeta.
  destruct (User_validate (with_setters d)); [discriminate|].
  destruct (User_duplicate (with_setters d) (users st)); [discriminate|].
  intros H. inversion H. eexists; reflexivity.
Qed.

Lemma bulk_subject_step_grades (actor : User.t) (st : Store)
  (d : SubjectData.t) :
  grades (fst (bulk_subject_step actor st d)) = grades st.
Proof.
  unfold bulk_subject_step. cbv zeta.
  destruct (match User.role actor with hod => _ | _ => _ end) as [e|d'];
    [reflexivity|].
  destruct (Subject_findOne _ _ st); [reflexivity|].
  destruct (Subject_save _ d' st) as [e|st'] eqn:Hs; [reflexivity|].
  apply Subject_save_inr in Hs. destruct Hs as (s & ->). reflexivity.
Qed.

Lemma bulk_user_step_grades (st : Store) (d : UserData.t) :
  grades (fst (bulk_user_step st d)) = grades st.
Proof.
  unfold bulk_user_step.
  destruct (User_findOne _ _ st); [reflexivity|].
  destruct (User_save _ d st) as [e|st'] eqn:Hs; [reflexivity|].
  apply User_save_inr in Hs. destruct Hs as (u & ->). reflexivity.
Qed.

Lemma bulk_create_subjects_grades (st : Store) (actor : User.t)
  (items : list SubjectData.t) :
  grades (fst (bulk_create_subjects st actor items)) = grades st.
Proof.
  unfold bulk_create_subjects.
  destruct (negb _); [reflexivity|].
  destruct items as [|x rest]; [reflexivity|].
  pose proof (bulk_loop_invariant (bulk_subject_step actor)
                (fun s => grades s = grades st)
                (fun s y H =>
                   eq_trans (bulk_subject_step_grades actor s y) H)
                (x :: rest) st 0%nat (mkResults [] []) eq_refl) as H.
  destruct (bulk_loop _ _ _ _ _) as [st' res]. exact H.
Qed.

Lemma bulk_create_users_grades (st : Store) (actor : User.t)
  (items : list UserData.t) :
  grades (fst (bulk_create_users st actor items)) = grades st.
Proof.
  unfold bulk_create_users.
  destruct (negb _); [reflexivity|].
  destruct items as [|x rest]; [reflexivity|].
  pose proof (bulk_loop_invariant bulk_user_step
                (fun s => grades s = grades st)
                (fun s y H => eq_trans (bulk_user_step_grades s y) H)
                (x :: rest) st 0%nat (mkResults [] []) eq_refl) as H.
  destruct (bulk_loop _ _ _ _ _) as [st' res]. exact H.
Qed.




(** ** Facts on the reading side: filters, pages, the selection *)

Lemma User_findById_id (id : ObjectId) (st : Store) (u : User.t) :
  User_findById id st = Some u -> User._id u = id.
Proof.
  unfold User_findById. intros H. apply find_some in H.
  destruct H as [_ H]. apply Nat.eqb_eq in H. exact H.
Qed.

Lemma opt_test_some {T} (v : T) (p : T -> bool) :
  opt_test (Some v) p = p v.
Proof. reflexivity. Qed.

(** A grade that passes a filter meets each condition the filter has. *)
Lemma matches_student (f : Filter.t) (g : Grade.t) (uid : ObjectId) :
  Filter.student f = Some uid -> matches f g = true -> Grade.student g = uid.
Proof.
  unfold matches. intros ->. rewrite opt_test_some.
  rewrite !andb_true_iff. intros H. apply Nat.eqb_eq. tauto.
Qed.

Lemma matches_isPublished (f : Filter.t) (g : Grade.t) (p : bool) :
  Filter.isPublished f = Some p -> matches f g = true ->
  Grade.isPublished g = p.
Proof.
  unfold matches. intros ->. rewrite opt_test_some.
  rewrite !andb_true_iff. intros H. apply Bool.eqb_prop. tauto.
Qed.

Lemma In_firstn {T} (n : nat) (l : list T) (x : T) :
  In x (firstn n l) -> In x l.
Proof.
  revert l. induction n as [|n IH]; intros [|h t]; simpl; try tauto.
  intros [H|H]; [left; exact H | right; apply IH; exact H].
Qed.

Lemma In_firstn_skipn {T} (n k : nat) (l : list T) (x : T) :
  In x (firstn n (skipn k l)) -> In x l.
Proof.
  intros H. apply In_firstn in H.
  rewrite <- (firstn_skipn k l). apply in_or_app. right. exact H.
Qed.

Lemma In_paged (page limit : nat) (l shown : list Grade.t) (x : Grade.t) :
  paged page limit l = Some shown -> In x shown -> In x l.
Proof.
  unfold paged. destruct (Nat.eqb limit 0); [congruence|].
  destruct (Nat.eqb page 0); [discriminate|].
  intros H. injection H as <-. apply In_firstn_skipn.
Qed.

(** The grades an answer of the listing shows pass the filter of the
    actor and of the query. *)
Lemma get_grades_ok (st : Store) (actor : User.t) (q : ListQuery.t)
  (l : GradeList.t) :
  get_grades st actor q = Ok200 l ->
  exists f0,
    role_filter st actor = Some f0 /\
    forall g, In g (GradeList.grades l) ->
              In g (Grade_find (query_filter actor q f0) st).
Proof.
  unfold get_grades. destruct (role_filter st actor) as [f0|];
    [|discriminate].
  cbv zeta.
  destruct (paged _ _ _) as [shown|] eqn:Hp; [|discriminate].
  intros H. injection H as <-. exists f0. split; [reflexivity|].
  intros g Hin. simpl in Hin. apply (In_paged _ _ _ _ _ Hp) in Hin.
  unfold newest_first in Hin. apply in_rev in Hin. exact Hin.
Qed.

Lemma In_insert_by_semester (g x : Grade.t) (l : list Grade.t) :
  In x (insert_by_semester g l) <-> x = g \/ In x l.
Proof.
  induction l as [|h t IH]; simpl.
  - intuition congruence.
  - destruct (Grade.semester g <=? Grade.semester h); simpl.
    + intuition congruence.
    + rewrite IH. intuition congruence.
Qed.

Lemma In_sort_by_semester (x : Grade.t) (l : list Grade.t) :
  In x (sort_by_semester l) <-> In x l.
Proof.
  unfold sort_by_semester. induction l as [|h t IH]; simpl; [tauto|].
  rewrite In_insert_by_semester, IH. intuition congruence.
Qed.

(** The grades the CGPA route selects are published grades of the
    student of the path. *)
Lemma selected_scope (st : Store) (studentId : ObjectId) (q : CgpaQuery.t)
  (g : Grade.t) :
  In g (selected st studentId q) ->
  In g (grades st) /\ Grade.student g = studentId /\
  Grade.isPublished g = true.
Proof.
  unfold selected, Grade_find. rewrite In_sort_by_semester.
  intros H. apply filter_In in H. destruct H as [Hin Hm].
  split; [exact Hin|]. split.
  - eapply matches_student; [|exact Hm]. reflexivity.
  - eapply matches_isPublished; [|exact Hm]. reflexivity.
Qed.


(** ** What a successful write leaves in the store *)

Lemma find_persist (g : Grade.t) (gs : list Grade.t) :
  find (fun x => Nat.eqb (Grade._id x) (Grade._id g)) (persist g gs) = Some g.
Proof.
  unfold persist.
  destruct (existsb _ gs) eqn:He.
  - induction gs as [|x rest IH]; simpl in *; [discriminate|].
    destruct (Nat.eqb (Grade._id x) (Grade._id g)) eqn:Hx; simpl.
    + rewrite Nat.eqb_refl. reflexivity.
    + rewrite Hx. apply IH. exact He.
  - induction gs as [|x rest IH]; simpl in *.
    + rewrite Nat.eqb_refl. reflexivity.
    + apply orb_false_iff in He. destruct He as [Hx Hr].
      rewrite Hx. apply IH. exact Hr.
Qed.

Lemma find_some_id (id : ObjectId) (gs : list Grade.t) (g : Grade.t) :
  find (fun x => Nat.eqb (Grade._id x) id) gs = Some g ->
  Grade._id g = id /\ In g gs.
Proof.
  intros H. apply find_some in H. destruct H as [Hin Heq].
  apply Nat.eqb_eq in Heq. auto.
Qed.

Lemma Grade_save_stored (g g' : Grade.t) (st st' : Store) :
  Grade_save g st = inr (g', st') ->
  Grade_findById (Grade._id g') st' = Some g'.
Proof.
  intros H. apply Grade_save_inr in H. destruct H as (_ & -> & ->).
  unfold Grade_findById. simpl. apply find_persist.
Qed.

(** Case analysis on the tests of a route under a hypothesis that fixes
    its answer: the branches with another answer are discarded. *)
Ltac answer_cases H :=
  repeat match type of H with
         | context [match ?x with _ => _ end] =>
             destruct x eqn:?; try discriminate H
         end.

(** A role check answers 403 or 500, never with a success. *)
Lemma post_permission_denies (actor : User.t) (subjectDoc : Subject.t)
  (r : Response Grade.t) :
  post_permission actor subjectDoc = Some r -> ~ succeeded r.
Proof.
  unfold post_permission. intros H. answer_cases H;
    inversion H; subst; simpl; tauto.
Qed.

Lemma put_permission_denies (st : Store) (actor : User.t) (grade : Grade.t)
  (r : Response Grade.t) :
  put_permission st actor grade = Some r -> ~ succeeded r.
Proof.
  unfold put_permission. intros H. answer_cases H;
    inversion H; subst; simpl; tauto.
Qed.

(** Closes a goal on the fields of an answered request once the cases
    are split. *)
Ltac answered H :=
  inversion H; subst;
  try match goal with
      | Hp : post_permission _ _ = Some _ |- _ =>
          exfalso; exact (post_permission_denies _ _ _ Hp I)
      | Hp : put_permission _ _ _ = Some _ |- _ =>
          exfalso; exact (put_permission_denies _ _ _ _ Hp I)
      end;
  repeat eexists; simpl; try eassumption; try reflexivity.

(** The answer 200 of POST /api/grades is the update of the grade that
    holds the key of the body. *)
Lemma post_grade_ok (st st' : Store) (actor : User.t) (b : GradeBody.t)
  (g : Grade.t) :
  post_grade st actor b = (st', Ok200 g) ->
  exists s j sem y marks existingGrade,
    validated b = Some (s, j, sem, y) /\
    GradeBody.marks b = Some marks /\
    Grade_findOne s j (default Regular (GradeBody.examType b)) st
    = Some existingGrade /\
    Grade_save (post_update existingGrade actor marks sem y
                  (GradeBody.remarks b)) st = inr (g, st').
Proof.
  unfold post_grade. intros H. answer_cases H; answered H.
Qed.

(** What an answer 201 of POST /api/grades takes: the save of a new,
    unpublished document. *)
Lemma post_grade_created (st st' : Store) (actor : User.t) (b : GradeBody.t)
  (g : Grade.t) :
  post_grade st actor b = (st', Created201 g) ->
  exists s j sem y marks,
    validated b = Some (s, j, sem, y) /\
    GradeBody.marks b = Some marks /\
    Grade_findOne s j (default Regular (GradeBody.examType b)) st = None /\
    Grade_save
      (Grade.mk (fresh_id (map Grade._id (grades st))) s j (User._id actor)
         marks None None sem y (default Regular (GradeBody.examType b))
         false None (option_map trim (GradeBody.remarks b))) st
    = inr (g, st').
Proof.
  unfold post_grade. intros H. answer_cases H; answered H.
Qed.

(** The answer 200 of PUT /api/grades/:id is the update of the grade
    with that id. *)
Lemma put_grade_ok (st st' : Store) (actor : User.t) (id : ObjectId)
  (b : PutBody.t) (now : nat) (g : Grade.t) :
  put_grade st actor id b now = (st', Ok200 g) ->
  exists grade,
    authorize [admin; hod; teacher] actor = true /\
    Grade_findById id st = Some grade /\
    put_permission st actor grade = None /\
    Grade_save (put_update grade b now) st = inr (g, st').
Proof.
  unfold put_grade. intros H.
  destruct (authorize _ actor); [|discriminate H]. simpl in H.
  destruct (Grade_findById id st) as [grade|] eqn:Hf; [|discriminate H].
  destruct (put_permission st actor grade) as [r|] eqn:Hp.
  - answered H.
  - answer_cases H. inversion H; subst. eauto.
Qed.

Lemma put_update_isPublished (grade : Grade.t) (b : PutBody.t) (now : nat) :
  Grade.isPublished (put_update grade b now)
  = default (Grade.isPublished grade) (PutBody.isPublished b).
Proof.
  unfold put_update.
  destruct (PutBody.marks b), (PutBody.remarks b),
    (PutBody.isPublished b) as [[|]|]; reflexivity.
Qed.

Lemma put_update_id (grade : Grade.t) (b : PutBody.t) (now : nat) :
  Grade._id (put_update grade b now) = Grade._id grade.
Proof.
  unfold put_update.
  destruct (PutBody.marks b), (PutBody.remarks b),
    (PutBody.isPublished b) as [[|]|]; reflexivity.
Qed.

Lemma saved_isPublished (g g' : Grade.t) (st st' : Store) :
  Grade_save g st = inr (g', st') ->
  Grade.isPublished g' = Grade.isPublished g /\ Grade._id g' = Grade._id g.
Proof.
  intros H. apply Grade_save_inr in H. destruct H as (_ & -> & _).
  pose proof (pre_save_frame g) as F. cbv zeta in F. tauto.
Qed.

(** ** C5: edits of marks and the publication flag *)

Definition admin0 : User.t :=
  User.mk 1%nat "admin" "admin@x" "secret" "A" "D" admin None None None None
    None true.

Definition published_grade : Grade.t :=
  pre_save
    (Grade.mk 1%nat 10%nat 20%nat 30%nat
       (Marks.mk (Some 30) None None None) None None 1 "1st Year" Regular
       true (Some 5%nat) None).

Definition store5 : Store := mkStore [published_grade] [] [].

Definition new_marks : Marks.t := Marks.mk (Some 95) None None None.

(** C5, as the specification states it, does not hold of the direct
    update: an edit of the marks of a published grade through
    PUT /api/grades/:id, by a body that carries marks only, is answered
    200 and the stored grade has the new marks and is still published. *)
Lemma C5_put_leaves_published :
  ~ (forall st actor id b now st' g,
        PutBody.marks b <> None ->
        put_grade st actor id b now = (st', Ok200 g) ->
        Grade.isPublished g = false).
Proof.
  intros H.
  specialize (H store5 admin0 1%nat (PutBody.mk (Some new_marks) None None)
                7%nat
                (fst (put_grade store5 admin0 1%nat
                        (PutBody.mk (Some new_marks) None None) 7%nat))
                (pre_save (Grade.set_marks new_marks published_grade))).
  simpl in H. discriminate H; [discriminate | reflexivity].
Qed.

(** The same edit through the update path of the bulk loop: the stored
    grade has the new marks and is still published. *)
Example bulk_update_leaves_published :
  let d := GradeData.mk (Some 10%nat) (Some 20%nat) (Some new_marks) None None
             None None None None None in
  let st' := fst (bulk_create_grades store5 admin0 [d]) in
  exists g, Grade_findById 1%nat st' = Some g /\
            Marks.theory (Grade.marks g) = Some 95 /\
            Grade.isPublished g = true.
Proof. eexists. repeat split; reflexivity. Qed.

(** C5 (amended). The upsert of POST /api/grades on an existing key
    leaves the stored grade unpublished, whatever it was; the direct
    update PUT /api/grades/:id leaves the stored grade with the boolean
    [isPublished] of the body when it has one, and with the flag it had
    otherwise. *)
Theorem C5_publication_after_edit (st : Store) (actor : User.t) :
  (forall b st' g,
      post_grade st actor b = (st', Ok200 g) ->
      Grade_findById (Grade._id g) st' = Some g /\
      Grade.isPublished g = false) /\
  (forall id b now st' g,
      put_grade st actor id b now = (st', Ok200 g) ->
      exists grade,
        Grade_findById id st = Some grade /\
        Grade_findById id st' = Some g /\
        Grade.isPublished g
        = default (Grade.isPublished grade) (PutBody.isPublished b)).
Proof.
  split.
  - intros b st' g H.
    apply post_grade_ok in H.
    destruct H as (s & j & sem & y & marks & ex & _ & _ & _ & Hs).
    split; [eapply Grade_save_stored; exact Hs|].
    apply saved_isPublished in Hs. destruct Hs as [-> _]. reflexivity.
  - intros id b now st' g H.
    apply put_grade_ok in H. destruct H as (grade & _ & Hf & _ & Hs).
    exists grade. split; [exact Hf|].
    pose proof (Grade_save_stored _ _ _ _ Hs) as Hst.
    apply saved_isPublished in Hs. destruct Hs as [Hp Hid].
    rewrite put_update_id in Hid.
    unfold Grade_findById in Hf. apply find_some_id in Hf.
    destruct Hf as [Hid' _].
    split; [rewrite <- Hid', <- Hid; exact Hst|].
    rewrite Hp. apply put_update_isPublished.
Qed.

(** Both parts of C5 as amended, at requests that are answered 200:
    the upsert unpublishes a published grade; the direct update publishes
    with the marks it writes when the body says so. *)
Definition student0 : User.t :=
  User.mk 10%nat "s1" "s1@x" "secret" "S" "T" student (Some 4%nat)
    (Some "1st Year") (Some 1) (Some "R1") None true.

Definition subject0 : Subject.t :=
  Subject.mk 20%nat "Algebra" "MA101" 4 4%nat 1 "1st Year" None true.

Definition store5' : Store :=
  mkStore [published_grade] [subject0] [student0].

Lemma C5_witness :
  (exists st' g,
      post_grade store5' admin0
        (GradeBody.mk (Some 10%nat) (Some 20%nat) (Some new_marks) (Some 1)
           (Some "1st Year") None None) = (st', Ok200 g) /\
      Grade.isPublished published_grade = true /\
      Grade_findById 1 st' = Some g /\ Grade.isPublished g = false) /\
  (exists st' g,
      put_grade store5' admin0 1 (PutBody.mk (Some new_marks) None (Some true))
        7 = (st', Ok200 g) /\
      Grade_findById 1 st' = Some g /\ Grade.isPublished g = true).
Proof.
  destruct (C5_publication_after_edit store5' admin0) as [Hpost Hput].
  split.
  - do 2 eexists. split; [reflexivity|]. split; [reflexivity|].
    destruct (Hpost (GradeBody.mk (Some 10%nat) (Some 20%nat)
                       (Some new_marks) (Some 1) (Some "1st Year") None None)
                _ _ eq_refl) as [Hf Hp].
    split; [exact Hf | exact Hp].
  - do 2 eexists. split; [reflexivity|].
    destruct (Hput 1%nat (PutBody.mk (Some new_marks) None (Some true))
                7%nat _ _ eq_refl) as (old & _ & Hf & Hp).
    split; [exact Hf | exact Hp].
Defined.

(** ** The ids and the keys of the stored grades stay unique *)

(** The key of the compound unique index of [gradeSchema]. *)
Definition key (g : Grade.t) : ObjectId * ObjectId * ExamType :=
  (Grade.student g, Grade.subject g, Grade.examType g).

Definition unique_grades (st : Store) : Prop :=
  NoDup (map Grade._id (grades st)) /\ NoDup (map key (grades st)).

Lemma NoDup_map_inj {T U} (f : T -> U) (l : list T) (x y : T) :
  NoDup (map f l) -> In x l -> In y l -> f x = f y -> x = y.
Proof.
  induction l as [|h t IH]; simpl; [tauto|].
  intros Hnd Hx Hy E. inversion Hnd as [|? ? Hh Ht]; subst.
  destruct Hx as [<-|Hx], Hy as [<-|Hy].
  - reflexivity.
  - exfalso. apply Hh. rewrite E. apply in_map. exact Hy.
  - exfalso. apply Hh. rewrite <- E. apply in_map. exact Hx.
  - apply IH; assumption.
Qed.

Lemma NoDup_map_filter {T U} (f : T -> U) (p : T -> bool) (l : list T) :
  NoDup (map f l) -> NoDup (map f (filter p l)).
Proof.
  induction l as [|h t IH]; simpl; [tauto|].
  intros Hnd. inversion Hnd as [|? ? Hh Ht]; subst.
  destruct (p h); simpl; [|apply IH; exact Ht].
  constructor; [|apply IH; exact Ht].
  intros Hin. apply Hh. apply in_map_iff in Hin.
  destruct Hin as (y & <- & Hy). apply filter_In in Hy.
  apply in_map. tauto.
Qed.

(** Writing back a document that kept its id and its key changes neither
    the ids nor the keys of the collection. *)
Lemma persist_update (g old : Grade.t) (gs : list Grade.t) :
  In old gs -> Grade._id g = Grade._id old -> key g = key old ->
  NoDup (map Grade._id gs) ->
  map Grade._id (persist g gs) = map Grade._id gs /\
  map key (persist g gs) = map key gs.
Proof.
  intros Hin Hid Hkey Hnd. unfold persist.
  assert (He : existsb (fun x => Nat.eqb (Grade._id x) (Grade._id g)) gs
               = true).
  { apply existsb_exists. exists old. split; [exact Hin|].
    rewrite Hid. apply Nat.eqb_refl. }
  rewrite He, !map_map. split; apply map_ext_in; intros x Hx;
    destruct (Nat.eqb_spec (Grade._id x) (Grade._id g)) as [E|N];
    try reflexivity; [congruence|].
  assert (x = old) as -> by
      (apply (NoDup_map_inj Grade._id gs); try assumption; congruence).
  exact Hkey.
Qed.

Lemma fresh_id_above (ids : list ObjectId) (i : ObjectId) :
  In i ids -> (i < fresh_id ids)%nat.
Proof.
  unfold fresh_id. induction ids as [|h t IH]; simpl; [tauto|].
  intros [<-|H]; [lia|]. specialize (IH H). lia.
Qed.

(** Writing a document with a fresh id and a key the collection does not
    hold adds its id and its key. *)
Lemma persist_new (g : Grade.t) (gs : list Grade.t) :
  Grade._id g = fresh_id (map Grade._id gs) ->
  persist g gs = gs ++ [g].
Proof.
  intros Hid. unfold persist.
  destruct (existsb _ gs) eqn:He; [|reflexivity].
  apply existsb_exists in He. destruct He as (x & Hx & E).
  apply Nat.eqb_eq in E.
  pose proof (fresh_id_above (map Grade._id gs) (Grade._id x)
                (in_map _ _ _ Hx)). lia.
Qed.

Lemma findOne_none (s j : ObjectId) (e : ExamType) (st : Store) :
  Grade_findOne s j e st = None -> ~ In (s, j, e) (map key (grades st)).
Proof.
  unfold Grade_findOne. intros Hf Hin.
  apply in_map_iff in Hin. destruct Hin as (x & Hk & Hx).
  apply (find_none _ _ Hf) in Hx. unfold key in Hk. inversion Hk; subst.
  unfold same_key in Hx. rewrite !Nat.eqb_refl in Hx. simpl in Hx.
  destruct (Grade.examType x); discriminate Hx.
Qed.

Lemma save_update_unique (upd old g : Grade.t) (st st' : Store) :
  unique_grades st -> In old (grades st) ->
  Grade._id upd = Grade._id old -> key upd = key old ->
  Grade_save upd st = inr (g, st') -> unique_grades st'.
Proof.
  intros [Hi Hk] Hin Hid Hkey Hs.
  apply Grade_save_inr in Hs. destruct Hs as (_ & _ & ->).
  pose proof (pre_save_frame upd) as F. cbv zeta in F.
  destruct F as (F1 & F2 & F3 & _ & _ & _ & F4 & _).
  destruct (persist_update (pre_save upd) old (grades st)) as [Ei Ek];
    try assumption; [congruence | unfold key in *; congruence |].
  unfold unique_grades. simpl. rewrite Ei, Ek. split; assumption.
Qed.

Lemma save_new_unique (g0 g : Grade.t) (st st' : Store) :
  unique_grades st ->
  Grade._id g0 = fresh_id (map Grade._id (grades st)) ->
  Grade_findOne (Grade.student g0) (Grade.subject g0) (Grade.examType g0) st
  = None ->
  Grade_save g0 st = inr (g, st') -> unique_grades st'.
Proof.
  intros [Hi Hk] Hid Hf Hs.
  apply Grade_save_inr in Hs. destruct Hs as (_ & _ & ->).
  pose proof (pre_save_frame g0) as F. cbv zeta in F.
  destruct F as (F1 & F2 & F3 & _ & _ & _ & F4 & _).
  unfold unique_grades. simpl.
  rewrite persist_new by congruence. rewrite !map_app. simpl.
  split; apply NoDup_app; try assumption;
    try (constructor; [intros []|constructor]).
  - intros x Hx [<-|[]]. apply fresh_id_above in Hx. lia.
  - intros x Hx [<-|[]]. apply findOne_none in Hf. apply Hf.
    unfold key in *. rewrite F2, F3, F4 in Hx. exact Hx.
Qed.

Lemma put_update_key (grade : Grade.t) (b : PutBody.t) (now : nat) :
  key (put_update grade b now) = key grade.
Proof.
  unfold put_update.
  destruct (PutBody.marks b), (PutBody.remarks b),
    (PutBody.isPublished b) as [[|]|]; reflexivity.
Qed.

Lemma bulk_grade_step_unique (actor : User.t) (st : Store)
  (d : GradeData.t) :
  unique_grades st -> unique_grades (fst (bulk_grade_step actor st d)).
Proof.
  intros Hu. unfold bulk_grade_step.
  destruct (GradeData.student d) as [s|]; [|exact Hu].
  destruct (GradeData.subject d) as [j|]; [|exact Hu].
  destruct (Grade_findOne s j _ st) as [old|] eqn:Hf.
  - destruct (Grade_save _ st) as [err|[g st']] eqn:Hs; [exact Hu|].
    apply find_some in Hf. destruct Hf as [Hin _].
    eapply save_update_unique; [exact Hu | exact Hin | | | exact Hs];
      reflexivity.
  - unfold new_grade.
    destruct (GradeData.semester d) as [sem|]; [|exact Hu].
    destruct (GradeData.academicYear d) as [y|]; [|exact Hu].
    destruct (Grade_save _ st) as [err|[g st']] eqn:Hs; [exact Hu|].
    eapply save_new_unique; [exact Hu | | | exact Hs];
      [reflexivity | exact Hf].
Qed.

(** A writing route that does not succeed leaves the store as it is. *)
Lemma post_grade_store (st : Store) (actor : User.t) (b : GradeBody.t) :
  fst (post_grade st actor b) = st \/ succeeded (snd (post_grade st actor b)).
Proof.
  unfold post_grade.
  repeat match goal with
         | |- context [match ?x with _ => _ end] => destruct x
         end; simpl; auto.
Qed.

Lemma put_grade_store (st : Store) (actor : User.t) (id : ObjectId)
  (b : PutBody.t) (now : nat) :
  fst (put_grade st actor id b now) = st \/
  succeeded (snd (put_grade st actor id b now)).
Proof.
  unfold put_grade.
  repeat match goal with
         | |- context [match ?x with _ => _ end] => destruct x
         end; simpl; auto.
Qed.

(** Every request keeps the ids and the keys unique: the index would
    reject none of the writes of the routes. *)
Lemma handle_keeps_unique (st : Store) (r : Request) :
  unique_grades st -> unique_grades (handle st r).
Proof.
  intros Hu. destruct r as [actor b|actor id b now|actor id|actor items
                           |actor ids now|actor items|actor items]; simpl.
  - (* POST /api/grades *)
    destruct (post_grade_store st actor b) as [E|Hs]; [rewrite E; exact Hu|].
    destruct (post_grade st actor b) as [st' [g|g|m|m|m|]] eqn:H;
      simpl in *; try contradiction.
    + apply post_grade_ok in H.
      destruct H as (s & j & sem & y & marks & old & _ & _ & Hf & Hsave).
      apply find_some in Hf. destruct Hf as [Hin _].
      eapply save_update_unique; [exact Hu | exact Hin | | | exact Hsave];
        reflexivity.
    + apply post_grade_created in H.
      destruct H as (s & j & sem & y & marks & _ & _ & Hf & Hsave).
      eapply save_new_unique; [exact Hu | | | exact Hsave];
        [reflexivity | exact Hf].
  - (* PUT /api/grades/:id *)
    destruct (put_grade_store st actor id b now) as [E|Hs];
      [rewrite E; exact Hu|].
    destruct (put_grade st actor id b now) as [st' [g|g|m|m|m|]] eqn:H;
      simpl in *; try contradiction.
    + apply put_grade_ok in H. destruct H as (grade & _ & Hf & _ & Hsave).
      unfold Grade_findById in Hf. apply find_some in Hf.
      destruct Hf as [Hin _].
      eapply save_update_unique; [exact Hu | exact Hin | | | exact Hsave];
        [apply put_update_id | apply put_update_key].
    + exfalso. unfold put_grade in H. answer_cases H; inversion H; subst.
      eapply put_permission_denies; [eassumption | exact I].
  - (* DELETE /api/grades/:id *)
    unfold delete_grade.
    repeat match goal with
           | |- context [match ?x with _ => _ end] =>
               destruct x eqn:?; try exact Hu
           end.
    destruct Hu as [Hi Hk]. unfold unique_grades. simpl.
    split; apply NoDup_map_filter; assumption.
  - (* POST /api/grades/bulk-create *)
    unfold bulk_create_grades.
    destruct (negb _); [exact Hu|].
    destruct items as [|x rest]; [exact Hu|].
    pose proof (bulk_loop_invariant (bulk_grade_step actor) unique_grades
                  (bulk_grade_step_unique actor) (x :: rest) st 0%nat
                  (mkResults [] []) Hu) as H.
    destruct (bulk_loop _ _ _ _ _) as [st' res]. exact H.
  - (* POST /api/grades/publish-bulk *)
    unfold publish_bulk.
    repeat match goal with
           | |- context [match ?x with _ => _ end] =>
               destruct x eqn:?; try exact Hu
           end.
    destruct Hu as [Hi Hk]. unfold unique_grades, publish_many. simpl.
    rewrite !map_map.
    rewrite (map_ext _ Grade._id), (map_ext _ key); [split; assumption| |];
      intros g; destruct (id_in ids g); reflexivity.
  - unfold unique_grades. rewrite bulk_create_subjects_grades. exact Hu.
  - unfold unique_grades. rewrite bulk_create_users_grades. exact Hu.
Qed.

Lemma run_keeps_unique (rs : list Request) (st : Store) :
  unique_grades st -> unique_grades (run st rs).
Proof.
  revert st. induction rs as [|r rs IH]; intros st Hst; simpl;
    [assumption|].
  apply IH. apply handle_keeps_unique. exact Hst.
Qed.

(** ** C10: the upsert hands the grade over to the actor *)



Lemma matches_teacher (f : Filter.t) (g : Grade.t) (uid : ObjectId) :
  Filter.teacher f = Some uid -> matches f g = true -> Grade.teacher g = uid.
Proof.
  unfold matches. intros ->. rewrite opt_test_some.
  rewrite !andb_true_iff. intros H. apply Nat.eqb_eq. tauto.
Qed.

(** The permission loop of the bulk publication lets a teacher through
    only when every grade is recorded under that teacher. *)
Lemma publish_permission_teacher (st : Store) (t : User.t)
  (gs : list Grade.t) (r : option (Response nat)) :
  User.role t = teacher ->
  publish_permission st t gs = r ->
  match r with
  | None => forall g, In g gs -> Grade.teacher g = User._id t
  | Some a => ~ succeeded a
  end.
Proof.
  intros Hrole <-. induction gs as [|g rest IH]; simpl.
  - intros g [].
  - rewrite Hrole.
    destruct (Nat.eqb_spec (Grade.teacher g) (User._id t)) as [E|N]; simpl;
      [|tauto].
    destruct (publish_permission st t rest) as [a|]; [exact IH|].
    intros x [<-|Hx]; [exact E | apply IH; exact Hx].
Qed.








(** A head of department re-submits the marks of a grade entered by the
    subject's teacher: the grade is now recorded under the head of
    department, and the teacher who entered it is refused the update. *)
Definition hod4 : User.t :=
  User.mk 2%nat "hod4" "hod4@x" "secret" "H" "D" hod (Some 4%nat) None None
    None (Some "E2") true.

Definition teacher30 : User.t :=
  User.mk 30%nat "t30" "t30@x" "secret" "T" "E" teacher (Some 4%nat) None
    None None (Some "E30") true.

Definition student10 : User.t :=
  User.mk 10%nat "s10" "s10@x" "secret" "S" "T" student (Some 4%nat)
    (Some "1st Year") (Some 1) (Some "R10") None true.

Definition algebra : Subject.t :=
  Subject.mk 20%nat "Algebra" "MA101" 4 4%nat 1 "1st Year" (Some 30%nat) true.





(** ** C7: what a student reads *)

(** The filter of a student's listing, whatever the query asks. *)
Lemma student_filter (st : Store) (actor : User.t) (q : ListQuery.t) :
  User.role actor = student ->
  exists f0,
    role_filter st actor = Some f0 /\
    Filter.student (query_filter actor q f0) = Some (User._id actor) /\
    Filter.isPublished (query_filter actor q f0) = Some true.
Proof.
  intros Hrole. unfold role_filter, query_filter. rewrite Hrole.
  eexists. split; [reflexivity|]. simpl.
  destruct (ListQuery.student q), (ListQuery.isPublished q); auto.
Qed.

Definition actor_of (r : Request) : User.t :=
  match r with
  | PostGrade actor _ | PutGrade actor _ _ _ | DeleteGrade actor _
  | BulkCreateGrades actor _ | PublishBulk actor _ _
  | BulkCreateSubjects actor _ | BulkCreateUsers actor _ => actor
  end.

(** C7. For a student: GET /api/grades/:id succeeds only on a published
    grade whose student is the actor; the filter of GET /api/grades holds
    [student = actor] and [isPublished = true] whatever the query asks,
    so every grade listed is a published grade of the actor; the CGPA
    route succeeds only for the actor's own id and selects published
    grades of that id only; and every writing request is refused with
    403 and leaves the store as it is. *)
Theorem C7_student_reads_own_published (st : Store) (actor : User.t) :
  User.role actor = student ->
  (forall id,
      succeeded (get_grade st actor id) ->
      exists g,
        get_grade st actor id = Ok200 g /\ Grade_findById id st = Some g /\
        Grade.student g = User._id actor /\ Grade.isPublished g = true) /\
  (forall q,
      exists f0,
        role_filter st actor = Some f0 /\
        Filter.student (query_filter actor q f0) = Some (User._id actor) /\
        Filter.isPublished (query_filter actor q f0) = Some true) /\
  (forall q l g,
      get_grades st actor q = Ok200 l -> In g (GradeList.grades l) ->
      In g (grades st) /\ Grade.student g = User._id actor /\
      Grade.isPublished g = true) /\
  (forall studentId q,
      succeeded (get_cgpa st actor studentId q) ->
      studentId = User._id actor /\
      forall g, In g (selected st studentId q) ->
                Grade.student g = User._id actor /\
                Grade.isPublished g = true) /\
  (forall b, post_grade st actor b = (st, Forbidden403 insufficient)) /\
  (forall id b now,
      put_grade st actor id b now = (st, Forbidden403 insufficient)) /\
  (forall id, delete_grade st actor id = (st, Forbidden403 insufficient)) /\
  (forall items,
      bulk_create_grades st actor items = (st, Forbidden403 insufficient)) /\
  (forall ids now,
      publish_bulk st actor ids now = (st, Forbidden403 insufficient)) /\
  (forall r, actor_of r = actor -> handle st r = st).
Proof.
  intros Hrole.
  assert (Hown : forall studentId q,
             succeeded (get_cgpa st actor studentId q) ->
             studentId = User._id actor).
  { intros studentId q. unfold get_cgpa. rewrite Hrole. simpl.
    destruct (Nat.eqb (User._id actor) studentId) eqn:He; simpl; [|tauto].
    intros _. apply Nat.eqb_eq in He. congruence. }
  split; [|split; [|split; [|split; [|split; [|split; [|split; [|split;
    [|split]]]]]]]].
  - (* GET /api/grades/:id *)
    intros id. unfold get_grade. rewrite Hrole.
    destruct (Grade_findById id st) as [grade|] eqn:Hf; simpl; [|tauto].
    destruct (User_findById (Grade.student grade) st) as [s|] eqn:Hs;
      simpl; [|tauto].
    apply User_findById_id in Hs.
    destruct (Nat.eqb (User._id s) (User._id actor)) eqn:He; simpl; [|tauto].
    destruct (Grade.isPublished grade) eqn:Hp; simpl; [|tauto].
    intros _. apply Nat.eqb_eq in He.
    exists grade. repeat split; congruence.
  - (* GET /api/grades: the filter *)
    intros q. apply student_filter; assumption.
  - (* GET /api/grades: the grades listed *)
    intros q l g H Hin.
    destruct (student_filter st actor q Hrole) as (f0 & Hf & Hs & Hp).
    destruct (get_grades_ok _ _ _ _ H) as (f1 & Hf1 & Hl).
    apply Hl in Hin. rewrite Hf in Hf1. injection Hf1 as <-.
    apply filter_In in Hin. destruct Hin as [Hin Hm].
    split; [exact Hin|]. split.
    + eapply matches_student; eassumption.
    + eapply matches_isPublished; eassumption.
  - (* the CGPA route *)
    intros studentId q H. pose proof (Hown _ _ H) as ->.
    split; [reflexivity|].
    intros g Hin. apply selected_scope in Hin. tauto.
  - intros b. unfold post_grade, authorize. rewrite Hrole. reflexivity.
  - intros id b now. unfold put_grade, authorize. rewrite Hrole.
    reflexivity.
  - intros id. unfold delete_grade, authorize. rewrite Hrole. reflexivity.
  - intros items. unfold bulk_create_grades, authorize. rewrite Hrole.
    reflexivity.
  - intros ids now. unfold publish_bulk, authorize. rewrite Hrole.
    reflexivity.
  - intros r <-. destruct r; simpl in *;
      unfold post_grade, put_grade, delete_grade, bulk_create_grades,
        publish_bulk, bulk_create_subjects, bulk_create_users, authorize;
      rewrite Hrole; reflexivity.
Qed.

(** Two students, each with a published and an unpublished grade. *)
Definition student11 : User.t :=
  User.mk 11%nat "s11" "s11@x" "secret" "S" "U" student (Some 4%nat)
    (Some "1st Year") (Some 1) (Some "R11") None true.

Definition grade_of (id sid : ObjectId) (published : bool) : Grade.t :=
  pre_save
    (Grade.mk id sid 20%nat 30%nat (Marks.mk (Some 62) None None None) None
       None 1 "1st Year" Regular published None None).

Definition store7 : Store :=
  mkStore [grade_of 1 10 true; grade_of 2 10 false;
           grade_of 3 11 true; grade_of 4 11 false]
    [algebra] [student10; student11; teacher30].

Definition any_query : ListQuery.t :=
  ListQuery.mk (Some 11%nat) None None None None None (Some "false") 1 20.

Lemma C7_witness :
  get_grade store7 student10 1%nat = Ok200 (grade_of 1 10 true) /\
  get_grade store7 student10 2%nat = Forbidden403 "Access denied" /\
  get_grade store7 student10 3%nat = Forbidden403 "Access denied" /\
  (exists l, get_grades store7 student10 any_query = Ok200 l /\
             GradeList.grades l = [grade_of 1 10 true]) /\
  (forall g, In g (selected store7 10%nat (CgpaQuery.mk None None)) ->
             Grade.student g = 10%nat /\ Grade.isPublished g = true).
Proof.
  split; [reflexivity|]. split; [reflexivity|]. split; [reflexivity|].
  split; [eexists; split; reflexivity|].
  destruct (C7_student_reads_own_published store7 student10 eq_refl)
    as (_ & _ & _ & H & _).
  apply (H 10%nat (CgpaQuery.mk None None)). exact I.
Defined.

(** ** The role checks of the single-grade routes *)

Lemma post_grade_permitted (st : Store) (actor : User.t) (b : GradeBody.t) :
  succeeded (snd (post_grade st actor b)) ->
  exists s j sem y subjectDoc,
    validated b = Some (s, j, sem, y) /\
    Subject_findById j st = Some subjectDoc /\
    post_permission actor subjectDoc = None.
Proof.
  unfold post_grade.
  repeat match goal with
         | |- context [match ?x with _ => _ end] =>
             destruct x eqn:?; simpl; try tauto
         end;
    try (intros _; repeat eexists; eassumption);
    intros Hs; exfalso; eapply post_permission_denies; eassumption.
Qed.

Lemma put_grade_permitted (st : Store) (actor : User.t) (id : ObjectId)
  (b : PutBody.t) (now : nat) :
  succeeded (snd (put_grade st actor id b now)) ->
  exists grade,
    Grade_findById id st = Some grade /\
    put_permission st actor grade = None.
Proof.
  destruct (put_grade st actor id b now) as [st' r] eqn:H. simpl.
  destruct r; simpl; try tauto; intros _.
  - apply put_grade_ok in H. destruct H as (grade & _ & Hf & Hp & _). eauto.
  - unfold put_grade in H. answer_cases H; inversion H; subst.
    exfalso. eapply put_permission_denies; [eassumption | exact I].
Qed.

(** What the checks let through, by role. *)
Lemma post_permission_teacher (actor : User.t) (subjectDoc : Subject.t) :
  User.role actor = teacher ->
  post_permission actor subjectDoc = None ->
  Subject.teacher subjectDoc = Some (User._id actor).
Proof.
  unfold post_permission, opt_id_is. intros ->.
  destruct (Subject.teacher subjectDoc) as [t|]; simpl; [|discriminate].
  destruct (Nat.eqb_spec t (User._id actor)); simpl;
    [congruence | discriminate].
Qed.

Lemma post_permission_hod (actor : User.t) (subjectDoc : Subject.t) :
  User.role actor = hod ->
  post_permission actor subjectDoc = None ->
  User.department actor = Some (Subject.department subjectDoc).
Proof.
  unfold post_permission. intros ->.
  destruct (User.department actor) as [d|]; [|discriminate].
  destruct (Nat.eqb_spec (Subject.department subjectDoc) d); simpl;
    [congruence | discriminate].
Qed.

Lemma put_permission_teacher (st : Store) (actor : User.t) (grade : Grade.t) :
  User.role actor = teacher ->
  put_permission st actor grade = None ->
  Grade.teacher grade = User._id actor.
Proof.
  unfold put_permission. intros ->.
  destruct (Nat.eqb_spec (Grade.teacher grade) (User._id actor)); simpl;
    [tauto | discriminate].
Qed.

Lemma put_permission_hod (st : Store) (actor : User.t) (grade : Grade.t) :
  User.role actor = hod ->
  put_permission st actor grade = None ->
  exists sj,
    Subject_findById (Grade.subject grade) st = Some sj /\
    User.department actor = Some (Subject.department sj).
Proof.
  unfold put_permission. intros ->.
  destruct (Subject_findById _ st) as [sj|]; [|discriminate].
  destruct (User.department actor) as [d|]; [|discriminate].
  destruct (Nat.eqb_spec (Subject.department sj) d); simpl;
    [|discriminate].
  intros _. exists sj. split; congruence.
Qed.

(** The routes on one grade hold a head of department to the department
    of the grade's subject: reading a grade, creating or updating one
    through POST, and updating one through PUT succeed only there. *)
Lemma hod_single_grade_routes (st : Store) (actor : User.t) :
  User.role actor = hod ->
  (forall id,
      succeeded (get_grade st actor id) ->
      exists g sj,
        Grade_findById id st = Some g /\
        Subject_findById (Grade.subject g) st = Some sj /\
        User.department actor = Some (Subject.department sj)) /\
  (forall b,
      succeeded (snd (post_grade st actor b)) ->
      exists j sj,
        GradeBody.subject b = Some j /\ Subject_findById j st = Some sj /\
        User.department actor = Some (Subject.department sj)) /\
  (forall id b now,
      succeeded (snd (put_grade st actor id b now)) ->
      exists g sj,
        Grade_findById id st = Some g /\
        Subject_findById (Grade.subject g) st = Some sj /\
        User.department actor = Some (Subject.department sj)).
Proof.
  intros Hrole. split; [|split].
  - intros id. unfold get_grade. rewrite Hrole.
    destruct (Grade_findById id st) as [g|]; simpl; [|tauto].
    destruct (Subject_findById _ st) as [sj|] eqn:Hs; simpl; [|tauto].
    destruct (User.department actor) as [d|]; simpl; [|tauto].
    destruct (Nat.eqb_spec (Subject.department sj) d); simpl; [|tauto].
    intros _. exists g, sj. repeat split; congruence.
  - intros b H. apply post_grade_permitted in H.
    destruct H as (s & j & sem & y & sj & Hv & Hf & Hp).
    exists j, sj. split; [|split; [exact Hf|]].
    + unfold validated in Hv.
      destruct (GradeBody.student b), (GradeBody.subject b),
        (GradeBody.semester b), (GradeBody.academicYear b);
        try discriminate.
      destruct (_ && _); [|discriminate]. congruence.
    + apply post_permission_hod; assumption.
  - intros id b now H. apply put_grade_permitted in H.
    destruct H as (g & Hf & Hp).
    apply put_permission_hod in Hp; [|exact Hrole].
    destruct Hp as (sj & Hs & Hd). exists g, sj. auto.
Qed.

(** The same routes hold a teacher to the subjects assigned to the
    teacher (POST) and to the grades recorded under the teacher (PUT). *)
Lemma teacher_single_grade_routes (st : Store) (actor : User.t) :
  User.role actor = teacher ->
  (forall b,
      succeeded (snd (post_grade st actor b)) ->
      exists j sj,
        GradeBody.subject b = Some j /\ Subject_findById j st = Some sj /\
        Subject.teacher sj = Some (User._id actor)) /\
  (forall id b now,
      succeeded (snd (put_grade st actor id b now)) ->
      exists g,
        Grade_findById id st = Some g /\
        Grade.teacher g = User._id actor) /\
  (forall id b now g,
      Grade_findById id st = Some g ->
      Grade.teacher g <> User._id actor ->
      put_grade st actor id b now = (st, Forbidden403 "Access denied")) /\
  (forall b s j sem y sj,
      validated b = Some (s, j, sem, y) ->
      Subject_findById j st = Some sj ->
      Subject.teacher sj <> Some (User._id actor) ->
      post_grade st actor b
      = (st, Forbidden403 "You are not assigned to this subject")).
Proof.
  intros Hrole. split; [|split; [|split]].
  - intros b H. apply post_grade_permitted in H.
    destruct H as (s & j & sem & y & sj & Hv & Hf & Hp).
    exists j, sj. split; [|split; [exact Hf|]].
    + unfold validated in Hv.
      destruct (GradeBody.student b), (GradeBody.subject b),
        (GradeBody.semester b), (GradeBody.academicYear b);
        try discriminate.
      destruct (_ && _); [|discriminate]. congruence.
    + apply post_permission_teacher; assumption.
  - intros id b now H. apply put_grade_permitted in H.
    destruct H as (g & Hf & Hp). exists g. split; [exact Hf|].
    eapply put_permission_teacher; eassumption.
  - intros id b now g Hf Hne. unfold put_grade, authorize, put_permission.
    rewrite Hrole, Hf. simpl.
    apply Nat.eqb_neq in Hne. rewrite Hne. reflexivity.
  - intros b s j sem y sj Hv Hf Hne.
    unfold post_grade, authorize, post_permission.
    rewrite Hrole, Hv, Hf. simpl.
    destruct (opt_id_is (Subject.teacher sj) (User._id actor)) eqn:He;
      [|reflexivity].
    exfalso. apply Hne. unfold opt_id_is in He.
    destruct (Subject.teacher sj) as [t|]; [|discriminate].
    apply Nat.eqb_eq in He. congruence.
Qed.

(** ** C6: a head of department and the other departments *)

(** The CGPA route tests the role [student] only: for every other actor
    its answer does not depend on who asks. *)
Lemma get_cgpa_ignores_actor (st : Store) (a1 a2 : User.t)
  (studentId : ObjectId) (q : CgpaQuery.t) :
  User.role a1 <> student -> User.role a2 <> student ->
  get_cgpa st a1 studentId q = get_cgpa st a2 studentId q.
Proof.
  intros H1 H2. unfold get_cgpa.
  destruct (Role_eqb (User.role a1) student) eqn:E1;
    [apply Role_eqb_eq in E1; contradiction|].
  destruct (Role_eqb (User.role a2) student) eqn:E2;
    [apply Role_eqb_eq in E2; contradiction|].
  reflexivity.
Qed.

Definition hod5 : User.t :=
  User.mk 3%nat "hod5" "hod5@x" "secret" "H" "E" hod (Some 5%nat) None None
    None (Some "E3") true.

(** C6 (the code at the failing input). A head of department 5 asks for
    the CGPA of a student of department 4, whose only published grade is
    in a subject of department 4: the route answers 200 with the figures
    of that student, while the single-grade route refuses the same actor
    the grade the figures come from. *)
Theorem C6_hod_cgpa_across_departments :
  User.role hod5 = hod /\ User.department hod5 = Some 5%nat /\
  User.department student10 = Some 4%nat /\
  Subject.department algebra = 4%nat /\
  get_grade store7 hod5 1 = Forbidden403 "Access denied" /\
  exists r,
    get_cgpa store7 hod5 10 (CgpaQuery.mk None None) = Ok200 r /\
    CgpaResult.gradesCount r = 1%nat /\
    CgpaResult.totalCredits r = 4 /\
    CgpaResult.cgpa r = Num (700 # 100).
Proof.
  repeat (split; [reflexivity|]).
  eexists. repeat split; reflexivity.
Qed.

(** The listing of a head of department is scoped by the subjects of the
    department, until the query names a subject: the assignment of
    [?subject=] replaces the scope. *)
Example hod_listing_scope_replaced :
  (exists l,
      get_grades store7 hod5
        (ListQuery.mk None None None None None None None 1 20) = Ok200 l /\
      GradeList.grades l = []) /\
  (exists l,
      get_grades store7 hod5
        (ListQuery.mk None (Some 20%nat) None None None None None 1 20)
      = Ok200 l /\
      List.length (GradeList.grades l) = 4%nat).
Proof. split; eexists; split; reflexivity. Qed.

(** ** C8: a teacher and the subjects of other teachers *)

Definition teacher31 : User.t :=
  User.mk 31%nat "t31" "t31@x" "secret" "T" "F" teacher (Some 4%nat) None
    None None (Some "E31") true.

Definition item_new : GradeData.t :=
  GradeData.mk (Some 12%nat) (Some 20%nat)
    (Some (Marks.mk (Some 81) None None None)) (Some 1) (Some "1st Year")
    None None None None None.

Definition item_existing : GradeData.t :=
  GradeData.mk (Some 10%nat) (Some 20%nat)
    (Some (Marks.mk (Some 12) None None None)) None None None None None None
    None.

(** An item that brings a letter and points, as the schema requires of
    a new document; the hook replaces both. *)
Definition item_supplied : GradeData.t :=
  GradeData.mk (Some 12%nat) (Some 20%nat)
    (Some (Marks.mk (Some 81) None None None)) (Some 1) (Some "1st Year")
    None None None (Some Letter.F) (Some 0).

(** Two grades of the subject 20, entered by its teacher. *)
Definition store8 : Store :=
  mkStore [grade_of 1 10 true; grade_of 3 11 true]
    [algebra] [admin0; student10; student11; teacher30; teacher31].

(** C8 (the code at the failing input). A teacher who is not the teacher
    of the subject and under whom no grade is recorded is refused by
    POST /api/grades and by PUT /api/grades/:id, and is served by
    POST /api/grades/bulk-create: the item without letter fails the
    validation, as it does for every actor; the grade of another
    teacher is overwritten and a new grade of the subject is created,
    both recorded under the actor. *)
Theorem C8_bulk_create_skips_assignment :
  User.role teacher31 = teacher /\
  Subject.teacher algebra = Some 30%nat /\
  Forall (fun g => Grade.teacher g = 30%nat) (grades store8) /\
  snd (post_grade store8 teacher31
         (GradeBody.mk (Some 10%nat) (Some 20%nat)
            (Some (Marks.mk (Some 12) None None None)) (Some 1)
            (Some "1st Year") None None))
  = Forbidden403 "You are not assigned to this subject" /\
  snd (put_grade store8 teacher31 1
         (PutBody.mk (Some (Marks.mk (Some 12) None None None)) None None) 0)
  = Forbidden403 "Access denied" /\
  exists st' g1 g4,
    bulk_create_grades store8 teacher31
      [item_new; item_existing; item_supplied]
    = (st', Ok200 (mkResults
                    [mkRow 2 (mkGradeSuccess updated 1);
                     mkRow 3 (mkGradeSuccess created 4)]
                    [mkRow 1 (Thrown (ValidationError "grade"))])) /\
    Grade_findById 1 st' = Some g1 /\ Grade.teacher g1 = 31%nat /\
    Marks.theory (Grade.marks g1) = Some 12 /\
    Grade.grade g1 = Some Letter.F /\
    Grade_findById 4 st' = Some g4 /\ Grade.subject g4 = 20%nat /\
    Grade.teacher g4 = 31%nat /\ Grade.grade g4 = Some Letter.Aplus.
Proof.
  split; [reflexivity|]. split; [reflexivity|].
  split; [repeat constructor|].
  split; [reflexivity|]. split; [reflexivity|].
  do 3 eexists. repeat split; reflexivity.
Qed.

(** ** C9: one item's failure and the other items of a bulk request *)

Section BulkLoopFacts.

Context {State Item Done : Type}.
Variable step : State -> Item -> State * (Done + Reason).

(** The turns of the loop without the bookkeeping of rows: the final
    store and what each item pushed, in order. *)
Fixpoint outcomes (st : State) (items : list Item)
  : State * list (Done + Reason) :=
  match items with
  | [] => (st, [])
  | x :: rest =>
      let (st', o) := step st x in
      let (s, os) := outcomes st' rest in
      (s, o :: os)
  end.

Fixpoint rows_inl (i : nat) (os : list (Done + Reason)) : list (Row Done) :=
  match os with
  | [] => []
  | inl d :: rest => mkRow (i + 1) d :: rows_inl (S i) rest
  | inr _ :: rest => rows_inl (S i) rest
  end.

Fixpoint rows_inr (i : nat) (os : list (Done + Reason)) : list (Row Reason) :=
  match os with
  | [] => []
  | inl _ :: rest => rows_inr (S i) rest
  | inr e :: rest => mkRow (i + 1) e :: rows_inr (S i) rest
  end.



Lemma bulk_loop_outcomes (items : list Item) (st : State) (i : nat)
  (r : Results Done) :
  bulk_loop step st i items r
  = (fst (outcomes st items),
     mkResults (success r ++ rows_inl i (snd (outcomes st items)))
       (errors r ++ rows_inr i (snd (outcomes st items)))).
Proof.
  revert st i r. induction items as [|x rest IH]; intros st i r; simpl.
  - rewrite !app_nil_r. destruct r; reflexivity.
  - destruct (step st x) as [st' o]. rewrite IH.
    destruct (outcomes st' rest) as [s os]. simpl.
    destruct o as [d|e]; simpl; rewrite <- ?app_assoc; reflexivity.
Qed.


Lemma outcomes_length (items : list Item) (st : State) :
  List.length (snd (outcomes st items)) = List.length items.
Proof.
  revert st. induction items as [|x rest IH]; intros st; simpl;
    [reflexivity|].
  destruct (step st x) as [st' o]. specialize (IH st').
  destruct (outcomes st' rest) as [s os]. simpl in *. congruence.
Qed.







(** A failing turn leaves the store as it found it. *)
Hypothesis step_frame :
  forall st x e, snd (step st x) = inr e -> fst (step st x) = st.


End BulkLoopFacts.

























(** ** The aggregation of the CGPA route *)

(** The element of [semesterData[sem].grades] a grade leaves. *)
Definition sem_grade (gs : Grade.t * Subject.t) : SemGrade.t :=
  SemGrade.mk (snd gs) (Grade.marks (fst gs)) (Grade.grade (fst gs))
    (Grade.gradePoints (fst gs)) (Subject.credits (snd gs)).

(** The entry of a semester as the specification describes it: the
    grades of the semester, the sum of their weighted points, the sum of
    their credits. *)
Definition entry_of (sem : Z) (done : list (Grade.t * Subject.t))
  : SemData.t :=
  let gs := in_semester sem done in
  SemData.mk sem (Some (weighted_points gs)) (credit_sum gs)
    (map sem_grade gs).

Definition has_points (gs : Grade.t * Subject.t) : Prop :=
  Grade.gradePoints (fst gs) <> None.

Fixpoint ascending (l : list SemData.t) : Prop :=
  match l with
  | [] => True
  | d :: rest =>
      (forall d', In d' rest -> SemData.semester d < SemData.semester d')
      /\ ascending rest
  end.

(** What the loop has built once the grades [done] are processed. *)
Record grouped (done : list (Grade.t * Subject.t)) (a : Acc) : Prop := {
  grouped_ascending : ascending (semesterData a);
  grouped_points : totalGradePoints a = Some (weighted_points done);
  grouped_credits : totalCredits a = credit_sum done;
  grouped_entries :
    forall d, In d (semesterData a) ->
              d = entry_of (SemData.semester d) done /\
              in_semester (SemData.semester d) done <> [];
  grouped_covers :
    forall g, In g done ->
              exists d, In d (semesterData a) /\
                        SemData.semester d = Grade.semester (fst g)
}.

Lemma weighted_points_app (l1 l2 : list (Grade.t * Subject.t)) :
  weighted_points (l1 ++ l2) = weighted_points l1 + weighted_points l2.
Proof.
  unfold weighted_points. induction l1 as [|g r IH]; simpl; [reflexivity|].
  rewrite IH. lia.
Qed.

Lemma credit_sum_app (l1 l2 : list (Grade.t * Subject.t)) :
  credit_sum (l1 ++ l2) = credit_sum l1 + credit_sum l2.
Proof.
  unfold credit_sum. induction l1 as [|g r IH]; simpl; [reflexivity|].
  rewrite IH. lia.
Qed.

Lemma in_semester_app (sem : Z) (l1 l2 : list (Grade.t * Subject.t)) :
  in_semester sem (l1 ++ l2) = in_semester sem l1 ++ in_semester sem l2.
Proof. apply filter_app. Qed.

Lemma add_to_semester (d : SemData.t) (p : option Z) (c : Z)
  (e : SemGrade.t) :
  SemData.semester (add_to d p c e) = SemData.semester d.
Proof. reflexivity. Qed.

(** The semesters of the object after [upsert]: those it had, and the
    one of the grade. *)
Lemma upsert_semesters (sem : Z) (p : option Z) (c : Z) (e : SemGrade.t)
  (l : list SemData.t) (d' : SemData.t) :
  In d' (upsert sem p c e l) ->
  SemData.semester d' = sem \/
  exists d, In d l /\ SemData.semester d' = SemData.semester d.
Proof.
  induction l as [|d rest IH]; simpl.
  - intros [<-|[]]. left. reflexivity.
  - destruct (Z.eqb_spec sem (SemData.semester d)) as [E|N].
    + intros [<-|H]; [left; simpl; congruence|].
      right. exists d'. auto.
    + destruct (sem <? SemData.semester d).
      * intros [<-|H]; [left; reflexivity|]. right. exists d'. auto.
      * intros [<-|H]; [right; exists d; auto|].
        destruct (IH H) as [?|(d0 & ? & ?)]; [left; assumption|].
        right. exists d0. auto.
Qed.

Lemma upsert_covers (sem : Z) (p : option Z) (c : Z) (e : SemGrade.t)
  (l : list SemData.t) :
  (exists d', In d' (upsert sem p c e l) /\ SemData.semester d' = sem) /\
  (forall d, In d l ->
             exists d', In d' (upsert sem p c e l) /\
                        SemData.semester d' = SemData.semester d).
Proof.
  induction l as [|d rest [IH1 IH2]]; simpl.
  - split; [eexists; split; [left; reflexivity | reflexivity]|].
    intros d [].
  - destruct (Z.eqb_spec sem (SemData.semester d)) as [E|N].
    + split; [eexists; split; [left; reflexivity | simpl; congruence]|].
      intros x [<-|H]; eexists; split;
        [left; reflexivity | reflexivity | right; exact H | reflexivity].
    + destruct (sem <? SemData.semester d).
      * split; [eexists; split; [left; reflexivity | reflexivity]|].
        intros x H. exists x. split; [right; exact H | reflexivity].
      * split.
        -- destruct IH1 as (d' & Hin & Hs). exists d'. split;
             [right; exact Hin | exact Hs].
        -- intros x [<-|H]; [exists d; split; [left|]; reflexivity|].
           destruct (IH2 x H) as (d' & Hin & Hs). exists d'. split;
             [right; exact Hin | exact Hs].
Qed.

Lemma upsert_ascending (sem : Z) (p : option Z) (c : Z) (e : SemGrade.t)
  (l : list SemData.t) :
  ascending l -> ascending (upsert sem p c e l).
Proof.
  induction l as [|d rest IH]; simpl.
  - intros _. split; [intros d' []|exact I].
  - intros [Hd Hr].
    destruct (Z.eqb_spec sem (SemData.semester d)) as [E|N]; simpl.
    + split; assumption.
    + destruct (Z.ltb_spec sem (SemData.semester d)) as [L|G]; simpl.
      * split; [|split; assumption].
        intros d' [<-|H]; [exact L|]. specialize (Hd d' H). lia.
      * split; [|apply IH; exact Hr].
        intros d' H. apply upsert_semesters in H.
        destruct H as [->|(d0 & Hin & ->)]; [lia | apply Hd; exact Hin].
Qed.

(** The entries of the object after [upsert], on an ascending object:
    the entry of the semester with the grade added, created when the
    semester had none, and the other entries as they were. *)
Lemma upsert_entries (sem : Z) (p : option Z) (c : Z) (e : SemGrade.t)
  (l : list SemData.t) (d' : SemData.t) :
  ascending l ->
  In d' (upsert sem p c e l) ->
  (exists d, In d l /\ SemData.semester d = sem /\ d' = add_to d p c e) \/
  (In d' l /\ SemData.semester d' <> sem) \/
  ((forall d, In d l -> SemData.semester d <> sem) /\
   d' = add_to (SemData.mk sem (Some 0) 0 []) p c e).
Proof.
  induction l as [|d rest IH]; simpl.
  - intros _ [<-|[]]. right. right. split; [intros d []|reflexivity].
  - intros [Hd Hr].
    destruct (Z.eqb_spec sem (SemData.semester d)) as [E|N].
    + intros [<-|H].
      * left. exists d. auto.
      * right. left. split; [right; exact H|].
        specialize (Hd d' H). lia.
    + destruct (Z.ltb_spec sem (SemData.semester d)) as [L|G].
      * intros [<-|[<-|H]].
        -- right. right. split; [|reflexivity].
           intros x [<-|Hx]; [lia|]. specialize (Hd x Hx). lia.
        -- right. left. split; [left; reflexivity | lia].
        -- right. left. split; [right; exact H|].
           specialize (Hd d' H). lia.
      * intros [<-|H].
        -- right. left. split; [left; reflexivity | lia].
        -- destruct (IH Hr H) as [(d0 & Hin & Hs & ->)|[[Hin Hs]|[Hn ->]]].
           ++ left. exists d0. auto.
           ++ right. left. auto.
           ++ right. right. split; [|reflexivity].
              intros x [<-|Hx]; [lia | apply Hn; exact Hx].
Qed.

Lemma grouped_init : grouped [] (mkAcc [] (Some 0) 0).
Proof.
  constructor; simpl; try reflexivity; try exact I; intros ? [].
Qed.

Lemma in_semester_last (sem : Z) (done : list (Grade.t * Subject.t))
  (g : Grade.t * Subject.t) :
  in_semester sem (done ++ [g])
  = in_semester sem done
    ++ (if Grade.semester (fst g) =? sem then [g] else []).
Proof. rewrite in_semester_app. reflexivity. Qed.

Lemma entry_of_other (sem : Z) (done : list (Grade.t * Subject.t))
  (g : Grade.t * Subject.t) :
  Grade.semester (fst g) <> sem ->
  entry_of sem (done ++ [g]) = entry_of sem done.
Proof.
  intros N. unfold entry_of. rewrite in_semester_last.
  destruct (Z.eqb_spec (Grade.semester (fst g)) sem); [contradiction|].
  rewrite app_nil_r. reflexivity.
Qed.

Lemma entry_of_same (done : list (Grade.t * Subject.t))
  (g : Grade.t * Subject.t) (p : Z) :
  Grade.gradePoints (fst g) = Some p ->
  add_to (entry_of (Grade.semester (fst g)) done)
    (js_mul (Grade.gradePoints (fst g)) (Subject.credits (snd g)))
    (Subject.credits (snd g)) (sem_grade g)
  = entry_of (Grade.semester (fst g)) (done ++ [g]).
Proof.
  intros Hp. unfold entry_of, add_to. cbv zeta. rewrite in_semester_last.
  rewrite Z.eqb_refl. cbn [SemData.semester SemData.totalGradePoints
    SemData.totalCredits SemData.grades].
  rewrite weighted_points_app, credit_sum_app, map_app, Hp.
  unfold weighted_points, credit_sum, points_of. simpl. rewrite Hp.
  f_equal; [f_equal; lia | lia].
Qed.

(** One turn of the loop keeps the description. *)
Lemma grouped_step (done : list (Grade.t * Subject.t)) (a : Acc)
  (g : Grade.t * Subject.t) :
  has_points g -> grouped done a -> grouped (done ++ [g]) (accumulate a g).
Proof.
  intros Hp [Hasc Hpts Hcr Hent Hcov].
  destruct (Grade.gradePoints (fst g)) as [p|] eqn:Ep;
    [|exfalso; apply Hp; exact Ep].
  destruct g as [grade subject]. simpl in Ep.
  constructor; simpl.
  - apply upsert_ascending. exact Hasc.
  - rewrite Hpts, weighted_points_app, Ep.
    unfold weighted_points, points_of. simpl. rewrite Ep. simpl.
    f_equal. lia.
  - rewrite Hcr, credit_sum_app. unfold credit_sum. simpl. lia.
  - intros d Hin.
    apply upsert_entries in Hin; [|exact Hasc].
    destruct Hin as [(d0 & Hin & Hs & ->)|[[Hin Hs]|[Hn ->]]].
    + destruct (Hent d0 Hin) as [Hd0 Hne]. rewrite add_to_semester.
      split.
      * rewrite Hs. rewrite Hd0 at 1. rewrite Hs.
        exact (entry_of_same done (grade, subject) p Ep).
      * rewrite in_semester_last. intros H.
        apply app_eq_nil in H. destruct H as [H _]. contradiction.
    + destruct (Hent d Hin) as [Hd Hne]. split.
      * rewrite entry_of_other; [exact Hd | simpl; congruence].
      * rewrite in_semester_last. intros H.
        apply app_eq_nil in H. destruct H as [H _]. contradiction.
    + rewrite add_to_semester. simpl.
      assert (Hempty : in_semester (Grade.semester grade) done = []).
      { unfold in_semester.
        destruct (filter _ done) as [|x rest] eqn:Hf; [reflexivity|].
        assert (Hx : In x (filter
                            (fun gs => Grade.semester (fst gs)
                                       =? Grade.semester grade) done))
          by (rewrite Hf; left; reflexivity).
        apply filter_In in Hx. destruct Hx as [Hx Hsem].
        apply Z.eqb_eq in Hsem.
        destruct (Hcov x Hx) as (d & Hd & Hds).
        exfalso. apply (Hn d Hd). congruence. }
      split.
      * pose proof (entry_of_same done (grade, subject) p Ep) as Hsame.
        simpl in Hsame. rewrite <- Hsame.
        unfold entry_of. simpl. rewrite Hempty. reflexivity.
      * rewrite in_semester_last. simpl. rewrite Z.eqb_refl.
        intros H. apply app_eq_nil in H. destruct H as [_ H].
        discriminate H.
  - intros x Hx. apply in_app_or in Hx.
    destruct (upsert_covers (Grade.semester grade)
                (js_mul (Grade.gradePoints grade) (Subject.credits subject))
                (Subject.credits subject)
                (SemGrade.mk subject (Grade.marks grade) (Grade.grade grade)
                   (Grade.gradePoints grade) (Subject.credits subject))
                (semesterData a)) as [Hnew Hold].
    destruct Hx as [Hx|[<-|[]]].
    + destruct (Hcov x Hx) as (d & Hd & Hds).
      destruct (Hold d Hd) as (d' & Hd' & Hds'). exists d'.
      split; [exact Hd' | congruence].
    + exact Hnew.
Qed.

Lemma grouped_fold (l done : list (Grade.t * Subject.t)) (a : Acc) :
  Forall has_points l -> grouped done a ->
  grouped (done ++ l) (fold_left accumulate l a).
Proof.
  revert done a. induction l as [|g rest IH]; intros done a Hl Ha; simpl.
  - rewrite app_nil_r. exact Ha.
  - inversion Hl; subst.
    replace (done ++ g :: rest) with ((done ++ [g]) ++ rest)
      by (rewrite <- app_assoc; reflexivity).
    apply IH; [assumption|]. apply grouped_step; assumption.
Qed.

Lemma ascending_NoDup (l : list SemData.t) :
  ascending l -> NoDup (map SemData.semester l).
Proof.
  induction l as [|d rest IH]; simpl; [constructor|].
  intros [Hd Hr]. constructor; [|apply IH; exact Hr].
  intros Hin. apply in_map_iff in Hin. destruct Hin as (x & Hs & Hx).
  specialize (Hd x Hx). lia.
Qed.

Lemma ratio_some (p c : Z) :
  ratio (Some p) c
  = if 0 <? c
    then SgpaText (Digits (round2 (Number.div (inject_Z p) (inject_Z c))))
    else SgpaZero.
Proof.
  unfold ratio, js_div. destruct (Z.ltb_spec 0 c) as [L|G]; [|reflexivity].
  destruct (Z.eqb_spec c 0); [lia | reflexivity].
Qed.

(** An element of [semesterWise] describes the grades [gs] of its
    semester: it lists them, holds their sums, and its [sgpa] is what
    [toFixed(2)] writes of the Number nearest to the quotient of the
    sums, or 0 without credits. *)
Definition is_entry_of (e : SemesterWise.t)
  (gs : list (Grade.t * Subject.t)) : Prop :=
  gs <> [] /\
  SemesterWise.grades e = map sem_grade gs /\
  SemesterWise.totalGradePoints e = Some (weighted_points gs) /\
  SemesterWise.totalCredits e = credit_sum gs /\
  (0 < credit_sum gs ->
   SemesterWise.sgpa e
   = SgpaText (Digits (round2 (Number.div (inject_Z (weighted_points gs))
                                 (inject_Z (credit_sum gs)))))) /\
  (credit_sum gs <= 0 -> SemesterWise.sgpa e = SgpaZero).

(** The answer of the route describes the selection [chosen]. *)
Definition describes (r : CgpaResult.t)
  (chosen : list (Grade.t * Subject.t)) : Prop :=
  CgpaResult.gradesCount r = List.length chosen /\
  CgpaResult.totalCredits r = credit_sum chosen /\
  (0 < credit_sum chosen ->
   CgpaResult.cgpa r
   = Num (round2 (Number.div (inject_Z (weighted_points chosen))
                    (inject_Z (credit_sum chosen))) # 100)) /\
  (credit_sum chosen <= 0 -> CgpaResult.cgpa r = Num 0) /\
  (forall e, In e (CgpaResult.semesterWise r) ->
             is_entry_of e (in_semester (SemesterWise.semester e) chosen)) /\
  (forall g, In g chosen ->
             exists e, In e (CgpaResult.semesterWise r) /\
                       SemesterWise.semester e = Grade.semester (fst g)) /\
  NoDup (map SemesterWise.semester (CgpaResult.semesterWise r)).

Lemma aggregate_describes (chosen : list (Grade.t * Subject.t)) :
  Forall has_points chosen -> describes (aggregate chosen) chosen.
Proof.
  intros Hp.
  pose proof (grouped_fold chosen [] _ Hp grouped_init) as G. simpl in G.
  destruct G as [Hasc Hpts Hcr Hent Hcov].
  unfold describes, aggregate. cbv zeta.
  cbn [CgpaResult.gradesCount CgpaResult.totalCredits CgpaResult.cgpa
       CgpaResult.semesterWise].
  rewrite Hpts, Hcr, ratio_some.
  split; [reflexivity|]. split; [reflexivity|].
  split; [|split; [|split; [|split]]].
  - intros L. apply Z.ltb_lt in L. rewrite L. reflexivity.
  - intros L. destruct (Z.ltb_spec 0 (credit_sum chosen)); [lia|].
    reflexivity.
  - intros e He. apply in_map_iff in He. destruct He as (d & <- & Hd).
    destruct (Hent d Hd) as [Ed Hne]. unfold is_entry_of, with_sgpa.
    cbn [SemesterWise.semester SemesterWise.grades
         SemesterWise.totalGradePoints SemesterWise.totalCredits
         SemesterWise.sgpa].
    rewrite Ed. unfold entry_of. cbv zeta.
    cbn [SemData.semester SemData.grades SemData.totalGradePoints
         SemData.totalCredits].
    rewrite ratio_some.
    split; [exact Hne|]. do 3 (split; [reflexivity|]). split.
    + intros L. apply Z.ltb_lt in L. rewrite L. reflexivity.
    + intros L.
      destruct (Z.ltb_spec 0 (credit_sum
                                (in_semester (SemData.semester d) chosen)));
        [lia | reflexivity].
  - intros g Hg. destruct (Hcov g Hg) as (d & Hd & Hs).
    exists (with_sgpa d). split; [apply in_map; exact Hd | exact Hs].
  - rewrite map_map. simpl. apply ascending_NoDup. exact Hasc.
Qed.




Lemma derived_has_points (g : Grade.t) (s : Subject.t) :
  derived_ok g -> has_points (g, s).
Proof.
  intros (_ & _ & Hp). unfold has_points. simpl. rewrite Hp. discriminate.
Qed.



(** ** C1: the CGPA is credit-weighted over every selected grade *)

(** The example of the specification: a grade O in a subject of 4
    credits in semester 1, a grade P in a subject of 2 credits in
    semester 2. *)
Definition analysis : Subject.t :=
  Subject.mk 21%nat "Analysis" "MA102" 4 4%nat 1 "1st Year" None true.

Definition drawing : Subject.t :=
  Subject.mk 22%nat "Drawing" "ME103" 2 4%nat 2 "1st Year" None true.

Definition store1 : Store :=
  mkStore
    [pre_save (Grade.mk 1%nat 10%nat 21%nat 30%nat
                 (Marks.mk (Some 60) (Some 20) (Some 15) None) None None 1
                 "1st Year" Regular true None None);
     pre_save (Grade.mk 2%nat 10%nat 22%nat 30%nat
                 (Marks.mk (Some 30) None (Some 12) None) None None 2
                 "1st Year" Regular true None None)]
    [analysis; drawing] [student10].







(** ** C4: the CGPA route and a subject that does not resolve *)

(** One request to POST /api/grades/bulk-create, served from a store
    without grades: a teacher sends a published grade of student 10 in a
    subject 99 that the store does not hold.  The loop looks no subject
    up, so the grade is created. *)
Definition dangling_item : GradeData.t :=
  GradeData.mk (Some 10%nat) (Some 99%nat)
    (Some (Marks.mk (Some 77) None None None)) (Some 1) (Some "1st Year")
    None None (Some true) (Some Letter.A) (Some 8).

Definition store_before : Store :=
  mkStore [] [algebra] [admin0; student10; teacher30].

Definition store_dangling : Store :=
  run store_before [BulkCreateGrades teacher30 [dangling_item]].

(** C4 (the code at the failing input). POST /api/grades answers 400 to
    a grade in a subject the store does not hold; the loop of
    POST /api/grades/bulk-create has no such check and creates it.
    After that one request the store holds a published grade, with its
    derived fields, whose subject does not resolve, and the CGPA route
    answers 500 to the student and to an admin, its loop reading the
    credits of a subject that is null. *)
Theorem C4_dangling_subject_is_an_error :
  post_grade store_before teacher30
    (GradeBody.mk (Some 10%nat) (Some 99%nat)
       (Some (Marks.mk (Some 77) None None None)) (Some 1)
       (Some "1st Year") None None)
  = (store_before, BadRequest400 "Invalid subject") /\
  bulk_create_grades store_before teacher30 [dangling_item]
  = (store_dangling,
     Ok200 (mkResults [mkRow 1 (mkGradeSuccess created 1)] [])) /\
  Forall derived_ok (grades store_dangling) /\
  (exists g,
      grades store_dangling = [g] /\ Grade.student g = 10%nat /\
      Grade.subject g = 99%nat /\ Grade.isPublished g = true) /\
  ~ subjects_resolve store_dangling /\
  get_cgpa store_dangling student10 10 (CgpaQuery.mk None None)
  = ServerError500 /\
  get_cgpa store_dangling admin0 10 (CgpaQuery.mk (Some 1) None)
  = ServerError500.
Proof.
  split; [reflexivity|]. split; [reflexivity|].
  split; [repeat constructor; apply pre_save_derived_ok|].
  split; [eexists; repeat split; reflexivity|].
  split; [|split; reflexivity].
  intros H. apply (H (pre_save
                        (Grade.mk 1%nat 10%nat 99%nat 30%nat
                           (Marks.mk (Some 77) None None None)
                           (Some Letter.A) (Some 8) 1 "1st Year" Regular
                           true None None))).
  - left. reflexivity.
  - reflexivity.
Qed.





(** * Part III: further properties of the code *)

(** ** The hook and the scale *)

Lemma scale_monotone (t1 t2 : Z) :
  t1 <= t2 -> snd (scale t1) <= snd (scale t2).
Proof.
  intros H. unfold scale.
  repeat match goal with
         | |- context [?a <=? ?b] => destruct (Z.leb_spec a b)
         end; simpl; lia.
Qed.

(** X1. [calculateGrade] is monotone: of two grades, the one with the higher
    total never gets fewer grade points. *)
Theorem calculateGrade_is_monotone (g1 g2 : Grade.t) (t1 t2 : Z) :
  Marks.total (Grade.marks g1) = Some t1 ->
  Marks.total (Grade.marks g2) = Some t2 ->
  t1 <= t2 ->
  exists p1 p2,
    Grade.gradePoints (calculateGrade g1) = Some p1 /\
    Grade.gradePoints (calculateGrade g2) = Some p2 /\
    p1 <= p2.
Proof.
  intros H1 H2 Hle.
  destruct (calculateGrade_scale g1 t1 H1) as [_ E1].
  destruct (calculateGrade_scale g2 t2 H2) as [_ E2].
  do 2 eexists. split; [exact E1|]. split; [exact E2|].
  apply scale_monotone. exact Hle.
Qed.

Lemma calculateGrade_is_monotone_witness :
  exists p1 p2,
    Grade.gradePoints (calculateGrade (of_total 54)) = Some p1 /\
    Grade.gradePoints (calculateGrade (of_total 55)) = Some p2 /\
    p1 <= p2.
Proof.
  apply (calculateGrade_is_monotone (of_total 54) (of_total 55) 54 55);
    [reflexivity | reflexivity | lia].
Defined.

(** X2. [calculateGrade] leaves a letter and points on every document; the
    letter is never [Ab]; a document without total gets F and 0; and the
    points reach 4, the pass mark of the statistics, exactly when the
    total reaches 40, that is exactly when the letter is not F. *)
Theorem calculateGrade_pass_mark (g : Grade.t) :
  let g' := calculateGrade g in
  Grade.grade g' <> None /\
  Grade.grade g' <> Some Letter.Ab /\
  (Marks.total (Grade.marks g) = None ->
   Grade.grade g' = Some Letter.F /\ Grade.gradePoints g' = Some 0) /\
  geq (Grade.gradePoints g') 4 = geq (Marks.total (Grade.marks g)) 40 /\
  (Grade.grade g' = Some Letter.F <->
   geq (Marks.total (Grade.marks g)) 40 = false).
Proof.
  unfold calculateGrade, geq.
  destruct (Marks.total (Grade.marks g)) as [t|]; cbv zeta.
  - repeat match goal with
           | |- context [?a <=? t] => destruct (Z.leb_spec a t)
           end; simpl;
      repeat split; intros; solve [reflexivity | congruence | lia].
  - simpl. repeat split; try discriminate; reflexivity.
Qed.

(** The hook in closed form: the marks with their sum, and the letter
    and points of the scale at that sum. *)
Lemma pre_save_closed (g : Grade.t) :
  let m := Grade.marks g in
  let t := or0 (Marks.theory m) + or0 (Marks.practical m)
           + or0 (Marks.internal m) in
  pre_save g
  = Grade.set_grade (fst (scale t)) (snd (scale t))
      (Grade.set_marks
         (Marks.mk (Marks.theory m) (Marks.practical m) (Marks.internal m)
            (Some t)) g).
Proof.
  cbv zeta. unfold pre_save, calculateGrade, scale, geq.
  cbn [Grade.marks Grade.set_marks Marks.total].
  repeat match goal with
         | |- context [?a <=? ?b] => destruct (a <=? b)
         end; reflexivity.
Qed.

(** X3. The hook is idempotent: running it on a document it has already
    filled changes nothing. *)
Theorem pre_save_is_idempotent (g : Grade.t) :
  pre_save (pre_save g) = pre_save g.
Proof.
  rewrite (pre_save_closed (pre_save g)). rewrite (pre_save_closed g).
  destruct g as [id s j t [th pr it tot] l p sem y e pub at_ r].
  reflexivity.
Qed.

(** ** What the writing routes on grades change, and what they leave *)

(** X4. From a store without grades, whatever requests are served, no two
    stored grades share an id, and no two share the key (student,
    subject, exam type) of the unique index of [gradeSchema]. *)
Theorem grades_stay_unique (subjects0 : list Subject.t)
  (users0 : list User.t) (rs : list Request) :
  unique_grades (run (mkStore [] subjects0 users0) rs).
Proof.
  apply run_keeps_unique. split; constructor.
Qed.

Lemma find_persist_other (g : Grade.t) (gs : list Grade.t) (id : ObjectId) :
  id <> Grade._id g ->
  find (fun x => Nat.eqb (Grade._id x) id) (persist g gs)
  = find (fun x => Nat.eqb (Grade._id x) id) gs.
Proof.
  intros Hne. unfold persist. destruct (existsb _ gs).
  - induction gs as [|x rest IH]; simpl; [reflexivity|].
    destruct (Nat.eqb_spec (Grade._id x) (Grade._id g)) as [E|N]; simpl.
    + destruct (Nat.eqb_spec (Grade._id g) id); [congruence|].
      destruct (Nat.eqb_spec (Grade._id x) id); [congruence|]. exact IH.
    + destruct (Nat.eqb (Grade._id x) id); [reflexivity | exact IH].
  - induction gs as [|x rest IH]; simpl.
    + destruct (Nat.eqb_spec (Grade._id g) id); [congruence | reflexivity].
    + destruct (Nat.eqb (Grade._id x) id); [reflexivity | exact IH].
Qed.

(** A save touches the saved document only. *)
Lemma Grade_save_others (g g' : Grade.t) (st st' : Store) :
  Grade_save g st = inr (g', st') ->
  (forall id, id <> Grade._id g ->
              Grade_findById id st' = Grade_findById id st) /\
  subjects st' = subjects st /\ users st' = users st.
Proof.
  intros H. apply Grade_save_inr in H. destruct H as (_ & _ & ->).
  split; [|split; reflexivity].
  intros id Hne. unfold Grade_findById. simpl.
  apply find_persist_other.
  pose proof (pre_save_frame g) as F. cbv zeta in F.
  destruct F as (F1 & _). congruence.
Qed.

Lemma put_update_fields (grade : Grade.t) (b : PutBody.t) (now : nat) :
  let g := put_update grade b now in
  Grade.student g = Grade.student grade /\
  Grade.subject g = Grade.subject grade /\
  Grade.teacher g = Grade.teacher grade /\
  Grade.semester g = Grade.semester grade /\
  Grade.academicYear g = Grade.academicYear grade /\
  Grade.examType g = Grade.examType grade /\
  Grade.marks g = default (Grade.marks grade) (PutBody.marks b) /\
  Grade.remarks g
  = match PutBody.remarks b with
    | Some r => Some (trim r)
    | None => Grade.remarks grade
    end /\
  Grade.publishedAt g
  = match PutBody.isPublished b with
    | Some true => Some now
    | _ => Grade.publishedAt grade
    end.
Proof.
  unfold put_update.
  destruct (PutBody.marks b) as [m|], (PutBody.remarks b) as [r|],
    (PutBody.isPublished b) as [[|]|]; simpl; repeat split; reflexivity.
Qed.

(** X5. PUT /api/grades/:id, when it answers 200, has rewritten the grade
    of that id and no other document; on that grade it leaves the
    student, the subject, the teacher, the semester, the academic year
    and the exam type as they were; the marks are those of the body when
    it has some; the remarks are those of the body, without the white
    space around them, when it has some; and the date of publication is the date of the request when the body
    publishes, and is left as it was otherwise, also when the body
    withdraws the publication. *)
Theorem put_grade_rewrites_one (st st' : Store) (actor : User.t)
  (id : ObjectId) (b : PutBody.t) (now : nat) (g : Grade.t) :
  put_grade st actor id b now = (st', Ok200 g) ->
  exists old,
    Grade_findById id st = Some old /\ Grade_findById id st' = Some g /\
    Grade._id g = id /\
    Grade.student g = Grade.student old /\
    Grade.subject g = Grade.subject old /\
    Grade.teacher g = Grade.teacher old /\
    Grade.semester g = Grade.semester old /\
    Grade.academicYear g = Grade.academicYear old /\
    Grade.examType g = Grade.examType old /\
    (forall m, PutBody.marks b = Some m ->
               Marks.theory (Grade.marks g) = Marks.theory m /\
               Marks.practical (Grade.marks g) = Marks.practical m /\
               Marks.internal (Grade.marks g) = Marks.internal m) /\
    Grade.remarks g
    = match PutBody.remarks b with
      | Some r => Some (trim r)
      | None => Grade.remarks old
      end /\
    Grade.publishedAt g
    = match PutBody.isPublished b with
      | Some true => Some now
      | _ => Grade.publishedAt old
      end /\
    (forall id', id' <> id ->
                 Grade_findById id' st' = Grade_findById id' st) /\
    subjects st' = subjects st /\ users st' = users st.
Proof.
  intros H. apply put_grade_ok in H.
  destruct H as (old & _ & Hf & _ & Hs).
  exists old. split; [exact Hf|].
  pose proof (Grade_save_stored _ _ _ _ Hs) as Hst.
  pose proof (Grade_save_others _ _ _ _ Hs) as (Ho & Hsub & Hus).
  apply Grade_save_inr in Hs. destruct Hs as (_ & -> & _).
  pose proof (pre_save_frame (put_update old b now)) as F. cbv zeta in F.
  destruct F as (F1 & F2 & F3 & F4 & F5 & F6 & F7 & F8 & F9 & F10 & F11
                 & F12 & F13).
  unfold Grade_findById in Hf. apply find_some_id in Hf.
  destruct Hf as [Hid _].
  rewrite put_update_id in F1, Ho.
  rewrite F1, Hid in Hst. rewrite Hid in Ho.
  split; [exact Hst|].
  pose proof (put_update_fields old b now) as U. cbv zeta in U.
  destruct U as (U1 & U2 & U3 & U4 & U5 & U6 & U7 & U8 & U9).
  rewrite F1, F2, F3, F4, F5, F6, F7, F9, F10, F11, F12, F13.
  rewrite U1, U2, U3, U4, U5, U6, U7, U8, U9.
  split; [exact Hid|]. do 6 (split; [reflexivity|]).
  split; [intros m Hm; rewrite Hm; simpl; auto|].
  split; [reflexivity|]. split; [reflexivity|].
  split; [exact Ho|]. split; assumption.
Qed.

Lemma put_grade_rewrites_one_witness :
  exists old g st',
    Grade_findById 1 store7 = Some old /\
    Grade_findById 1 st' = Some g /\
    Grade.teacher g = Grade.teacher old /\
    Marks.theory (Grade.marks g) = Some 95 /\
    Grade.remarks g = Some "seen again" /\
    Grade.publishedAt g = Some 7%nat /\
    Grade_findById 2 st' = Grade_findById 2 store7.
Proof.
  destruct (put_grade_rewrites_one store7
              (fst (put_grade store7 admin0 1
                      (PutBody.mk (Some new_marks) (Some "  seen again ")
                         (Some true)) 7))
              admin0 1%nat
              (PutBody.mk (Some new_marks) (Some "  seen again ")
                 (Some true))
              7%nat
              (pre_save (put_update (grade_of 1 10 true)
                           (PutBody.mk (Some new_marks)
                              (Some "  seen again ") (Some true))
                           7)) eq_refl)
    as (old & Hf & Hf' & _ & _ & _ & Ht & _ & _ & _ & Hm & Hr & Hp & Ho & _).
  exists old. do 2 eexists. split; [exact Hf|]. split; [exact Hf'|].
  split; [exact Ht|].
  split; [exact (proj1 (Hm new_marks eq_refl))|].
  split; [exact Hr|].
  split; [exact Hp|]. apply Ho. discriminate.
Defined.

(** X6. DELETE /api/grades/:id, when it answers 200, has removed every
    document of that id and no other; the actor is an admin or a head of
    department. *)
Theorem delete_grade_removes_one (st st' : Store) (actor : User.t)
  (id : ObjectId) (m : string) :
  delete_grade st actor id = (st', Ok200 m) ->
  (User.role actor = admin \/ User.role actor = hod) /\
  Grade_findById id st <> None /\
  Grade_findById id st' = None /\
  (forall g, In g (grades st') <-> In g (grades st) /\ Grade._id g <> id) /\
  subjects st' = subjects st /\ users st' = users st.
Proof.
  unfold delete_grade. intros H.
  destruct (authorize [admin; hod] actor) eqn:Ha; simpl in H;
    [|discriminate H].
  split.
  { unfold authorize, includes in Ha.
    destruct (User.role actor); simpl in Ha; try discriminate Ha; auto. }
  destruct (Grade_findById id st) as [grade|] eqn:Hf; [|discriminate H].
  split; [discriminate|].
  cbv zeta in H.
  match type of H with
  | context [match ?d with Some _ => _ | None => _ end] =>
      destruct d as [r|] eqn:Hd
  end.
  - exfalso. inversion H; subst. answer_cases Hd; discriminate Hd.
  - inversion H; subst. simpl.
    split; [|split; [|split; reflexivity]].
    + unfold Grade_findById. simpl.
      match goal with
      | |- find ?p ?l = None =>
          destruct (find p l) as [x|] eqn:Hx; [|reflexivity]
      end.
      apply find_some in Hx. destruct Hx as [Hin Hid].
      apply filter_In in Hin. destruct Hin as [_ Hn].
      rewrite Hid in Hn. discriminate Hn.
    + intros g. rewrite filter_In, negb_true_iff, Nat.eqb_neq. tauto.
Qed.

Lemma delete_grade_removes_one_witness :
  exists st',
    delete_grade store7 hod4 3 = (st', Ok200 "Grade deleted successfully") /\
    Grade_findById 3 st' = None /\
    map Grade._id (grades st') = [1; 2; 4]%nat.
Proof.
  eexists. split; [reflexivity|].
  destruct (delete_grade_removes_one store7 _ hod4 3%nat _ eq_refl)
    as (_ & _ & Hnone & _).
  split; [exact Hnone | reflexivity].
Defined.

(** X7. A writing route on one grade that does not succeed leaves the store
    as it was: POST /api/grades, PUT and DELETE /api/grades/:id and
    POST /api/grades/publish-bulk write only with their answer 200 or
    201. *)
Theorem refused_writes_change_nothing (st : Store) (actor : User.t) :
  (forall b, ~ succeeded (snd (post_grade st actor b)) ->
             fst (post_grade st actor b) = st) /\
  (forall id b now, ~ succeeded (snd (put_grade st actor id b now)) ->
                    fst (put_grade st actor id b now) = st) /\
  (forall id, ~ succeeded (snd (delete_grade st actor id)) ->
              fst (delete_grade st actor id) = st) /\
  (forall ids now, ~ succeeded (snd (publish_bulk st actor ids now)) ->
                   fst (publish_bulk st actor ids now) = st).
Proof.
  split; [|split; [|split]].
  - intros b H. destruct (post_grade_store st actor b); tauto.
  - intros id b now H. destruct (put_grade_store st actor id b now); tauto.
  - intros id. unfold delete_grade.
    repeat match goal with
           | |- context [match ?x with _ => _ end] => destruct x
           end; simpl; tauto.
  - intros ids now. unfold publish_bulk.
    repeat match goal with
           | |- context [match ?x with _ => _ end] => destruct x
           end; simpl; tauto.
Qed.

Lemma publish_permission_denies (st : Store) (actor : User.t)
  (gs : list Grade.t) (r : Response nat) :
  publish_permission st actor gs = Some r -> ~ succeeded r.
Proof.
  induction gs as [|g rest IH]; simpl; [discriminate|].
  destruct (User.role actor).
  - exact IH.
  - destruct (Subject_findById _ st) as [sj|];
      [|intros H; inversion H; subst; simpl; tauto].
    destruct (User.department actor) as [d|];
      [|intros H; inversion H; subst; simpl; tauto].
    destruct (negb _); [intros H; inversion H; subst; simpl; tauto|].
    exact IH.
  - destruct (negb _); [intros H; inversion H; subst; simpl; tauto|].
    exact IH.
  - exact IH.
Qed.

Lemma publish_many_pointwise (ids : list ObjectId) (now : nat)
  (gs : list Grade.t) :
  Forall2 (fun g g' =>
             if id_in ids g
             then Grade.isPublished g' = true /\
                  Grade.publishedAt g' = Some now /\
                  Grade.set_publishedAt (Grade.publishedAt g)
                    (Grade.set_isPublished (Grade.isPublished g) g') = g
             else g' = g)
    gs (publish_many ids now gs).
Proof.
  unfold publish_many. induction gs as [|g rest IH]; simpl; constructor;
    [|exact IH].
  destruct (id_in ids g); [|reflexivity].
  destruct g; repeat split; reflexivity.
Qed.

(** X8. POST /api/grades/publish-bulk is all or nothing.  When it answers
    200, every stored grade whose id is listed is published at the date
    of the request, every other grade is the one it was, and no grade
    has changed in anything but the flag and the date; a teacher was let
    through only with every listed grade recorded under that teacher.
    An empty list is answered 200 and publishes nothing. *)
Theorem publish_bulk_all_or_nothing (st st' : Store) (actor : User.t)
  (ids : list ObjectId) (now : nat) (n : nat) :
  publish_bulk st actor ids now = (st', Ok200 n) ->
  n = List.length ids /\
  subjects st' = subjects st /\ users st' = users st /\
  List.length (filter (id_in ids) (grades st)) = List.length ids /\
  Forall2 (fun g g' =>
             if id_in ids g
             then Grade.isPublished g' = true /\
                  Grade.publishedAt g' = Some now /\
                  Grade.set_publishedAt (Grade.publishedAt g)
                    (Grade.set_isPublished (Grade.isPublished g) g') = g
             else g' = g)
    (grades st) (grades st') /\
  (User.role actor = teacher ->
   forall g, In g (grades st) -> id_in ids g = true ->
             Grade.teacher g = User._id actor).
Proof.
  unfold publish_bulk. intros H.
  destruct (negb (authorize _ actor)); [discriminate H|].
  destruct (Nat.eqb_spec (List.length (filter (id_in ids) (grades st)))
              (List.length ids)) as [El|Nl]; simpl in H; [|discriminate H].
  destruct (publish_permission st actor (filter (id_in ids) (grades st)))
    as [r|] eqn:Hp; [|inversion H; subst; clear H].
  - exfalso. injection H as _ Er. subst r.
    exact (publish_permission_denies _ _ _ _ Hp I).
  - split; [reflexivity|]. split; [reflexivity|]. split; [reflexivity|].
    split; [exact El|]. split.
    + simpl. apply publish_many_pointwise.
    + intros Hrole g Hin Hid.
      pose proof (publish_permission_teacher st actor _ _ Hrole Hp) as Ht.
      simpl in Ht. apply Ht. apply filter_In. auto.
Qed.

Lemma publish_bulk_all_or_nothing_witness :
  exists st',
    publish_bulk store7 teacher30 [2; 4]%nat 99 = (st', Ok200 2%nat) /\
    map Grade.isPublished (grades st') = [true; true; true; true] /\
    map Grade.publishedAt (grades st')
    = [None; Some 99%nat; None; Some 99%nat] /\
    snd (publish_bulk store7 teacher31 [2; 4]%nat 99)
    = Forbidden403 "Access denied for some grades" /\
    fst (publish_bulk store7 teacher31 [2; 4]%nat 99) = store7.
Proof.
  eexists. split; [reflexivity|].
  destruct (publish_bulk_all_or_nothing store7 _ teacher30 [2; 4]%nat
              99%nat 2%nat eq_refl) as (_ & _ & _ & _ & _ & _).
  repeat split; reflexivity.
Defined.

(** A document without a letter is refused by the validation, which
    runs before the hook that would derive one. *)
Lemma Grade_save_no_letter (g : Grade.t) (st : Store) :
  Grade.grade g = None -> exists e, Grade_save g st = inl e.
Proof.
  intros H. unfold Grade_save, Grade_validate. rewrite H.
  repeat match goal with
         | |- context [if ?c then _ else _] => destruct c
         end; eauto.
Qed.

(** X9. POST /api/grades creates no document.  The document it builds
    for a key that no grade holds has neither [grade] nor [gradePoints],
    which the schema requires, so its [save] throws before the hook
    derives them: the route never answers 201; for a key that no grade
    holds it leaves the store as it was and does not answer 200; and
    when every check of the route passes on such a key, it answers
    500. *)
Theorem post_grade_never_creates (st st' : Store) (actor : User.t)
  (b : GradeBody.t) (r : Response Grade.t) :
  post_grade st actor b = (st', r) ->
  (forall g, r <> Created201 g) /\
  (forall s j sem y,
      validated b = Some (s, j, sem, y) ->
      Grade_findOne s j (default Regular (GradeBody.examType b)) st = None ->
      st' = st /\ forall g, r <> Ok200 g) /\
  (forall s j sem y marks subjectDoc studentDoc,
      authorize [admin; hod; teacher] actor = true ->
      validated b = Some (s, j, sem, y) ->
      Subject_findById j st = Some subjectDoc ->
      post_permission actor subjectDoc = None ->
      User_findById s st = Some studentDoc ->
      User.role studentDoc = student ->
      User.department studentDoc = Some (Subject.department subjectDoc) ->
      GradeBody.marks b = Some marks ->
      check_marks marks = None ->
      Grade_findOne s j (default Regular (GradeBody.examType b)) st = None ->
      r = ServerError500).
Proof.
  intros H. split; [|split].
  - intros g ->. apply post_grade_created in H.
    destruct H as (s & j & sem & y & marks & _ & _ & _ & Hs).
    match type of Hs with
    | Grade_save ?x _ = _ =>
        destruct (Grade_save_no_letter x st eq_refl) as [e He]
    end.
    congruence.
  - intros s j sem y Hv Hk. unfold post_grade in H. rewrite Hv in H.
    cbv beta iota zeta in H.
    change (match GradeBody.examType b with
            | Some e => e
            | None => Regular
            end) with (default Regular (GradeBody.examType b)) in H.
    repeat match type of H with
           | context [match ?x with _ => _ end] =>
               lazymatch x with
               | Grade_save ?g _ =>
                   destruct (Grade_save_no_letter g st eq_refl) as [e He];
                   rewrite He in H
               | _ => destruct x eqn:?
               end
           end;
      try congruence;
      inversion H; subst; (split; [reflexivity|]); intros g0 Hg;
      try discriminate Hg; subst;
      match goal with
      | Hp : post_permission _ _ = Some _ |- _ =>
          exact (post_permission_denies _ _ _ Hp I)
      end.
  - intros s j sem y marks subjectDoc studentDoc Ha Hv Hsj Hp Hsd Hr Hd Hm
      Hc Hk.
    assert (E : post_grade st actor b = (st, ServerError500)).
    { unfold post_grade. rewrite Ha, Hv. cbv beta iota zeta. cbn [negb].
      rewrite Hsj. cbv beta iota. rewrite Hp, Hsd. cbv beta iota.
      rewrite Hr, Hd, Nat.eqb_refl. cbn [negb Role_eqb]. cbv beta iota.
      rewrite Hm. cbv beta iota. rewrite Hc.
      change (match GradeBody.examType b with
              | Some e => e
              | None => Regular
              end) with (default Regular (GradeBody.examType b)).
      rewrite Hk.
      match goal with
      | |- context [Grade_save ?x st] =>
          destruct (Grade_save_no_letter x st eq_refl) as [e He];
          rewrite He
      end.
      reflexivity. }
    congruence.
Qed.

Definition student12 : User.t :=
  User.mk 12%nat "s12" "s12@x" "secret" "S" "V" student (Some 4%nat)
    (Some "1st Year") (Some 1) (Some "R12") None true.

Definition store12 : Store :=
  mkStore (grades store8) [algebra]
    [student10; student11; student12; teacher30].

Definition body12 : GradeBody.t :=
  GradeBody.mk (Some 12%nat) (Some 20%nat)
    (Some (Marks.mk (Some 50) (Some 30) (Some 9) (Some 4))) (Some 1)
    (Some "1st Year") None (Some "ok").

Lemma post_grade_never_creates_witness :
  snd (post_grade store12 teacher30 body12) = ServerError500 /\
  fst (post_grade store12 teacher30 body12) = store12 /\
  Subject.teacher algebra = Some (User._id teacher30) /\
  User_findById 12 store12 = Some student12 /\
  check_marks (Marks.mk (Some 50) (Some 30) (Some 9) (Some 4)) = None /\
  Grade_findOne 12 20 Regular store12 = None.
Proof.
  destruct (post_grade_never_creates store12
              (fst (post_grade store12 teacher30 body12)) teacher30 body12
              (snd (post_grade store12 teacher30 body12)) eq_refl)
    as (_ & Hkey & Hall).
  split.
  - apply (Hall 12%nat 20%nat 1 "1st Year"
             (Marks.mk (Some 50) (Some 30) (Some 9) (Some 4))
             algebra student12); reflexivity.
  - split.
    + apply (Hkey 12%nat 20%nat 1 "1st Year"); reflexivity.
    + repeat split; reflexivity.
Defined.

(** ** What the listing returns to a teacher and to a head of department *)

Lemma matches_subject (f : Filter.t) (g : Grade.t) (c : SubjectCond) :
  Filter.subject f = Some c -> matches f g = true ->
  subject_cond c (Grade.subject g) = true.
Proof.
  unfold matches. intros ->. rewrite opt_test_some.
  rewrite !andb_true_iff. tauto.
Qed.

(** X10. GET /api/grades answers a teacher with grades recorded under that
    teacher only, whatever the query asks: the [teacher] of the query is
    read for an admin or a head of department only. *)
Theorem teacher_lists_own_grades (st : Store) (actor : User.t)
  (q : ListQuery.t) (l : GradeList.t) (g : Grade.t) :
  User.role actor = teacher ->
  get_grades st actor q = Ok200 l ->
  In g (GradeList.grades l) ->
  In g (grades st) /\ Grade.teacher g = User._id actor.
Proof.
  intros Hrole H Hin.
  destruct (get_grades_ok _ _ _ _ H) as (f0 & Hf0 & Hl).
  apply Hl in Hin. unfold role_filter in Hf0. rewrite Hrole in Hf0.
  injection Hf0 as <-. apply filter_In in Hin.
  destruct Hin as [Hin Hm]. split; [exact Hin|].
  eapply matches_teacher; [|exact Hm].
  unfold query_filter. rewrite Hrole. simpl.
  destruct (ListQuery.teacher q); reflexivity.
Qed.

Lemma teacher_lists_own_grades_witness :
  In (grade_of 1 10 true) (grades store7) /\
  Grade.teacher (grade_of 1 10 true) = User._id teacher30.
Proof.
  apply (teacher_lists_own_grades store7 teacher30
           (ListQuery.mk None None (Some 31%nat) None None None None 1 20)
           (GradeList.mk (rev (grades store7)) 1 4) (grade_of 1 10 true)).
  - reflexivity.
  - reflexivity.
  - simpl. tauto.
Defined.

(** X11. GET /api/grades answers a head of department whose query names no
    subject with grades in subjects of the actor's department only; a
    head of department without department is answered 500. *)
Theorem hod_lists_own_department (st : Store) (actor : User.t)
  (q : ListQuery.t) (l : GradeList.t) (g : Grade.t) :
  User.role actor = hod ->
  ListQuery.subject q = None ->
  get_grades st actor q = Ok200 l ->
  In g (GradeList.grades l) ->
  exists sj,
    In sj (subjects st) /\ Subject._id sj = Grade.subject g /\
    User.department actor = Some (Subject.department sj).
Proof.
  intros Hrole Hq H Hin.
  destruct (get_grades_ok _ _ _ _ H) as (f0 & Hf0 & Hl).
  apply Hl in Hin. unfold role_filter in Hf0. rewrite Hrole in Hf0.
  destruct (User.department actor) as [d|]; [|discriminate Hf0].
  injection Hf0 as <-. apply filter_In in Hin.
  destruct Hin as [_ Hm].
  eapply matches_subject in Hm;
    [|unfold query_filter; rewrite Hq; reflexivity].
  simpl in Hm. apply existsb_exists in Hm.
  destruct Hm as (i & Hi & Ei). apply Nat.eqb_eq in Ei. subst i.
  apply in_map_iff in Hi. destruct Hi as (sj & Es & Hs).
  apply filter_In in Hs. destruct Hs as [Hs Ed].
  apply Nat.eqb_eq in Ed. exists sj. repeat split; congruence.
Qed.

Lemma hod_lists_own_department_witness :
  exists sj,
    In sj (subjects store7) /\
    Subject._id sj = Grade.subject (grade_of 3 11 true) /\
    User.department hod4 = Some (Subject.department sj).
Proof.
  apply (hod_lists_own_department store7 hod4
           (ListQuery.mk (Some 11%nat) None None None None None
              (Some "true") 1 20)
           (GradeList.mk [grade_of 3 11 true] 1 1) (grade_of 3 11 true)).
  - reflexivity.
  - reflexivity.
  - reflexivity.
  - left. reflexivity.
Defined.

(** ** The rows of a bulk answer *)

Lemma rows_inl_above {Done : Type} (os : list (Done + Reason)) (i : nat)
  (r : Row Done) :
  In r (rows_inl i os) -> (i < row r)%nat.
Proof.
  revert i. induction os as [|[d|e] rest IH]; intros i; simpl; [tauto| |].
  - intros [<-|H]; [simpl; lia|]. apply IH in H. lia.
  - intros H. apply IH in H. lia.
Qed.

Lemma rows_inr_above {Done : Type} (os : list (Done + Reason)) (i : nat)
  (r : Row Reason) :
  In r (rows_inr i os) -> (i < row r)%nat.
Proof.
  revert i. induction os as [|[d|e] rest IH]; intros i; simpl; [tauto| |].
  - intros H. apply IH in H. lia.
  - intros [<-|H]; [simpl; lia|]. apply IH in H. lia.
Qed.

Lemma rows_inl_sorted {Done : Type} (os : list (Done + Reason)) (i : nat) :
  StronglySorted lt (map row (rows_inl i os)).
Proof.
  revert i. induction os as [|[d|e] rest IH]; intros i; simpl;
    [constructor | | apply IH].
  constructor; [apply IH|].
  apply Forall_forall. intros k Hk. apply in_map_iff in Hk.
  destruct Hk as (r & <- & Hr). apply rows_inl_above in Hr. lia.
Qed.

Lemma rows_inr_sorted {Done : Type} (os : list (Done + Reason)) (i : nat) :
  StronglySorted lt (map row (rows_inr i os)).
Proof.
  revert i. induction os as [|[d|e] rest IH]; intros i; simpl;
    [constructor | apply IH |].
  constructor; [apply IH|].
  apply Forall_forall. intros k Hk. apply in_map_iff in Hk.
  destruct Hk as (r & <- & Hr). apply rows_inr_above in Hr. lia.
Qed.

Lemma rows_cover {Done : Type} (os : list (Done + Reason)) (i : nat) :
  Permutation (map row (rows_inl i os) ++ map row (rows_inr i os))
    (seq (i + 1) (List.length os)).
Proof.
  revert i. induction os as [|[d|e] rest IH]; intros i; simpl;
    [constructor | |].
  - constructor. replace (S (i + 1)) with (S i + 1)%nat by lia. apply IH.
  - apply Permutation_sym. apply Permutation_cons_app.
    apply Permutation_sym.
    replace (S (i + 1)) with (S i + 1)%nat by lia. apply IH.
Qed.

(** X12. The rows of the answer of a bulk loop are the positions of the
    items, counted from 1: each of 1..N is the row of exactly one entry,
    of [success] or of [errors], and each of the two arrays lists its
    entries by increasing row. *)
Theorem bulk_rows_are_positions {State Item Done : Type}
  (step : State -> Item -> State * (Done + Reason)) (st : State)
  (items : list Item) :
  let r := snd (bulk_loop step st 0 items (mkResults [] [])) in
  Permutation (map row (success r) ++ map row (errors r))
    (seq 1 (List.length items)) /\
  StronglySorted lt (map row (success r)) /\
  StronglySorted lt (map row (errors r)).
Proof.
  cbv zeta. rewrite bulk_loop_outcomes. simpl.
  rewrite <- (outcomes_length step items st).
  split; [apply (rows_cover _ 0)|].
  split; [apply rows_inl_sorted | apply rows_inr_sorted].
Qed.

(** ** The figures of the CGPA answer *)









Lemma scale_range (t : Z) : 0 <= snd (scale t) <= 10.
Proof.
  unfold scale.
  repeat match goal with
         | |- context [?a <=? ?b] => destruct (a <=? b)
         end; simpl; lia.
Qed.

Lemma round2_bounds (x : Q) (k : Z) :
  (0 <= x)%Q -> (x <= inject_Z k)%Q -> 0 <= round2 x <= 100 * k.
Proof.
  intros Q0 Qk.
  unfold round2. apply Qle_bool_iff in Q0 as B. rewrite B. split.
  - replace 0 with (Qfloor 0) by reflexivity. apply Qfloor_resp_le.
    apply (Qle_trans _ (0 * inject_Z 100 + (1 # 2))); [discriminate|].
    apply Qplus_le_compat; [|apply Qle_refl].
    apply Qmult_le_compat_r; [exact Q0 | discriminate].
  - apply Z.lt_succ_r. rewrite Zlt_Qlt.
    eapply Qle_lt_trans; [apply Qfloor_le|].
    apply (Qle_lt_trans _ (inject_Z k * inject_Z 100 + (1 # 2))).
    + apply Qplus_le_compat; [|apply Qle_refl].
      apply Qmult_le_compat_r; [exact Qk | discriminate].
    + rewrite <- inject_Z_mult. unfold Z.succ. rewrite inject_Z_plus.
      replace (100 * k) with (k * 100) by lia.
      apply Qplus_lt_r. reflexivity.
Qed.

Lemma round2_range (p c : Z) :
  0 < c -> 0 <= p <= 10 * c ->
  0 <= round2 (Number.div (inject_Z p) (inject_Z c)) <= 1000.
Proof.
  intros Hc Hp.
  assert (Qc : (0 < inject_Z c)%Q).
  { change (inject_Z 0 < inject_Z c)%Q. rewrite <- Zlt_Qlt. exact Hc. }
  destruct (binary64_bounds (inject_Z p / inject_Z c) 10) as [B0 B1];
    [| |reflexivity|apply (round2_bounds _ 10); assumption].
  - apply Qle_shift_div_l; [exact Qc|]. rewrite Qmult_0_l.
    change (inject_Z 0 <= inject_Z p)%Q. rewrite <- Zle_Qle. lia.
  - apply Qle_shift_div_r; [exact Qc|]. rewrite <- inject_Z_mult.
    rewrite <- Zle_Qle. lia.
Qed.

Definition saved_with_credits (gs : Grade.t * Subject.t) : Prop :=
  derived_ok (fst gs) /\ 1 <= Subject.credits (snd gs).

Lemma weighted_range (chosen : list (Grade.t * Subject.t)) :
  Forall saved_with_credits chosen ->
  0 <= weighted_points chosen <= 10 * credit_sum chosen /\
  Z.of_nat (List.length chosen) <= credit_sum chosen.
Proof.
  unfold weighted_points, credit_sum.
  induction 1 as [|[g s] rest [(_ & _ & Hp) Hc] _ IH];
    [simpl; lia|].
  cbn [fold_right List.length fst snd] in *.
  match type of Hp with
  | _ = Some (snd (scale ?t)) => pose proof (scale_range t) as R
  end.
  set (pts := snd (scale _)) in *.
  set (c := Subject.credits s) in *.
  assert (E : points_of (g, s) = pts * c)
    by (unfold points_of; cbn [fst snd]; rewrite Hp; reflexivity).
  rewrite E.
  rewrite Nat2Z.inj_succ.
  assert (0 <= pts * c) by (apply Z.mul_nonneg_nonneg; lia).
  assert (pts * c <= 10 * c) by (apply Z.mul_le_mono_nonneg_r; lia).
  lia.
Qed.

(** X14. On a selection that is not empty, of saved grades in subjects of at
    least one credit (the minimum of the schema), the [cgpa] and every
    [sgpa] of the answer are numbers of hundredths between 0.00 and
    10.00. *)
Theorem cgpa_within_scale (chosen : list (Grade.t * Subject.t)) :
  Forall saved_with_credits chosen ->
  chosen <> [] ->
  let r := aggregate chosen in
  (exists n, CgpaResult.cgpa r = Num (n # 100) /\ 0 <= n <= 1000) /\
  forall e, In e (CgpaResult.semesterWise r) ->
            exists n, SemesterWise.sgpa e = SgpaText (Digits n) /\
                      0 <= n <= 1000.
Proof.
  intros Hall Hne. cbv zeta.
  assert (Hp : Forall has_points chosen).
  { eapply Forall_impl; [|exact Hall]. intros [g s] [Hd _].
    apply derived_has_points. exact Hd. }
  destruct (aggregate_describes chosen Hp)
    as (_ & _ & Dpos & _ & Dent & _ & _).
  destruct (weighted_range chosen Hall) as [Hw Hl].
  assert (Hc : 0 < credit_sum chosen).
  { destruct chosen; [contradiction|]. cbn [List.length] in Hl. lia. }
  split.
  - eexists. split; [apply Dpos; exact Hc|].
    apply round2_range; assumption.
  - intros e He.
    destruct (Dent e He) as (Gne & _ & _ & _ & Epos & _).
    set (gs := in_semester (SemesterWise.semester e) chosen) in *.
    assert (Hgs : Forall saved_with_credits gs).
    { apply Forall_forall. intros x Hx. apply filter_In in Hx.
      rewrite Forall_forall in Hall. apply Hall. tauto. }
    destruct (weighted_range gs Hgs) as [Gw Gl].
    assert (Gc : 0 < credit_sum gs).
    { destruct gs; [contradiction|]. cbn [List.length] in Gl. lia. }
    eexists. split; [apply Epos; exact Gc|].
    apply round2_range; assumption.
Qed.

Lemma cgpa_within_scale_witness :
  exists n,
    CgpaResult.cgpa (aggregate (combine (grades store1) [analysis; drawing]))
    = Num (n # 100) /\ 0 <= n <= 1000.
Proof.
  apply (cgpa_within_scale (combine (grades store1) [analysis; drawing])).
  - repeat constructor; simpl; try apply pre_save_derived_ok; lia.
  - discriminate.
Defined.

(** ** routes/grades.js: GET /api/grades/subject/:subjectId/statistics *)

(** [req.query] of the route, its values typed as the filter holds
    them. *)
Module StatsQuery.
Record t := mk {
  semester : option Z;
  academicYear : option string;
  examType : option ExamType
}.
End StatsQuery.

(** What [.populate('student', 'firstName lastName rollNumber')] leaves
    in [student]. *)
Module StudentRef.
Record t := mk {
  _id : ObjectId;
  firstName : string;
  lastName : string;
  rollNumber : option string
}.
End StudentRef.

Module Performer.
Record t := mk {
  student : option StudentRef.t;
  marks : Marks.t;
  grade : option Letter.t;
  gradePoints : option Z
}.
End Performer.

Module SubjectInfo.
Record t := mk {
  name : string;
  code : string;
  credits : Z
}.
End SubjectInfo.

(** The body of the answer.  [subject] is a field of the answer with
    grades only, [averageGrade] of the answer without grades only. *)
Module Statistics.
Record t := mk {
  subject : option SubjectInfo.t;
  totalStudents : nat;
  averageMarks : JSNumber;
  averageGrade : option string;
  passPercentage : JSNumber;
  gradeDistribution : list (option Letter.t * nat);
  topPerformers : list Performer.t
}.
End Statistics.

Definition Letter_eqb (a b : Letter.t) : bool :=
  match a, b with
  | Letter.O, Letter.O | Letter.Aplus, Letter.Aplus | Letter.A, Letter.A
  | Letter.Bplus, Letter.Bplus | Letter.B, Letter.B | Letter.C, Letter.C
  | Letter.P, Letter.P | Letter.F, Letter.F | Letter.Ab, Letter.Ab => true
  | _, _ => false
  end.

(** Two keys of [gradeDistribution] are the same property: the same
    letter, or both the text of [undefined]. *)
Definition same_letter (a b : option Letter.t) : bool :=
  match a, b with
  | Some x, Some y => Letter_eqb x y
  | None, None => true
  | _, _ => false
  end.

(** [gradeDistribution[k] = (gradeDistribution[k] || 0) + 1]; the object
    is kept as the list of its properties in the order of their
    creation, the order in which an object lists keys that are not
    numbers. *)
Fixpoint bump (k : option Letter.t) (d : list (option Letter.t * nat))
  : list (option Letter.t * nat) :=
  match d with
  | [] => [(k, 1%nat)]
  | (k', n) :: rest =>
      if same_letter k k' then (k', S n) :: rest
      else (k', n) :: bump k rest
  end.

Definition distribution (grades : list Grade.t)
  : list (option Letter.t * nat) :=
  fold_left (fun d g => bump (Grade.grade g) d) grades [].

(** [(a, b) => b.marks.total - a.marks.total]; a difference that is
    [NaN] counts as 0 in a sort. *)
Definition by_total (a b : Grade.t) : Z :=
  match Marks.total (Grade.marks b), Marks.total (Grade.marks a) with
  | Some y, Some x => y - x
  | _, _ => 0
  end.

(** [grades.sort(...)]: the sort of an array is stable.  The result is
    the one of the source when the comparison is consistent, which it is
    when no total is missing. *)
Fixpoint insert_by_total (g : Grade.t) (l : list Grade.t) : list Grade.t :=
  match l with
  | [] => [g]
  | h :: t =>
      if by_total g h <=? 0 then g :: h :: t
      else h :: insert_by_total g t
  end.

Definition sort_by_total (l : list Grade.t) : list Grade.t :=
  fold_right insert_by_total [] l.

Definition student_ref (st : Store) (id : ObjectId) : option StudentRef.t :=
  match User_findById id st with
  | Some u =>
      Some (StudentRef.mk (User._id u) (User.firstName u) (User.lastName u)
              (User.rollNumber u))
  | None => None
  end.

Definition performer (st : Store) (g : Grade.t) : Performer.t :=
  Performer.mk (student_ref st (Grade.student g)) (Grade.marks g)
    (Grade.grade g) (Grade.gradePoints g).

Definition statistics_filter (subjectId : ObjectId) (q : StatsQuery.t)
  : Filter.t :=
  Filter.mk None (Some (SubjectIs subjectId)) None (StatsQuery.semester q)
    (StatsQuery.academicYear q) (StatsQuery.examType q) (Some true).

(** "Check permissions"; [Some r] is the early answer. *)
Definition statistics_permission (actor : User.t) (subject : Subject.t)
  : option (Response Statistics.t) :=
  match User.role actor with
  | teacher =>
      if negb (opt_id_is (Subject.teacher subject) (User._id actor))
      then Some (Forbidden403 "Access denied")
      else None
  | hod =>
      match User.department actor with
      | None => Some ServerError500
      | Some d =>
          if negb (Nat.eqb (Subject.department subject) d)
          then Some (Forbidden403 "Access denied")
          else None
      end
  | _ => None
  end.

(** [((passed / total) * 100)]: the quotient, then the product, each
    rounded to a Number. *)
Definition percent (passed total : nat) : JSNumber :=
  Num (Number.mul
         (Number.div (inject_Z (Z.of_nat passed))
            (inject_Z (Z.of_nat total)))
         (inject_Z 100)).

Definition no_statistics : Statistics.t :=
  Statistics.mk None 0%nat (Num 0) (Some "N/A") (Num 0) [] [].

Definition statistics_of (st : Store) (subject : Subject.t)
  (grades : list Grade.t) : Statistics.t :=
  let totalStudents := List.length grades in
  let totalMarks :=
    fold_left (fun sum g => js_add sum (Marks.total (Grade.marks g)))
      grades (Some 0) in
  let averageMarks :=
    toFixed2 (js_div totalMarks (Z.of_nat totalStudents)) in
  let passedStudents :=
    List.length (filter (fun g => geq (Grade.gradePoints g) 4) grades) in
  let passPercentage := toFixed2 (percent passedStudents totalStudents) in
  let topPerformers :=
    map (performer st) (firstn 5 (sort_by_total grades)) in
  Statistics.mk
    (Some (SubjectInfo.mk (Subject.name subject) (Subject.code subject)
             (Subject.credits subject)))
    totalStudents (parseFloat (SgpaText averageMarks)) None
    (parseFloat (SgpaText passPercentage)) (distribution grades)
    topPerformers.

Definition get_statistics (st : Store) (actor : User.t)
  (subjectId : ObjectId) (q : StatsQuery.t) : Response Statistics.t :=
  if negb (authorize [admin; hod; teacher] actor)
  then Forbidden403 insufficient
  else
    match Subject_findById subjectId st with
    | None => NotFound404 "Subject not found"
    | Some subject =>
        match statistics_permission actor subject with
        | Some r => r
        | None =>
            match Grade_find (statistics_filter subjectId q) st with
            | [] => Ok200 no_statistics
            | grades => Ok200 (statistics_of st subject grades)
            end
        end
    end.

(** The answer 200 of the route is the statistics of the published
    grades of the subject that the query selects. *)
Lemma get_statistics_ok (st : Store) (actor : User.t) (subjectId : ObjectId)
  (q : StatsQuery.t) (r : Statistics.t) :
  get_statistics st actor subjectId q = Ok200 r ->
  exists subject,
    Subject_findById subjectId st = Some subject /\
    authorize [admin; hod; teacher] actor = true /\
    statistics_permission actor subject = None /\
    let gs := Grade_find (statistics_filter subjectId q) st in
    (gs = [] /\ r = no_statistics \/
     gs <> [] /\ r = statistics_of st subject gs).
Proof.
  unfold get_statistics.
  destruct (authorize [admin; hod; teacher] actor); [|discriminate].
  cbn [negb].
  destruct (Subject_findById subjectId st) as [subject|]; [|discriminate].
  destruct (statistics_permission actor subject) as [early|] eqn:Hp.
  - intros ->. exfalso. unfold statistics_permission in Hp.
    destruct (User.role actor); try discriminate;
      [destruct (User.department actor); [|discriminate]|];
      match type of Hp with
      | (if ?c then _ else _) = _ => destruct c; discriminate
      end.
  - intros H. exists subject. split; [reflexivity|].
    split; [reflexivity|]. split; [exact Hp|]. cbv zeta.
    destruct (Grade_find (statistics_filter subjectId q) st) as [|g gs].
    + left. split; [reflexivity | congruence].
    + right. split; [discriminate | congruence].
Qed.

Definition count_letter (k : option Letter.t) (gs : list Grade.t) : nat :=
  List.length (filter (fun g => same_letter (Grade.grade g) k) gs).

Definition sum_counts (d : list (option Letter.t * nat)) : nat :=
  fold_right Nat.add 0%nat (map snd d).

Lemma Letter_eqb_eq (a b : Letter.t) : Letter_eqb a b = true <-> a = b.
Proof. destruct a, b; simpl; split; congruence. Qed.

Lemma same_letter_eq (a b : option Letter.t) :
  same_letter a b = true <-> a = b.
Proof.
  destruct a as [x|], b as [y|]; simpl; try (split; congruence).
  rewrite Letter_eqb_eq. split; congruence.
Qed.

Lemma same_letter_refl (a : option Letter.t) : same_letter a a = true.
Proof. apply same_letter_eq. reflexivity. Qed.

Lemma same_letter_neq (a b : option Letter.t) :
  same_letter a b = false <-> a <> b.
Proof.
  rewrite <- same_letter_eq. destruct (same_letter a b); split; congruence.
Qed.

Lemma bump_keys (k k0 : option Letter.t) (d : list (option Letter.t * nat)) :
  In k0 (map fst (bump k d)) <-> k0 = k \/ In k0 (map fst d).
Proof.
  induction d as [|[k' n] rest IH]; simpl.
  - intuition congruence.
  - destruct (same_letter k k') eqn:E; simpl.
    + apply same_letter_eq in E. subst k'. intuition congruence.
    + rewrite IH. intuition congruence.
Qed.

Lemma bump_NoDup (k : option Letter.t) (d : list (option Letter.t * nat)) :
  NoDup (map fst d) -> NoDup (map fst (bump k d)).
Proof.
  induction d as [|[k' n] rest IH]; simpl; intros H.
  - constructor; [tauto | constructor].
  - inversion H as [|? ? Hn Hr]; subst.
    destruct (same_letter k k') eqn:E; simpl.
    + constructor; assumption.
    + constructor; [|apply IH; exact Hr].
      rewrite bump_keys. intros [->|Hin]; [|contradiction].
      rewrite same_letter_refl in E. discriminate.
Qed.

Lemma bump_sum (k : option Letter.t) (d : list (option Letter.t * nat)) :
  sum_counts (bump k d) = S (sum_counts d).
Proof.
  unfold sum_counts.
  induction d as [|[k' n] rest IH]; simpl; [reflexivity|].
  destruct (same_letter k k'); simpl; [reflexivity|]. rewrite IH. lia.
Qed.

(** The count the object holds under a key, 0 for a key it has not. *)
Definition count_in (d : list (option Letter.t * nat))
  (k : option Letter.t) : nat :=
  match find (fun e => same_letter (fst e) k) d with
  | Some e => snd e
  | None => 0%nat
  end.

Lemma bump_count (k k0 : option Letter.t)
  (d : list (option Letter.t * nat)) :
  count_in (bump k d) k0
  = if same_letter k k0 then S (count_in d k0) else count_in d k0.
Proof.
  unfold count_in. induction d as [|[k' n] rest IH]; simpl.
  - destruct (same_letter k k0); reflexivity.
  - destruct (same_letter k k') eqn:E; simpl.
    + apply same_letter_eq in E. subst k'.
      destruct (same_letter k k0); reflexivity.
    + destruct (same_letter k' k0) eqn:E0; simpl; [|exact IH].
      apply same_letter_eq in E0. subst k0. rewrite E. reflexivity.
Qed.

Lemma In_count (d : list (option Letter.t * nat)) (k : option Letter.t)
  (n : nat) :
  NoDup (map fst d) -> In (k, n) d -> count_in d k = n.
Proof.
  unfold count_in. induction d as [|[k' m] rest IH]; simpl; [tauto|].
  intros Hnd [E|Hin].
  - injection E as -> ->. rewrite same_letter_refl. reflexivity.
  - inversion Hnd as [|? ? Hn Hr]; subst.
    destruct (same_letter k' k) eqn:E.
    + apply same_letter_eq in E. subst k'. exfalso. apply Hn.
      apply (in_map fst) in Hin. exact Hin.
    + apply IH; assumption.
Qed.

Lemma count_letter_cons (k : option Letter.t) (g : Grade.t)
  (gs : list Grade.t) :
  count_letter k (g :: gs)
  = ((if same_letter (Grade.grade g) k then 1 else 0)
     + count_letter k gs)%nat.
Proof.
  unfold count_letter. simpl.
  destruct (same_letter (Grade.grade g) k); reflexivity.
Qed.

Lemma tally (gs : list Grade.t) (d : list (option Letter.t * nat)) :
  NoDup (map fst d) ->
  NoDup (map fst (fold_left (fun d g => bump (Grade.grade g) d) gs d)) /\
  (forall k,
     count_in (fold_left (fun d g => bump (Grade.grade g) d) gs d) k
     = (count_in d k + count_letter k gs)%nat) /\
  sum_counts (fold_left (fun d g => bump (Grade.grade g) d) gs d)
  = (sum_counts d + List.length gs)%nat /\
  (forall k,
     In k (map fst (fold_left (fun d g => bump (Grade.grade g) d) gs d))
     <-> In k (map fst d) \/ exists g, In g gs /\ Grade.grade g = k).
Proof.
  revert d. induction gs as [|g rest IH]; intros d Hnd.
  - simpl. split; [exact Hnd|]. split; [intros k; unfold count_letter;
      simpl; lia|]. split; [lia|].
    intros k. split; [tauto|]. intros [H|(g & [] & _)]. exact H.
  - cbn [fold_left List.length].
    destruct (IH (bump (Grade.grade g) d) (bump_NoDup _ _ Hnd))
      as (I1 & I2 & I3 & I4).
    split; [exact I1|]. split; [|split].
    + intros k. rewrite I2, bump_count, count_letter_cons.
      destruct (same_letter (Grade.grade g) k); lia.
    + rewrite I3, bump_sum. lia.
    + intros k. rewrite I4, bump_keys. split.
      * intros [[->|H]|(x & Hx & Ex)].
        -- right. exists g. split; [left; reflexivity | reflexivity].
        -- left. exact H.
        -- right. exists x. split; [right; exact Hx | exact Ex].
      * intros [H|(x & [->|Hx] & Ex)].
        -- left. right. exact H.
        -- left. left. symmetry. exact Ex.
        -- right. exists x. split; assumption.
Qed.

(** X15. In an answer 200, [gradeDistribution] has one property per letter
    that a selected grade carries and no other; the count under a letter
    is the number of selected grades with that letter; and the counts
    add up to [totalStudents], the number of selected grades. *)
Theorem distribution_counts_every_grade (st : Store) (actor : User.t)
  (subjectId : ObjectId) (q : StatsQuery.t) (r : Statistics.t) :
  get_statistics st actor subjectId q = Ok200 r ->
  let gs := Grade_find (statistics_filter subjectId q) st in
  let d := Statistics.gradeDistribution r in
  Statistics.totalStudents r = List.length gs /\
  NoDup (map fst d) /\
  (forall k, In k (map fst d) <-> exists g, In g gs /\ Grade.grade g = k) /\
  (forall k n, In (k, n) d -> n = count_letter k gs) /\
  sum_counts d = Statistics.totalStudents r.
Proof.
  intros H. apply get_statistics_ok in H.
  destruct H as (subject & _ & _ & _ & H). cbv zeta in *.
  destruct H as [[E ->]|[_ ->]].
  - rewrite E. simpl. split; [reflexivity|]. split; [constructor|].
    split; [|split; [tauto | reflexivity]].
    intros k. split; [tauto|]. intros (g & [] & _).
  - set (gs := Grade_find (statistics_filter subjectId q) st).
    unfold statistics_of. cbv zeta.
    cbn [Statistics.totalStudents Statistics.gradeDistribution].
    destruct (tally gs [] (NoDup_nil _)) as (T1 & T2 & T3 & T4).
    fold (distribution gs) in T1, T2, T3, T4.
    split; [reflexivity|]. split; [exact T1|]. split; [|split].
    + intros k. rewrite T4. simpl. tauto.
    + intros k n Hin. rewrite <- (In_count _ _ _ T1 Hin), T2. reflexivity.
    + rewrite T3. reflexivity.
Qed.

Definition store_stats : Store :=
  mkStore
    [pre_save (Grade.mk 1%nat 10%nat 20%nat 30%nat
                 (Marks.mk (Some 60) (Some 20) (Some 15) None) None None 1
                 "1st Year" Regular true None None);
     pre_save (Grade.mk 2%nat 11%nat 20%nat 30%nat
                 (Marks.mk (Some 30) None (Some 5) None) None None 1
                 "1st Year" Regular true None None);
     pre_save (Grade.mk 3%nat 12%nat 20%nat 30%nat
                 (Marks.mk (Some 62) (Some 18) (Some 15) None) None None 1
                 "1st Year" Regular true None None)]
    [algebra] [student10; student11].

Definition all_exams : StatsQuery.t := StatsQuery.mk None None None.

Lemma distribution_counts_every_grade_witness :
  exists r,
    get_statistics store_stats teacher30 20%nat all_exams = Ok200 r /\
    Statistics.gradeDistribution r
    = [(Some Letter.O, 2%nat); (Some Letter.F, 1%nat)] /\
    sum_counts (Statistics.gradeDistribution r)
    = Statistics.totalStudents r.
Proof.
  eexists. split; [reflexivity|]. split; [reflexivity|].
  apply (distribution_counts_every_grade store_stats teacher30 20%nat
           all_exams).
  reflexivity.
Defined.

Definition total_of (g : Grade.t) : Z :=
  match Marks.total (Grade.marks g) with
  | Some t => t
  | None => 0
  end.






Lemma found_in_store (f : Filter.t) (st : Store) (P : Grade.t -> Prop) :
  Forall P (grades st) -> Forall P (Grade_find f st).
Proof.
  rewrite !Forall_forall. intros H g Hg. apply filter_In in Hg.
  apply H. tauto.
Qed.



(** *** The top performers *)

Definition leads (a b : Grade.t) : Prop := total_of b <= total_of a.

Definition has_total (g : Grade.t) : Prop :=
  Marks.total (Grade.marks g) <> None.

Lemma insert_by_total_perm (g : Grade.t) (l : list Grade.t) :
  Permutation (insert_by_total g l) (g :: l).
Proof.
  induction l as [|h t IH]; simpl; [reflexivity|].
  destruct (by_total g h <=? 0); [reflexivity|].
  rewrite IH. apply perm_swap.
Qed.

Lemma sort_by_total_perm (l : list Grade.t) :
  Permutation (sort_by_total l) l.
Proof.
  induction l as [|g t IH]; simpl; [reflexivity|].
  rewrite insert_by_total_perm. constructor. exact IH.
Qed.

Lemma by_total_defined (a b : Grade.t) :
  has_total a -> has_total b -> by_total a b = total_of b - total_of a.
Proof.
  unfold has_total, by_total, total_of.
  destruct (Marks.total (Grade.marks a)), (Marks.total (Grade.marks b));
    intros; congruence.
Qed.

Lemma insert_by_total_sorted (g : Grade.t) (l : list Grade.t) :
  has_total g -> Forall has_total l ->
  StronglySorted leads l -> StronglySorted leads (insert_by_total g l).
Proof.
  intros Hg Hl Hs. induction Hs as [|h t Hs IH Hh]; simpl.
  - constructor; constructor.
  - inversion Hl as [|? ? Th Tt]; subst.
    rewrite (by_total_defined g h Hg Th).
    destruct (Z.leb_spec (total_of h - total_of g) 0) as [L|G].
    + constructor; [constructor; assumption|].
      constructor; [unfold leads; lia|].
      eapply Forall_impl; [|exact Hh]. unfold leads. intros x. lia.
    + constructor; [apply IH; exact Tt|].
      apply Forall_forall. intros x Hx.
      apply (Permutation_in _ (insert_by_total_perm g t)) in Hx.
      destruct Hx as [<-|Hx]; [unfold leads; lia|].
      rewrite Forall_forall in Hh. apply Hh. exact Hx.
Qed.

Lemma sort_by_total_sorted (l : list Grade.t) :
  Forall has_total l -> StronglySorted leads (sort_by_total l).
Proof.
  induction 1 as [|g t Hg Ht IH]; simpl; [constructor|].
  apply insert_by_total_sorted; [exact Hg | | exact IH].
  apply Forall_forall. intros x Hx.
  apply (Permutation_in _ (sort_by_total_perm t)) in Hx.
  rewrite Forall_forall in Ht. apply Ht. exact Hx.
Qed.

Lemma sorted_firstn_skipn {T} (R : T -> T -> Prop) (n : nat) (l : list T) :
  StronglySorted R l ->
  StronglySorted R (firstn n l) /\
  forall a b, In a (firstn n l) -> In b (skipn n l) -> R a b.
Proof.
  revert l. induction n as [|n IH]; intros l Hs; simpl.
  - split; [constructor | tauto].
  - destruct l as [|h t]; [split; [constructor | simpl; tauto]|].
    inversion Hs as [|? ? Ht Hh]; subst.
    destruct (IH t Ht) as [I1 I2]. split.
    + constructor; [exact I1|]. apply Forall_forall. intros x Hx.
      rewrite Forall_forall in Hh. apply Hh.
      apply (In_firstn n). exact Hx.
    + intros a b [<-|Ha] Hb.
      * rewrite Forall_forall in Hh. apply Hh.
        rewrite <- (firstn_skipn n t). apply in_or_app. right. exact Hb.
      * apply I2; assumption.
Qed.

(** X17. When no grade of the store lacks its total, [topPerformers] lists
    the first five of the selected grades, or all of them when they are
    fewer, by decreasing total, and no selected grade that is not listed
    has a total above that of a listed one. *)
Theorem top_performers_lead (st : Store) (actor : User.t)
  (subjectId : ObjectId) (q : StatsQuery.t) (r : Statistics.t) :
  Forall has_total (grades st) ->
  get_statistics st actor subjectId q = Ok200 r ->
  let gs := Grade_find (statistics_filter subjectId q) st in
  exists listed rest,
    Permutation (listed ++ rest) gs /\
    Statistics.topPerformers r = map (performer st) listed /\
    List.length listed = Nat.min 5 (List.length gs) /\
    StronglySorted leads listed /\
    (forall a b, In a listed -> In b rest -> leads a b).
Proof.
  intros Ht H. apply get_statistics_ok in H.
  destruct H as (subject & _ & _ & _ & H). cbv zeta in *.
  set (gs := Grade_find (statistics_filter subjectId q) st) in *.
  exists (firstn 5 (sort_by_total gs)), (skipn 5 (sort_by_total gs)).
  assert (Hs : StronglySorted leads (sort_by_total gs)).
  { apply sort_by_total_sorted. apply found_in_store. exact Ht. }
  destruct (sorted_firstn_skipn leads 5 _ Hs) as [S1 S2].
  split; [rewrite firstn_skipn; apply sort_by_total_perm|].
  split; [|split; [|split; [exact S1 | exact S2]]].
  - destruct H as [[E ->]|[_ ->]]; [rewrite E|]; reflexivity.
  - rewrite length_firstn, (Permutation_length (sort_by_total_perm gs)).
    reflexivity.
Qed.

Lemma top_performers_lead_witness :
  exists r listed rest,
    get_statistics store_stats teacher30 20%nat all_exams = Ok200 r /\
    Permutation (listed ++ rest) (grades store_stats) /\
    Statistics.topPerformers r = map (performer store_stats) listed /\
    List.length listed = 3%nat.
Proof.
  eexists.
  assert (T : Forall has_total (grades store_stats))
    by (repeat constructor; discriminate).
  destruct (top_performers_lead store_stats teacher30 20%nat all_exams _ T
              eq_refl) as (listed & rest & P & E & L & _).
  exists listed, rest. split; [reflexivity|].
  split; [exact P|]. split; [exact E | exact L].
Defined.

Lemma statistics_permission_grants (actor : User.t) (subject : Subject.t) :
  statistics_permission actor subject = None ->
  match User.role actor with
  | teacher => Subject.teacher subject = Some (User._id actor)
  | hod => User.department actor = Some (Subject.department subject)
  | _ => True
  end.
Proof.
  unfold statistics_permission, opt_id_is.
  destruct (User.role actor); try exact (fun _ => I).
  - destruct (User.department actor) as [d|]; [|discriminate].
    destruct (Nat.eqb_spec (Subject.department subject) d);
      [intros _; congruence | discriminate].
  - destruct (Subject.teacher subject) as [t|]; [|discriminate].
    destruct (Nat.eqb_spec t (User._id actor));
      [intros _; congruence | discriminate].
Qed.

(** X18. The statistics of a subject are answered to an admin, to the teacher
    the subject is assigned to and to a head of the department of the
    subject, never to a student; and every top performer of the answer
    is a published grade of that subject. *)
Theorem statistics_stay_in_scope (st : Store) (actor : User.t)
  (subjectId : ObjectId) (q : StatsQuery.t) (r : Statistics.t) :
  get_statistics st actor subjectId q = Ok200 r ->
  (exists subject,
     Subject_findById subjectId st = Some subject /\
     match User.role actor with
     | admin => True
     | hod => User.department actor = Some (Subject.department subject)
     | teacher => Subject.teacher subject = Some (User._id actor)
     | student => False
     end) /\
  forall p, In p (Statistics.topPerformers r) ->
            exists g, In g (grades st) /\ p = performer st g /\
                      Grade.subject g = subjectId /\
                      Grade.isPublished g = true.
Proof.
  intros H. apply get_statistics_ok in H.
  destruct H as (subject & Hs & Ha & Hp & H). cbv zeta in H. split.
  - exists subject. split; [exact Hs|].
    apply statistics_permission_grants in Hp.
    unfold authorize, includes in Ha.
    destruct (User.role actor); try exact Hp; try exact I.
    simpl in Ha. discriminate.
  - intros p Hin.
    assert (Hp' : In p (map (performer st)
                          (firstn 5 (sort_by_total
                             (Grade_find (statistics_filter subjectId q)
                                st))))).
    { destruct H as [[E ->]|[_ ->]]; [destruct Hin | exact Hin]. }
    apply in_map_iff in Hp'. destruct Hp' as (g & <- & Hg).
    apply In_firstn in Hg.
    apply (Permutation_in _ (sort_by_total_perm _)) in Hg.
    apply filter_In in Hg. destruct Hg as [Hg Hm].
    exists g. split; [exact Hg|]. split; [reflexivity|].
    split.
    + apply Nat.eqb_eq.
      exact (matches_subject (statistics_filter subjectId q) g
               (SubjectIs subjectId) eq_refl Hm).
    + exact (matches_isPublished (statistics_filter subjectId q) g true
               eq_refl Hm).
Qed.

Lemma statistics_stay_in_scope_witness :
  exists r,
    get_statistics store_stats teacher30 20%nat all_exams = Ok200 r /\
    exists subject,
      Subject_findById 20%nat store_stats = Some subject /\
      Subject.teacher subject = Some 30%nat.
Proof.
  eexists. split; [reflexivity|].
  destruct (statistics_stay_in_scope store_stats teacher30 20%nat all_exams
              _ eq_refl) as [(subject & F & T) _].
  exists subject. split; [exact F | exact T].
Defined.

(** ** routes/subjects.js *)

(** The constraints of [subjectSchema] on the paths of a stored
    document; a [save()] checks them again on a document it loaded. *)
Definition Subject_validate (s : Subject.t) : option Exception :=
  if String.eqb (Subject.name s) EmptyString
  then Some (ValidationError "name")
  else if String.eqb (Subject.code s) EmptyString
  then Some (ValidationError "code")
  else if negb ((1 <=? Subject.credits s) && (Subject.credits s <=? 10))
  then Some (ValidationError "credits")
  else if negb ((1 <=? Subject.semester s) && (Subject.semester s <=? 8))
  then Some (ValidationError "semester")
  else if negb (year_ok (Subject.academicYear s))
  then Some (ValidationError "academicYear")
  else None.

(** The update of the document with the [_id] of [s]. *)
Fixpoint write_back (s : Subject.t) (ss : list Subject.t)
  : list Subject.t :=
  match ss with
  | [] => []
  | x :: rest =>
      if Nat.eqb (Subject._id x) (Subject._id s) then s :: rest
      else x :: write_back s rest
  end.

(** [await subject.save()] on a document the route loaded. *)
Definition Subject_resave (s : Subject.t) (st : Store) : Exception + Store :=
  match Subject_validate s with
  | Some e => inl e
  | None => inr (set_subjects (write_back s (subjects st)) st)
  end.

(** [subject.isActive = false], [subject.teacher = teacherId] *)
Definition deactivated (s : Subject.t) : Subject.t :=
  Subject.mk (Subject._id s) (Subject.name s) (Subject.code s)
    (Subject.credits s) (Subject.department s) (Subject.semester s)
    (Subject.academicYear s) (Subject.teacher s) false.

Definition assigned (teacherId : ObjectId) (s : Subject.t) : Subject.t :=
  Subject.mk (Subject._id s) (Subject.name s) (Subject.code s)
    (Subject.credits s) (Subject.department s) (Subject.semester s)
    (Subject.academicYear s) (Some teacherId) (Subject.isActive s).

(** "Check permissions for HOD"; [Some r] is the early answer. *)
Definition hod_owns {T} (actor : User.t) (subject : Subject.t)
  : option (Response T) :=
  match User.role actor with
  | hod =>
      match User.department actor with
      | None => Some ServerError500
      | Some d =>
          if negb (Nat.eqb (Subject.department subject) d)
          then Some (Forbidden403 "Access denied")
          else None
      end
  | _ => None
  end.

(** [Grade.countDocuments({subject: id})] *)
Definition Grade_countDocuments (subjectId : ObjectId) (st : Store) : nat :=
  List.length (filter (fun g => Nat.eqb (Grade.subject g) subjectId)
                 (grades st)).

(** DELETE /api/subjects/:id *)
Definition delete_subject (st : Store) (actor : User.t) (id : ObjectId)
  : Store * Response string :=
  if negb (authorize [admin; hod] actor)
  then (st, Forbidden403 insufficient)
  else
    match Subject_findById id st with
    | None => (st, NotFound404 "Subject not found")
    | Some subject =>
        match hod_owns actor subject with
        | Some r => (st, r)
        | None =>
            if (0 <? Grade_countDocuments id st)%nat
            then (st, BadRequest400
                        "Cannot delete subject. It has associated grades. Deactivate instead.")
            else
              match Subject_resave (deactivated subject) st with
              | inl _ => (st, ServerError500)
              | inr st' => (st', Ok200 "Subject deactivated successfully")
              end
        end
    end.

(** PUT /api/subjects/:id/assign-teacher; the body of the answer 200 is
    the document read back, as stored. *)
Definition assign_teacher (st : Store) (actor : User.t) (id : ObjectId)
  (teacherId : option ObjectId) : Store * Response (option Subject.t) :=
  if negb (authorize [admin; hod] actor)
  then (st, Forbidden403 insufficient)
  else
    match teacherId with
    | None => (st, BadRequest400 "Teacher ID is required")
    | Some tid =>
        match Subject_findById id st with
        | None => (st, NotFound404 "Subject not found")
        | Some subject =>
            match hod_owns actor subject with
            | Some r => (st, r)
            | None =>
                match User_findById tid st with
                | None => (st, BadRequest400 "Invalid teacher selection")
                | Some teacherUser =>
                    if negb (includes [teacher; hod] (User.role teacherUser))
                    then (st, BadRequest400 "Invalid teacher selection")
                    else
                      match User.department teacherUser with
                      | None => (st, ServerError500)
                      | Some d =>
                          if negb (Nat.eqb d (Subject.department subject))
                          then (st, BadRequest400
                                      "Teacher must belong to the same department")
                          else
                            match Subject_resave (assigned tid subject) st with
                            | inl _ => (st, ServerError500)
                            | inr st' =>
                                (st', Ok200 (Subject_findById
                                               (Subject._id subject) st'))
                            end
                      end
                end
            end
        end
    end.

(** [.sort({semester: 1, name: 1})]: by semester, then by name in the
    order of the code units.  Documents equal in both keep their order
    here; the database leaves their order open. *)
Definition subject_leb (a b : Subject.t) : bool :=
  (Subject.semester a <? Subject.semester b)
  || ((Subject.semester a =? Subject.semester b)
      && String.leb (Subject.name a) (Subject.name b)).

Fixpoint insert_subject (s : Subject.t) (l : list Subject.t)
  : list Subject.t :=
  match l with
  | [] => [s]
  | h :: t =>
      if subject_leb s h then s :: h :: t else h :: insert_subject s t
  end.

Definition sort_subjects (l : list Subject.t) : list Subject.t :=
  fold_right insert_subject [] l.

(** The [filter] objects of the two listings. *)
Module SubjectFilter.
Record t := mk {
  department : option ObjectId;
  teacher : option ObjectId;
  semester : option Z;
  academicYear : option string;
  isActive : option bool
}.
End SubjectFilter.

Definition subject_matches (f : SubjectFilter.t) (s : Subject.t) : bool :=
  opt_test (SubjectFilter.department f) (Nat.eqb (Subject.department s))
  && opt_test (SubjectFilter.teacher f) (opt_id_is (Subject.teacher s))
  && opt_test (SubjectFilter.semester f) (Z.eqb (Subject.semester s))
  && opt_test (SubjectFilter.academicYear f)
       (String.eqb (Subject.academicYear s))
  && opt_test (SubjectFilter.isActive f) (Bool.eqb (Subject.isActive s)).

Definition Subject_find (f : SubjectFilter.t) (st : Store)
  : list Subject.t :=
  filter (subject_matches f) (subjects st).

(** [authorizeDepartment] on a route with [:departmentId]; [Some r] is
    the early answer, 500 standing for what the middleware throws on an
    actor without department. *)
Definition authorizeDepartment {T} (actor : User.t) (departmentId : ObjectId)
  : option (Response T) :=
  if Role_eqb (User.role actor) admin then None
  else
    match User.department actor with
    | None => Some ServerError500
    | Some d =>
        if negb (Nat.eqb d departmentId)
        then Some (Forbidden403 "Access denied. Department mismatch.")
        else None
    end.

(** GET /api/subjects/department/:departmentId *)
Definition get_subjects_by_department (st : Store) (actor : User.t)
  (departmentId : ObjectId) (semester : option Z)
  (academicYear : option string) (teacherId : option ObjectId)
  : Response (list Subject.t) :=
  match authorizeDepartment actor departmentId with
  | Some r => r
  | None =>
      Ok200 (sort_subjects
               (Subject_find
                  (SubjectFilter.mk (Some departmentId) teacherId semester
                     academicYear (Some true)) st))
  end.

(** GET /api/subjects/teacher/:teacherId *)
Definition get_subjects_by_teacher (st : Store) (actor : User.t)
  (teacherId : ObjectId) (semester : option Z)
  (academicYear : option string) : Response (list Subject.t) :=
  if Role_eqb (User.role actor) teacher
     && negb (Nat.eqb (User._id actor) teacherId)
  then Forbidden403 "Access denied"
  else
    let denied :=
      match User.role actor with
      | hod =>
          match User_findById teacherId st with
          | None => Some (Forbidden403 "Access denied")
          | Some teacherUser =>
              match User.department teacherUser, User.department actor with
              | Some td, Some d =>
                  if negb (Nat.eqb td d)
                  then Some (Forbidden403 "Access denied")
                  else None
              | _, _ => Some ServerError500
              end
          end
      | _ => None
      end in
    match denied with
    | Some r => r
    | None =>
        Ok200 (sort_subjects
                 (Subject_find
                    (SubjectFilter.mk None (Some teacherId) semester
                       academicYear (Some true)) st))
    end.

(** *** What the two writes leave in place *)

Lemma Subject_resave_inr (s : Subject.t) (st st' : Store) :
  Subject_resave s st = inr st' ->
  st' = set_subjects (write_back s (subjects st)) st.
Proof.
  unfold Subject_resave. destruct (Subject_validate s); [discriminate|].
  intros H. injection H as <-. reflexivity.
Qed.

Lemma Subject_findById_id (id : ObjectId) (st : Store) (s : Subject.t) :
  Subject_findById id st = Some s -> Subject._id s = id /\ In s (subjects st).
Proof.
  unfold Subject_findById. intros H. apply find_some in H.
  destruct H as [Hin E]. apply Nat.eqb_eq in E. tauto.
Qed.

(** The identity of a subject: what neither write changes. *)
Definition subject_card (s : Subject.t)
  : ObjectId * string * string * Z * ObjectId * Z * string :=
  (Subject._id s, Subject.name s, Subject.code s, Subject.credits s,
   Subject.department s, Subject.semester s, Subject.academicYear s).

Lemma rewritten_cards (id : ObjectId) (s s' : Subject.t)
  (ss : list Subject.t) :
  find (fun x => Nat.eqb (Subject._id x) id) ss = Some s ->
  subject_card s' = subject_card s ->
  map subject_card (write_back s' ss) = map subject_card ss.
Proof.
  intros F C.
  assert (Ei : Subject._id s' = Subject._id s)
    by (unfold subject_card in C; congruence).
  assert (Es : Subject._id s = id).
  { apply find_some in F. apply Nat.eqb_eq. tauto. }
  rewrite <- Es, <- Ei in F. clear Es.
  induction ss as [|h t IH]; simpl in *; [reflexivity|].
  destruct (Nat.eqb (Subject._id h) (Subject._id s')).
  - injection F as ->. simpl. rewrite C. reflexivity.
  - simpl. rewrite IH by exact F. reflexivity.
Qed.

Definition frame_of_subjects (st st' : Store) : Prop :=
  grades st' = grades st /\ users st' = users st /\
  map subject_card (subjects st') = map subject_card (subjects st).

Lemma frame_of_subjects_refl (st : Store) : frame_of_subjects st st.
Proof. repeat split. Qed.

Lemma frame_resolves (st st' : Store) :
  frame_of_subjects st st' -> subjects_resolve st -> subjects_resolve st'.
Proof.
  intros (Hg & _ & Hc) Hr g Hin. rewrite Hg in Hin.
  specialize (Hr g Hin). unfold Subject_findById in *.
  assert (Hids : map Subject._id (subjects st')
                 = map Subject._id (subjects st)).
  { apply (f_equal (map (fun c => fst (fst (fst (fst (fst (fst c))))))))
      in Hc.
    rewrite !map_map in Hc. exact Hc. }
  destruct (find _ (subjects st)) as [s|] eqn:F; [|congruence].
  apply find_some in F. destruct F as [Fin Fe].
  apply (in_map Subject._id) in Fin. rewrite <- Hids in Fin.
  apply in_map_iff in Fin. destruct Fin as (s' & Es & Hs').
  destruct (find _ (subjects st')) eqn:F'; [discriminate|].
  exfalso. apply (find_none _ _ F') in Hs'. rewrite Es, Fe in Hs'.
  discriminate.
Qed.

(** X19. DELETE /api/subjects/:id and PUT /api/subjects/:id/assign-teacher
    remove no subject and rename none: after either request the grades
    and the users are the same and so are, subject by subject, the id,
    name, code, credits, department, semester and academic year; hence
    when every grade had its subject in the store before, it has after. *)
Theorem subject_writes_keep_documents (st : Store) (actor : User.t)
  (id : ObjectId) (teacherId : option ObjectId) :
  let after_delete := fst (delete_subject st actor id) in
  let after_assign := fst (assign_teacher st actor id teacherId) in
  frame_of_subjects st after_delete /\
  frame_of_subjects st after_assign /\
  (subjects_resolve st ->
   subjects_resolve after_delete /\ subjects_resolve after_assign).
Proof.
  cbv zeta.
  assert (Hd : frame_of_subjects st (fst (delete_subject st actor id))).
  { unfold delete_subject.
    destruct (authorize [admin; hod] actor);
      [|apply frame_of_subjects_refl].
    cbn [negb].
    destruct (Subject_findById id st) as [subject|] eqn:F;
      [|apply frame_of_subjects_refl].
    destruct (hod_owns actor subject); [apply frame_of_subjects_refl|].
    destruct (0 <? Grade_countDocuments id st)%nat;
      [apply frame_of_subjects_refl|].
    destruct (Subject_resave (deactivated subject) st) as [e|st'] eqn:R;
      [apply frame_of_subjects_refl|].
    apply Subject_resave_inr in R. subst st'. simpl.
    split; [reflexivity|]. split; [reflexivity|].
    apply (rewritten_cards id subject); [exact F | reflexivity]. }
  assert (Ha : frame_of_subjects st
                 (fst (assign_teacher st actor id teacherId))).
  { unfold assign_teacher.
    destruct (authorize [admin; hod] actor);
      [|apply frame_of_subjects_refl].
    cbn [negb].
    destruct teacherId as [tid|]; [|apply frame_of_subjects_refl].
    destruct (Subject_findById id st) as [subject|] eqn:F;
      [|apply frame_of_subjects_refl].
    destruct (hod_owns actor subject); [apply frame_of_subjects_refl|].
    destruct (User_findById tid st) as [u|];
      [|apply frame_of_subjects_refl].
    destruct (negb (includes [teacher; hod] (User.role u)));
      [apply frame_of_subjects_refl|].
    destruct (User.department u) as [d|]; [|apply frame_of_subjects_refl].
    destruct (negb (Nat.eqb d (Subject.department subject)));
      [apply frame_of_subjects_refl|].
    destruct (Subject_resave (assigned tid subject) st) as [e|st'] eqn:R;
      [apply frame_of_subjects_refl|].
    apply Subject_resave_inr in R. subst st'. simpl.
    split; [reflexivity|]. split; [reflexivity|].
    apply (rewritten_cards id subject); [exact F | reflexivity]. }
  split; [exact Hd|]. split; [exact Ha|].
  intros Hr. split; eapply frame_resolves; eassumption.
Qed.

Definition store_subjects : Store :=
  mkStore [] [algebra; analysis; drawing]
    [teacher30; teacher31; hod4; student10].


(** *** The listings *)

Lemma insert_subject_perm (s : Subject.t) (l : list Subject.t) :
  Permutation (insert_subject s l) (s :: l).
Proof.
  induction l as [|h t IH]; simpl; [reflexivity|].
  destruct (subject_leb s h); [reflexivity|].
  rewrite IH. apply perm_swap.
Qed.

Lemma sort_subjects_perm (l : list Subject.t) :
  Permutation (sort_subjects l) l.
Proof.
  induction l as [|s t IH]; simpl; [reflexivity|].
  rewrite insert_subject_perm. constructor. exact IH.
Qed.

Lemma listed_subject (f : SubjectFilter.t) (st : Store) (s : Subject.t) :
  In s (sort_subjects (Subject_find f st)) <->
  In s (subjects st) /\ subject_matches f s = true.
Proof.
  rewrite <- filter_In. split; apply Permutation_in;
    [|symmetry]; apply sort_subjects_perm.
Qed.

Lemma opt_id_is_eq (x : option ObjectId) (y : ObjectId) :
  opt_id_is x y = true <-> x = Some y.
Proof.
  unfold opt_id_is. destruct x as [v|]; [|split; discriminate].
  rewrite Nat.eqb_eq. split; congruence.
Qed.

Definition in_department (st : Store) (d : ObjectId) (sem : option Z)
  (year : option string) (t : option ObjectId) (s : Subject.t) : Prop :=
  In s (subjects st) /\ Subject.department s = d /\
  Subject.isActive s = true /\
  opt_test t (opt_id_is (Subject.teacher s)) = true /\
  opt_test sem (Z.eqb (Subject.semester s)) = true /\
  opt_test year (String.eqb (Subject.academicYear s)) = true.

Definition taught_by (st : Store) (tid : ObjectId) (sem : option Z)
  (year : option string) (s : Subject.t) : Prop :=
  In s (subjects st) /\ Subject.teacher s = Some tid /\
  Subject.isActive s = true /\
  opt_test sem (Z.eqb (Subject.semester s)) = true /\
  opt_test year (String.eqb (Subject.academicYear s)) = true.

Lemma by_department_lists (st : Store) (actor : User.t) (d : ObjectId)
  (sem : option Z) (year : option string) (t : option ObjectId)
  (l : list Subject.t) :
  get_subjects_by_department st actor d sem year t = Ok200 l ->
  (User.role actor <> admin -> User.department actor = Some d) /\
  forall s, In s l <-> in_department st d sem year t s.
Proof.
  unfold get_subjects_by_department, authorizeDepartment.
  assert (L : forall s,
             In s (sort_subjects
                     (Subject_find
                        (SubjectFilter.mk (Some d) t sem year (Some true))
                        st)) <-> in_department st d sem year t s).
  { intros s. rewrite listed_subject. unfold subject_matches, in_department.
    cbn [SubjectFilter.department SubjectFilter.teacher
         SubjectFilter.semester SubjectFilter.academicYear
         SubjectFilter.isActive].
    rewrite !opt_test_some, !andb_true_iff, Nat.eqb_eq.
    rewrite (eqb_true_iff (Subject.isActive s) true). tauto. }
  destruct (Role_eqb (User.role actor) admin) eqn:Ra.
  - intros H. injection H as <-. split; [|exact L].
    apply Role_eqb_eq in Ra. congruence.
  - destruct (User.department actor) as [d0|]; [|discriminate].
    destruct (Nat.eqb_spec d0 d) as [->|_]; [|discriminate].
    cbn [negb]. intros H. injection H as <-.
    split; [reflexivity | exact L].
Qed.

Lemma by_teacher_lists (st : Store) (actor : User.t) (tid : ObjectId)
  (sem : option Z) (year : option string) (l : list Subject.t) :
  get_subjects_by_teacher st actor tid sem year = Ok200 l ->
  match User.role actor with
  | teacher => User._id actor = tid
  | hod => exists u d, User_findById tid st = Some u /\
                       User.department u = Some d /\
                       User.department actor = Some d
  | _ => True
  end /\
  forall s, In s l <-> taught_by st tid sem year s.
Proof.
  unfold get_subjects_by_teacher.
  assert (L : forall s,
             In s (sort_subjects
                     (Subject_find
                        (SubjectFilter.mk None (Some tid) sem year
                           (Some true)) st)) <->
             taught_by st tid sem year s).
  { intros s. rewrite listed_subject. unfold subject_matches, taught_by.
    cbn [SubjectFilter.department SubjectFilter.teacher
         SubjectFilter.semester SubjectFilter.academicYear
         SubjectFilter.isActive].
    rewrite !opt_test_some, !andb_true_iff, opt_id_is_eq.
    rewrite (eqb_true_iff (Subject.isActive s) true). simpl. tauto. }
  destruct (User.role actor) eqn:R; cbn [Role_eqb andb].
  - intros H. injection H as <-. split; [exact I | exact L].
  - destruct (User_findById tid st) as [u|]; [|discriminate].
    destruct (User.department u) as [td|] eqn:Du; [|discriminate].
    destruct (User.department actor) as [d|]; [|discriminate].
    destruct (Nat.eqb_spec td d) as [->|_]; [|discriminate].
    cbn [negb]. intros H. injection H as <-. split; [|exact L].
    exists u, d. split; [reflexivity|]. split; [exact Du | reflexivity].
  - destruct (Nat.eqb_spec (User._id actor) tid) as [E|_];
      [|discriminate].
    cbn [negb]. intros H. injection H as <-. split; [exact E | exact L].
  - intros H. injection H as <-. split; [exact I | exact L].
Qed.

(** X20. The two listings of subjects stay within what was asked and within
    what the actor may see.  The listing by department answers an actor
    who is not an admin for the actor's own department only, the listing
    by teacher answers a teacher for the teacher's own id only and a head
    of department for a user of the same department only; and the
    subjects listed are exactly the active subjects of the store in that
    department, or assigned to that teacher, that the query selects. *)
Theorem subject_listings_stay_in_scope (st : Store) (actor : User.t)
  (sem : option Z) (year : option string) :
  (forall d t l,
     get_subjects_by_department st actor d sem year t = Ok200 l ->
     (User.role actor <> admin -> User.department actor = Some d) /\
     forall s, In s l <-> in_department st d sem year t s) /\
  (forall tid l,
     get_subjects_by_teacher st actor tid sem year = Ok200 l ->
     match User.role actor with
     | teacher => User._id actor = tid
     | hod => exists u d, User_findById tid st = Some u /\
                          User.department u = Some d /\
                          User.department actor = Some d
     | _ => True
     end /\
     forall s, In s l <-> taught_by st tid sem year s).
Proof.
  split.
  - intros d t l. apply by_department_lists.
  - intros tid l. apply by_teacher_lists.
Qed.

(** *** What a deactivation and an assignment establish *)

Lemma write_back_found (id : ObjectId) (s s' : Subject.t)
  (ss : list Subject.t) :
  find (fun x => Nat.eqb (Subject._id x) id) ss = Some s ->
  Subject._id s' = id ->
  find (fun x => Nat.eqb (Subject._id x) id) (write_back s' ss) = Some s'.
Proof.
  intros F E. subst id.
  induction ss as [|h t IH]; simpl in *; [discriminate|].
  destruct (Nat.eqb (Subject._id h) (Subject._id s')) eqn:Eh; simpl.
  - rewrite Nat.eqb_refl. reflexivity.
  - rewrite Eh. apply IH. exact F.
Qed.

Lemma write_back_others (s' : Subject.t) (ss : list Subject.t)
  (x : Subject.t) :
  NoDup (map Subject._id ss) ->
  In (Subject._id s') (map Subject._id ss) ->
  In x (write_back s' ss) ->
  x = s' \/ In x ss /\ Subject._id x <> Subject._id s'.
Proof.
  induction ss as [|h t IH]; simpl; [tauto|].
  intros Hnd Hin Hx. inversion Hnd as [|? ? Hn Ht]; subst.
  destruct (Nat.eqb_spec (Subject._id h) (Subject._id s')) as [E|N].
  - destruct Hx as [<-|Hx]; [left; reflexivity|]. right.
    split; [right; exact Hx|]. intros E'. apply Hn. rewrite E, <- E'.
    apply in_map. exact Hx.
  - destruct Hx as [<-|Hx]; [right; split; [left; reflexivity | exact N]|].
    destruct Hin as [Hin|Hin]; [congruence|].
    destruct (IH Ht Hin Hx) as [->|[Hi Hne]]; [left; reflexivity|].
    right. split; [right; exact Hi | exact Hne].
Qed.

(** X21. When DELETE /api/subjects/:id answers 200 in a store whose subjects
    have distinct ids, no grade of the store is in that subject, the
    subject is still in the store, now inactive, every other subject is
    as it was, and neither listing of the new store shows it. *)
Theorem deleted_subject_is_hidden (st st' : Store) (actor : User.t)
  (id : ObjectId) (message : string) :
  NoDup (map Subject._id (subjects st)) ->
  delete_subject st actor id = (st', Ok200 message) ->
  (forall g, In g (grades st) -> Grade.subject g <> id) /\
  (exists s, Subject_findById id st = Some s /\
             Subject_findById id st' = Some (deactivated s)) /\
  (forall x, In x (subjects st') -> Subject._id x <> id ->
             In x (subjects st)) /\
  (forall viewer d sem year t l,
     get_subjects_by_department st' viewer d sem year t = Ok200 l ->
     forall x, In x l -> Subject._id x <> id) /\
  (forall viewer tid sem year l,
     get_subjects_by_teacher st' viewer tid sem year = Ok200 l ->
     forall x, In x l -> Subject._id x <> id).
Proof.
  intros Hnd. unfold delete_subject.
  destruct (authorize [admin; hod] actor);
    [cbn [negb] | intros H; discriminate].
  destruct (Subject_findById id st) as [s|] eqn:F; [|intros H; discriminate].
  destruct (hod_owns actor s) as [r|] eqn:Ho.
  { intros H. exfalso. injection H as _ Hr. subst r.
    unfold hod_owns in Ho. destruct (User.role actor); try discriminate.
    destruct (User.department actor); [|discriminate].
    destruct (negb _); discriminate. }
  destruct (Nat.ltb_spec 0 (Grade_countDocuments id st)) as [_|Hz];
    [intros H; discriminate|].
  destruct (Subject_resave (deactivated s) st) as [e|st1] eqn:R;
    [intros H; discriminate|].
  intros H. injection H as <- _. apply Subject_resave_inr in R. subst st1.
  destruct (Subject_findById_id _ _ _ F) as [Ei Hin].
  assert (Hothers : forall x, In x (subjects
                                      (set_subjects
                                         (write_back (deactivated s)
                                            (subjects st)) st)) ->
                              x = deactivated s \/
                              In x (subjects st) /\ Subject._id x <> id).
  { intros x Hx. simpl in Hx. rewrite <- Ei.
    apply (write_back_others (deactivated s)); [exact Hnd | | exact Hx].
    simpl. apply in_map. exact Hin. }
  assert (Hidden : forall x, In x (subjects
                                     (set_subjects
                                        (write_back (deactivated s)
                                           (subjects st)) st)) ->
                             Subject.isActive x = true ->
                             Subject._id x <> id).
  { intros x Hx Hact. destruct (Hothers x Hx) as [->|[_ N]];
      [discriminate | exact N]. }
  split; [|split; [|split; [|split]]].
  - intros g Hg E. unfold Grade_countDocuments in Hz.
    assert (In g (filter (fun g => Nat.eqb (Grade.subject g) id)
                    (grades st))).
    { apply filter_In. split; [exact Hg|]. apply Nat.eqb_eq. exact E. }
    destruct (filter _ (grades st)); [contradiction | simpl in Hz; lia].
  - exists s. split; [reflexivity|]. unfold Subject_findById. simpl.
    apply (write_back_found id s); [exact F | exact Ei].
  - intros x Hx N. destruct (Hothers x Hx) as [->|[Hi _]];
      [simpl in N; congruence | exact Hi].
  - intros viewer d sem year t l Hl x Hx.
    apply by_department_lists in Hl. destruct Hl as [_ Hl].
    apply Hl in Hx. destruct Hx as (Hi & _ & Hact & _).
    apply Hidden; assumption.
  - intros viewer tid sem year l Hl x Hx.
    apply by_teacher_lists in Hl. destruct Hl as [_ Hl].
    apply Hl in Hx. destruct Hx as (Hi & _ & Hact & _).
    apply Hidden; assumption.
Qed.

Lemma deleted_subject_is_hidden_witness :
  exists s,
    Subject_findById 21%nat store_subjects = Some s /\
    Subject_findById 21%nat (fst (delete_subject store_subjects hod4 21%nat))
    = Some (deactivated s).
Proof.
  assert (Hnd : NoDup (map Subject._id (subjects store_subjects))).
  { repeat constructor; simpl; intuition discriminate. }
  destruct (deleted_subject_is_hidden store_subjects
              (fst (delete_subject store_subjects hod4 21%nat)) hod4 21%nat
              "Subject deactivated successfully" Hnd eq_refl)
    as (_ & E & _).
  exact E.
Defined.

(** X22. When PUT /api/subjects/:id/assign-teacher answers 200, the user
    named is in the store with the role teacher or hod and the
    department of the subject; the subject stored and answered is the old
    one with that user as its teacher; a head of department has assigned
    within the own department; and the check of POST /api/grades on the
    subject lets the assigned user through. *)
Theorem assignment_enables_grading (st st' : Store) (actor : User.t)
  (id : ObjectId) (teacherId : option ObjectId) (body : option Subject.t) :
  assign_teacher st actor id teacherId = (st', Ok200 body) ->
  exists tid s u,
    teacherId = Some tid /\
    Subject_findById id st = Some s /\
    User_findById tid st = Some u /\
    includes [teacher; hod] (User.role u) = true /\
    User.department u = Some (Subject.department s) /\
    body = Some (assigned tid s) /\
    Subject_findById id st' = Some (assigned tid s) /\
    (User.role actor = hod ->
     User.department actor = Some (Subject.department s)) /\
    post_permission u (assigned tid s) = None.
Proof.
  unfold assign_teacher.
  destruct (authorize [admin; hod] actor);
    [cbn [negb] | intros H; discriminate].
  destruct teacherId as [tid|]; [|intros H; discriminate].
  destruct (Subject_findById id st) as [s|] eqn:F; [|intros H; discriminate].
  destruct (hod_owns actor s) as [r|] eqn:Ho.
  { intros H. exfalso. injection H as _ Hr. subst r.
    unfold hod_owns in Ho. destruct (User.role actor); try discriminate.
    destruct (User.department actor); [|discriminate].
    destruct (negb _); discriminate. }
  destruct (User_findById tid st) as [u|] eqn:Fu; [|intros H; discriminate].
  destruct (includes [teacher; hod] (User.role u)) eqn:Ru;
    [cbn [negb] | intros H; discriminate].
  destruct (User.department u) as [d|] eqn:Du; [|intros H; discriminate].
  destruct (Nat.eqb_spec d (Subject.department s)) as [->|_];
    [cbn [negb] | intros H; discriminate].
  destruct (Subject_resave (assigned tid s) st) as [e|st1] eqn:R;
    [intros H; discriminate|].
  intros H. injection H as <- <-.
  apply Subject_resave_inr in R. subst st1.
  destruct (Subject_findById_id _ _ _ F) as [Ei _].
  assert (Found : Subject_findById id
                    (set_subjects (write_back (assigned tid s) (subjects st))
                       st) = Some (assigned tid s)).
  { unfold Subject_findById. simpl.
    apply (write_back_found id s); [exact F | exact Ei]. }
  exists tid, s, u. do 5 (split; [first [reflexivity | assumption]|]).
  split; [rewrite Ei; exact Found|]. split; [exact Found|]. split.
  - intros Rh. unfold hod_owns in Ho. rewrite Rh in Ho.
    destruct (User.department actor) as [da|]; [|discriminate].
    destruct (Nat.eqb_spec (Subject.department s) da) as [->|_];
      [reflexivity | discriminate].
  - apply User_findById_id in Fu. unfold post_permission.
    unfold includes in Ru. simpl in Ru.
    destruct (User.role u); try discriminate; simpl.
    + rewrite Du, Nat.eqb_refl. reflexivity.
    + rewrite Fu, Nat.eqb_refl. reflexivity.
Qed.

Lemma assignment_enables_grading_witness :
  Subject_findById 21%nat
    (fst (assign_teacher store_subjects hod4 21%nat (Some 31%nat)))
  = Some (assigned 31%nat analysis) /\
  post_permission teacher31 (assigned 31%nat analysis) = None.
Proof.
  destruct (assignment_enables_grading store_subjects
              (fst (assign_teacher store_subjects hod4 21%nat (Some 31%nat)))
              hod4 21%nat (Some 31%nat) (Some (assigned 31%nat analysis))
              eq_refl)
    as (tid & s & u & Et & Es & Eu & _ & _ & _ & Found & _ & Post).
  injection Et as <-. injection Es as <-. injection Eu as <-.
  split; [exact Found | exact Post].
Defined.

(** ** middleware/auth.js and routes/users.js *)

(** [auth]: [decoded] is the id the verified token carries, [None] when
    the request has no token or one that does not verify.  The result is
    [req.user]; [None] is the answer 401. *)
Definition auth (st : Store) (decoded : option ObjectId) : option User.t :=
  match decoded with
  | None => None
  | Some id =>
      match User_findById id st with
      | Some user => if negb (User.isActive user) then None else Some user
      | None => None
      end
  end.

(** [req.body] of PUT /api/users/:id, the paths the embedding of a user
    holds. *)
Module UserUpdate.
Record t := mk {
  firstName : option string;
  lastName : option string;
  email : option string;
  academicYear : option string;
  semester : option Z;
  department : option ObjectId;
  role : option Role;
  isActive : option bool
}.
End UserUpdate.

(** [if (x) user.path = x] on a text and on a number: the empty text and
    0 leave the path as it is. *)
Definition or_text (x : option string) (set : string -> string)
  (old : string) : string :=
  match x with
  | Some s => if String.eqb s EmptyString then old else set s
  | None => old
  end.

Definition or_opt_text (x : option string) (old : option string)
  : option string :=
  match x with
  | Some s => if String.eqb s EmptyString then old else Some s
  | None => old
  end.

Definition or_number (x : option Z) (old : option Z) : option Z :=
  match x with
  | Some n => if n =? 0 then old else Some n
  | None => old
  end.

(** "Students and teachers can only update their profile info" *)
Definition profile_update (b : UserUpdate.t) (u : User.t) : User.t :=
  User.mk (User._id u) (User.userId u) (User.email u) (User.password u)
    (or_text (UserUpdate.firstName b) trim (User.firstName u))
    (or_text (UserUpdate.lastName b) trim (User.lastName u))
    (User.role u) (User.department u) (User.academicYear u)
    (User.semester u) (User.rollNumber u) (User.employeeId u)
    (User.isActive u).

(** "Admin can update everything" *)
Definition admin_update (b : UserUpdate.t) (u : User.t) : User.t :=
  User.mk (User._id u) (User.userId u)
    (or_text (UserUpdate.email b) as_email
       (User.email u))
    (User.password u)
    (or_text (UserUpdate.firstName b) trim (User.firstName u))
    (or_text (UserUpdate.lastName b) trim (User.lastName u))
    (default (User.role u) (UserUpdate.role b))
    (match UserUpdate.department b with
     | Some d => Some d
     | None => User.department u
     end)
    (or_opt_text (UserUpdate.academicYear b) (User.academicYear u))
    (or_number (UserUpdate.semester b) (User.semester u))
    (User.rollNumber u) (User.employeeId u)
    (default (User.isActive u) (UserUpdate.isActive b)).

Definition deactivated_user (u : User.t) : User.t :=
  User.mk (User._id u) (User.userId u) (User.email u) (User.password u)
    (User.firstName u) (User.lastName u) (User.role u) (User.department u)
    (User.academicYear u) (User.semester u) (User.rollNumber u)
    (User.employeeId u) false.

(** The paths of a stored user as [User_validate] reads them. *)
Definition as_data (u : User.t) : UserData.t :=
  UserData.mk (Some (User.userId u)) (Some (User.email u))
    (Some (User.password u)) (Some (User.firstName u))
    (Some (User.lastName u)) (Some (User.role u)) (User.department u)
    (User.academicYear u) (User.semester u) (User.rollNumber u)
    (User.employeeId u).

Fixpoint write_back_user (u : User.t) (us : list User.t) : list User.t :=
  match us with
  | [] => []
  | x :: rest =>
      if Nat.eqb (User._id x) (User._id u) then u :: rest
      else x :: write_back_user u rest
  end.

(** [await user.save()] on a document the route loaded as [old]: the
    schema is checked, the unique index on [email] when the email was
    changed (no route changes another indexed path), and the document is
    written back.  The hook hashes a password that was modified; none is
    here. *)
Definition User_resave (old u : User.t) (st : Store) : Exception + Store :=
  match User_validate (as_data u) with
  | Some e => inl e
  | None =>
      if negb (String.eqb (User.email u) (User.email old))
         && existsb (fun x => String.eqb (User.email x) (User.email u))
              (users st)
      then inl (DuplicateKey "email")
      else inr (set_users (write_back_user u (users st)) st)
  end.

(** DELETE /api/users/:id *)
Definition delete_user (st : Store) (actor : User.t) (id : ObjectId)
  : Store * Response string :=
  if negb (authorize [admin] actor)
  then (st, Forbidden403 insufficient)
  else
    match User_findById id st with
    | None => (st, NotFound404 "User not found")
    | Some user =>
        match User_resave user (deactivated_user user) st with
        | inl _ => (st, ServerError500)
        | inr st' => (st', Ok200 "User deactivated successfully")
        end
    end.

(** PUT /api/users/:id; the body of the answer 200 is the document read
    back, as stored. *)
Definition put_user (st : Store) (actor : User.t) (id : ObjectId)
  (b : UserUpdate.t) : Store * Response (option User.t) :=
  match User_findById id st with
  | None => (st, NotFound404 "User not found")
  | Some user =>
      let isSelf := Nat.eqb (User._id actor) (User._id user) in
      let isAdmin := Role_eqb (User.role actor) admin in
      if negb isSelf && negb isAdmin
      then (st, Forbidden403 "Access denied")
      else
        let updated :=
          if negb isAdmin then profile_update b user
          else admin_update b user in
        match User_resave user updated st with
        | inl _ => (st, ServerError500)
        | inr st' => (st', Ok200 (User_findById (User._id user) st'))
        end
  end.

Lemma User_resave_inr (old u : User.t) (st st' : Store) :
  User_resave old u st = inr st' ->
  st' = set_users (write_back_user u (users st)) st.
Proof.
  unfold User_resave. destruct (User_validate (as_data u)); [discriminate|].
  destruct (_ && _); [discriminate|].
  intros H. injection H as <-. reflexivity.
Qed.

Lemma write_back_user_found (id : ObjectId) (u u' : User.t)
  (us : list User.t) :
  find (fun x => Nat.eqb (User._id x) id) us = Some u ->
  User._id u' = id ->
  find (fun x => Nat.eqb (User._id x) id) (write_back_user u' us) = Some u'.
Proof.
  intros F E. subst id.
  induction us as [|h t IH]; simpl in *; [discriminate|].
  destruct (Nat.eqb (User._id h) (User._id u')) eqn:Eh; simpl.
  - rewrite Nat.eqb_refl. reflexivity.
  - rewrite Eh. apply IH. exact F.
Qed.

Lemma write_back_user_other (id : ObjectId) (u' : User.t)
  (us : list User.t) :
  User._id u' <> id ->
  find (fun x => Nat.eqb (User._id x) id) (write_back_user u' us)
  = find (fun x => Nat.eqb (User._id x) id) us.
Proof.
  intros N. induction us as [|h t IH]; simpl; [reflexivity|].
  destruct (Nat.eqb_spec (User._id h) (User._id u')) as [E|_]; simpl.
  - destruct (Nat.eqb_spec (User._id u') id) as [|_]; [contradiction|].
    destruct (Nat.eqb_spec (User._id h) id) as [|_]; [congruence|].
    reflexivity.
  - rewrite IH. reflexivity.
Qed.

(** X23. When DELETE /api/users/:id answers 200, the actor is an admin, the
    user is still in the store, now inactive, and [auth] refuses every
    later request made in that user's name; the requests of the other
    users are authenticated as before, and no grade or subject has
    changed. *)
Theorem deactivated_user_is_locked_out (st st' : Store) (actor : User.t)
  (id : ObjectId) (message : string) :
  delete_user st actor id = (st', Ok200 message) ->
  User.role actor = admin /\
  (exists u, User_findById id st = Some u /\
             User_findById id st' = Some (deactivated_user u)) /\
  auth st' (Some id) = None /\
  (forall other, other <> id -> auth st' (Some other) = auth st (Some other))
  /\ grades st' = grades st /\ subjects st' = subjects st.
Proof.
  unfold delete_user. destruct (authorize [admin] actor) eqn:Ha;
    [cbn [negb] | intros H; discriminate].
  destruct (User_findById id st) as [u|] eqn:F; [|intros H; discriminate].
  destruct (User_resave u (deactivated_user u) st) as [e|st1] eqn:R;
    [intros H; discriminate|].
  intros H. injection H as <- _. apply User_resave_inr in R. subst st1.
  pose proof (User_findById_id _ _ _ F) as Ei.
  assert (Found : User_findById id
                    (set_users (write_back_user (deactivated_user u)
                                  (users st)) st)
                  = Some (deactivated_user u)).
  { unfold User_findById. simpl.
    apply (write_back_user_found id u); [exact F | exact Ei]. }
  split.
  { unfold authorize, includes in Ha. simpl in Ha.
    rewrite orb_false_r in Ha. apply Role_eqb_eq. exact Ha. }
  split; [exists u; split; [reflexivity | exact Found]|].
  split; [unfold auth; rewrite Found; reflexivity|].
  split; [|split; reflexivity].
  intros other N. unfold auth, User_findById. simpl.
  rewrite write_back_user_other; [reflexivity|]. simpl. congruence.
Qed.

Definition store_users : Store :=
  mkStore [] [algebra] [admin0; teacher30; student10].

Lemma deactivated_user_is_locked_out_witness :
  auth store_users (Some 30%nat) = Some teacher30 /\
  auth (fst (delete_user store_users admin0 30%nat)) (Some 30%nat) = None.
Proof.
  split; [reflexivity|].
  destruct (deactivated_user_is_locked_out store_users
              (fst (delete_user store_users admin0 30%nat)) admin0 30%nat
              "User deactivated successfully" eq_refl) as (_ & _ & L & _).
  exact L.
Defined.

(** What a user cannot change on the own account. *)
Definition privileges (u : User.t)
  : ObjectId * string * string * string * Role * option ObjectId
    * option string * option Z * option string * option string * bool :=
  (User._id u, User.userId u, User.email u, User.password u, User.role u,
   User.department u, User.academicYear u, User.semester u,
   User.rollNumber u, User.employeeId u, User.isActive u).

Lemma write_back_user_privileges (id : ObjectId) (u u' : User.t)
  (us : list User.t) :
  find (fun x => Nat.eqb (User._id x) id) us = Some u ->
  privileges u' = privileges u ->
  map privileges (write_back_user u' us) = map privileges us.
Proof.
  intros F C.
  assert (Ei : User._id u' = User._id u)
    by (unfold privileges in C; congruence).
  assert (Es : User._id u = id).
  { apply find_some in F. apply Nat.eqb_eq. tauto. }
  rewrite <- Es, <- Ei in F. clear Es.
  induction us as [|h t IH]; simpl in *; [reflexivity|].
  destruct (Nat.eqb (User._id h) (User._id u')).
  - injection F as ->. simpl. rewrite C. reflexivity.
  - simpl. rewrite IH by exact F. reflexivity.
Qed.

Lemma write_back_user_In (u' x : User.t) (us : list User.t) :
  In x (write_back_user u' us) -> x = u' \/ In x us.
Proof.
  induction us as [|h t IH]; simpl; [tauto|].
  destruct (Nat.eqb (User._id h) (User._id u')); simpl.
  - intros [<-|H]; tauto.
  - intros [<-|H]; [tauto|]. apply IH in H. tauto.
Qed.

(** X24. PUT /api/users/:id gives an actor who is not an admin no privilege:
    whatever the body, the request changes no grade and no subject, and
    leaves every user with the same id, login, email, password, role,
    department, year, semester, numbers and activity; a document of the
    store that differs afterwards is the actor's own. *)
Theorem profile_update_keeps_privileges (st : Store) (actor : User.t)
  (id : ObjectId) (b : UserUpdate.t) :
  User.role actor <> admin ->
  let st' := fst (put_user st actor id b) in
  grades st' = grades st /\ subjects st' = subjects st /\
  map privileges (users st') = map privileges (users st) /\
  (forall x, In x (users st') ->
             In x (users st) \/ User._id x = User._id actor) /\
  (st' <> st -> id = User._id actor).
Proof.
  intros Hr. cbv zeta. unfold put_user.
  assert (Same : grades st = grades st /\ subjects st = subjects st /\
                 map privileges (users st) = map privileges (users st) /\
                 (forall x, In x (users st) ->
                            In x (users st) \/ User._id x = User._id actor)
                 /\ (st <> st -> id = User._id actor)).
  { repeat split; try tauto; intros N; exfalso; apply N; reflexivity. }
  destruct (User_findById id st) as [u|] eqn:F; [|exact Same].
  cbv zeta.
  assert (Ra : Role_eqb (User.role actor) admin = false).
  { destruct (Role_eqb (User.role actor) admin) eqn:E; [|reflexivity].
    apply Role_eqb_eq in E. contradiction. }
  rewrite Ra. cbn [negb]. rewrite andb_true_r.
  destruct (Nat.eqb_spec (User._id actor) (User._id u)) as [Es|_];
    [cbn [negb] | exact Same].
  destruct (User_resave u (profile_update b u) st) as [e|st1] eqn:R;
    [exact Same|].
  apply User_resave_inr in R. subst st1. simpl.
  split; [reflexivity|]. split; [reflexivity|]. split; [|split].
  - apply (write_back_user_privileges id u); [exact F | reflexivity].
  - intros x Hx. apply write_back_user_In in Hx.
    destruct Hx as [->|Hx]; [right; simpl; congruence | left; exact Hx].
  - intros _. apply User_findById_id in F. congruence.
Qed.

Definition rename_and_promote : UserUpdate.t :=
  UserUpdate.mk (Some "  Ada ") None (Some "root@x") None None
    (Some 5%nat) (Some admin) (Some true).

Lemma profile_update_keeps_privileges_witness :
  map privileges
    (users (fst (put_user store_users student10 10%nat rename_and_promote)))
  = map privileges (users store_users) /\
  User_findById 10%nat
    (fst (put_user store_users student10 10%nat rename_and_promote))
  <> User_findById 10%nat store_users.
Proof.
  split; [|discriminate].
  apply (profile_update_keeps_privileges store_users student10 10%nat
           rename_and_promote).
  discriminate.
Defined.

(** ** models/Department.js and routes/departments.js *)

Module Department.
Record t := mk {
  _id : ObjectId;
  name : string;
  code : string;
  hod : option ObjectId;
  isActive : bool;
  totalSemesters : Z
}.
End Department.

(** The store with the fourth collection. *)
Record Campus := mkCampus {
  store : Store;
  departments : list Department.t
}.

Definition Department_findById (id : ObjectId) (c : Campus)
  : option Department.t :=
  find (fun d => Nat.eqb (Department._id d) id) (departments c).

(** The constraints of [departmentSchema]. *)
Definition Department_validate (d : Department.t) : option Exception :=
  if String.eqb (Department.name d) EmptyString
  then Some (ValidationError "name")
  else if String.eqb (Department.code d) EmptyString
  then Some (ValidationError "code")
  else if negb ((1 <=? Department.totalSemesters d)
                && (Department.totalSemesters d <=? 10))
  then Some (ValidationError "totalSemesters")
  else None.

Fixpoint write_back_department (d : Department.t) (ds : list Department.t)
  : list Department.t :=
  match ds with
  | [] => []
  | x :: rest =>
      if Nat.eqb (Department._id x) (Department._id d) then d :: rest
      else x :: write_back_department d rest
  end.

(** [await department.save()] on a document the route loaded, none of
    whose indexed paths it changed. *)
Definition Department_resave (d : Department.t) (c : Campus)
  : Exception + Campus :=
  match Department_validate d with
  | Some e => inl e
  | None =>
      inr (mkCampus (store c) (write_back_department d (departments c)))
  end.

(** [User.findByIdAndUpdate(id, update)]: the document with the id, when
    there is one, is updated; no hook and no validator runs. *)
Fixpoint User_findByIdAndUpdate (id : ObjectId) (update : User.t -> User.t)
  (us : list User.t) : list User.t :=
  match us with
  | [] => []
  | x :: rest =>
      if Nat.eqb (User._id x) id then update x :: rest
      else x :: User_findByIdAndUpdate id update rest
  end.

(** [{ $unset: { department: 1 } }] and [{ department: id }] *)
Definition with_department (d : option ObjectId) (u : User.t) : User.t :=
  User.mk (User._id u) (User.userId u) (User.email u) (User.password u)
    (User.firstName u) (User.lastName u) (User.role u) d
    (User.academicYear u) (User.semester u) (User.rollNumber u)
    (User.employeeId u) (User.isActive u).

Definition with_hod (h : ObjectId) (d : Department.t) : Department.t :=
  Department.mk (Department._id d) (Department.name d) (Department.code d)
    (Some h) (Department.isActive d) (Department.totalSemesters d).

Definition closed (d : Department.t) : Department.t :=
  Department.mk (Department._id d) (Department.name d) (Department.code d)
    (Department.hod d) false (Department.totalSemesters d).

Definition set_campus_users (us : list User.t) (c : Campus) : Campus :=
  mkCampus (set_users us (store c)) (departments c).

(** PUT /api/departments/:id/hod.  The three writes are separate: the
    old head loses the department before the department is saved, so an
    answer 500 of the save leaves that first write in place. *)
Definition assign_hod (c : Campus) (actor : User.t) (id : ObjectId)
  (hodId : option ObjectId) : Campus * Response (option Department.t) :=
  if negb (authorize [admin] actor)
  then (c, Forbidden403 insufficient)
  else
    match hodId with
    | None => (c, BadRequest400 "HOD ID is required")
    | Some h =>
        match Department_findById id c with
        | None => (c, NotFound404 "Department not found")
        | Some department =>
            match User_findById h (store c) with
            | None => (c, BadRequest400 "Invalid HOD selection")
            | Some hodUser =>
                if negb (Role_eqb (User.role hodUser) hod)
                then (c, BadRequest400 "Invalid HOD selection")
                else
                  let c1 :=
                    match Department.hod department with
                    | Some old =>
                        set_campus_users
                          (User_findByIdAndUpdate old (with_department None)
                             (users (store c))) c
                    | None => c
                    end in
                  match Department_resave (with_hod h department) c1 with
                  | inl _ => (c1, ServerError500)
                  | inr c2 =>
                      let c3 :=
                        set_campus_users
                          (User_findByIdAndUpdate h
                             (with_department (Some id))
                             (users (store c2))) c2 in
                      (c3, Ok200 (Department_findById
                                    (Department._id department) c3))
                  end
            end
        end
    end.

(** [User.countDocuments({department: id, isActive: true})] *)
Definition active_users (id : ObjectId) (c : Campus) : nat :=
  List.length
    (filter (fun u => opt_id_is (User.department u) id && User.isActive u)
       (users (store c))).

(** DELETE /api/departments/:id *)
Definition delete_department (c : Campus) (actor : User.t) (id : ObjectId)
  : Campus * Response string :=
  if negb (authorize [admin] actor)
  then (c, Forbidden403 insufficient)
  else
    match Department_findById id c with
    | None => (c, NotFound404 "Department not found")
    | Some department =>
        let activeUsers := active_users id c in
        if (0 <? activeUsers)%nat
        then (c, BadRequest400
                   ("Cannot delete department. It has "
                    ++ NilEmpty.string_of_uint (Nat.to_uint activeUsers)
                    ++ " active users. Please deactivate or transfer users first."))
        else
          match Department_resave (closed department) c with
          | inl _ => (c, ServerError500)
          | inr c' => (c', Ok200 "Department deactivated successfully")
          end
    end.

Lemma Department_resave_inr (d : Department.t) (c c' : Campus) :
  Department_resave d c = inr c' ->
  c' = mkCampus (store c) (write_back_department d (departments c)).
Proof.
  unfold Department_resave. destruct (Department_validate d);
    [discriminate|].
  intros H. injection H as <-. reflexivity.
Qed.

Lemma write_back_department_found (id : ObjectId) (d d' : Department.t)
  (ds : list Department.t) :
  find (fun x => Nat.eqb (Department._id x) id) ds = Some d ->
  Department._id d' = id ->
  find (fun x => Nat.eqb (Department._id x) id) (write_back_department d' ds)
  = Some d'.
Proof.
  intros F E. subst id.
  induction ds as [|h t IH]; simpl in *; [discriminate|].
  destruct (Nat.eqb (Department._id h) (Department._id d')) eqn:Eh; simpl.
  - rewrite Nat.eqb_refl. reflexivity.
  - rewrite Eh. apply IH. exact F.
Qed.

Lemma updated_user_found (id : ObjectId) (f : User.t -> User.t)
  (us : list User.t) :
  (forall u, User._id (f u) = User._id u) ->
  find (fun x => Nat.eqb (User._id x) id) (User_findByIdAndUpdate id f us)
  = option_map f (find (fun x => Nat.eqb (User._id x) id) us).
Proof.
  intros Hf. induction us as [|h t IH]; simpl; [reflexivity|].
  destruct (Nat.eqb (User._id h) id) eqn:E; simpl.
  - rewrite Hf, E. reflexivity.
  - rewrite E. exact IH.
Qed.

Lemma updated_user_other (id other : ObjectId) (f : User.t -> User.t)
  (us : list User.t) :
  (forall u, User._id (f u) = User._id u) ->
  other <> id ->
  find (fun x => Nat.eqb (User._id x) other)
    (User_findByIdAndUpdate id f us)
  = find (fun x => Nat.eqb (User._id x) other) us.
Proof.
  intros Hf N. induction us as [|h t IH]; simpl; [reflexivity|].
  destruct (Nat.eqb_spec (User._id h) id) as [E|_]; simpl.
  - rewrite Hf.
    destruct (Nat.eqb_spec (User._id h) other) as [|_]; [congruence|].
    reflexivity.
  - rewrite IH. reflexivity.
Qed.

Lemma with_department_id (d : option ObjectId) (u : User.t) :
  User._id (with_department d u) = User._id u.
Proof. reflexivity. Qed.

(** The user [hodId] has become head of the department [id] in [c']:
    each of the two documents names the other. *)
Definition heads (c' : Campus) (hodId id : ObjectId) : Prop :=
  (exists d, Department_findById id c' = Some d /\
             Department.hod d = Some hodId) /\
  (exists u, User_findById hodId (store c') = Some u /\
             User.role u = hod /\ User.department u = Some id).

(** X25. When PUT /api/departments/:id/hod answers 200, the actor is an
    admin, the department names the user as its head and the user, of
    role hod, has the department as the own one; so the check of the
    subject routes for heads of department lets the user through on
    every subject of the department.  A different user the department
    named as head before is left with no department, every other user
    is as before, and no grade or subject has changed. *)
Theorem assigned_hod_heads_department (c c' : Campus) (actor : User.t)
  (id : ObjectId) (hodId : option ObjectId) (body : option Department.t) :
  assign_hod c actor id hodId = (c', Ok200 body) ->
  exists h dep,
    hodId = Some h /\ User.role actor = admin /\
    Department_findById id c = Some dep /\
    heads c' h id /\
    (forall u s, User_findById h (store c') = Some u ->
                 Subject.department s = id ->
                 hod_owns (T := unit) u s = None) /\
    (forall old, Department.hod dep = Some old -> old <> h ->
                 option_map User.department (User_findById old (store c'))
                 = option_map (fun _ => None)
                     (User_findById old (store c))) /\
    (forall other, other <> h -> Department.hod dep <> Some other ->
                   User_findById other (store c')
                   = User_findById other (store c)) /\
    grades (store c') = grades (store c) /\
    subjects (store c') = subjects (store c).
Proof.
  unfold assign_hod. destruct (authorize [admin] actor) eqn:Ha;
    [cbn [negb] | intros H; discriminate].
  destruct hodId as [h|]; [|intros H; discriminate].
  destruct (Department_findById id c) as [dep|] eqn:Fd;
    [|intros H; discriminate].
  destruct (User_findById h (store c)) as [hu|] eqn:Fu;
    [|intros H; discriminate].
  destruct (Role_eqb (User.role hu) hod) eqn:Rh;
    [cbn [negb] | intros H; discriminate].
  cbv zeta.
  remember (match Department.hod dep with
            | Some old => _
            | None => c
            end) as c1 eqn:Ec1.
  destruct (Department_resave (with_hod h dep) c1) as [e|c2] eqn:R;
    [intros H; discriminate|].
  intros H. injection H as <- _. apply Department_resave_inr in R.
  subst c2. apply Role_eqb_eq in Rh.
  assert (Eid : Department._id dep = id).
  { unfold Department_findById in Fd. apply find_some in Fd.
    apply Nat.eqb_eq. tauto. }
  assert (Dc1 : departments c1 = departments c)
    by (rewrite Ec1; destruct (Department.hod dep); reflexivity).
  assert (Gc1 : grades (store c1) = grades (store c) /\
                subjects (store c1) = subjects (store c))
    by (rewrite Ec1; destruct (Department.hod dep); split; reflexivity).
  assert (U1 : forall x,
             User_findById x (store c1)
             = if opt_id_is (Department.hod dep) x
               then option_map (with_department None)
                      (User_findById x (store c))
               else User_findById x (store c)).
  { intros x. rewrite Ec1. unfold User_findById, opt_id_is.
    destruct (Department.hod dep) as [old|]; [|reflexivity]. simpl.
    destruct (Nat.eqb_spec old x) as [->|N].
    - apply updated_user_found. apply with_department_id.
    - apply updated_user_other; [apply with_department_id | congruence]. }
  assert (Fh : exists hu1, User_findById h (store c1) = Some hu1 /\
                           User.role hu1 = hod).
  { rewrite U1, Fu. destruct (opt_id_is (Department.hod dep) h); simpl.
    - eexists. split; [reflexivity | exact Rh].
    - eexists. split; [reflexivity | exact Rh]. }
  destruct Fh as (hu1 & Fh1 & Rh1).
  assert (Fh3 : User_findById h
                  (set_users
                     (User_findByIdAndUpdate h (with_department (Some id))
                        (users (store c1))) (store c1))
                = Some (with_department (Some id) hu1)).
  { unfold User_findById in Fh1 |- *. simpl.
    rewrite updated_user_found by apply with_department_id.
    rewrite Fh1. reflexivity. }
  exists h, dep. split; [reflexivity|]. split.
  { unfold authorize, includes in Ha. simpl in Ha.
    rewrite orb_false_r in Ha. apply Role_eqb_eq. exact Ha. }
  split; [reflexivity|]. simpl. split; [split|].
  - exists (with_hod h dep). split; [|reflexivity].
    unfold Department_findById. simpl. rewrite Dc1.
    apply (write_back_department_found id dep); [exact Fd | exact Eid].
  - exists (with_department (Some id) hu1).
    split; [exact Fh3|]. split; [exact Rh1 | reflexivity].
  - split; [|split; [|split]].
    + intros u s Hu Hs. rewrite Fh3 in Hu. injection Hu as <-.
      unfold hod_owns. simpl. rewrite Rh1, Hs, Nat.eqb_refl. reflexivity.
    + intros old Hold N.
      assert (E : User_findById old
                    (set_users
                       (User_findByIdAndUpdate h (with_department (Some id))
                          (users (store c1))) (store c1))
                  = User_findById old (store c1)).
      { unfold User_findById. simpl.
        apply updated_user_other; [apply with_department_id | exact N]. }
      rewrite E, U1, Hold. unfold opt_id_is. rewrite Nat.eqb_refl.
      destruct (User_findById old (store c)); reflexivity.
    + intros other N Hn.
      assert (E : User_findById other
                    (set_users
                       (User_findByIdAndUpdate h (with_department (Some id))
                          (users (store c1))) (store c1))
                  = User_findById other (store c1)).
      { unfold User_findById. simpl.
        apply updated_user_other; [apply with_department_id | exact N]. }
      rewrite E, U1. unfold opt_id_is.
      destruct (Department.hod dep) as [old|]; [|reflexivity].
      destruct (Nat.eqb_spec old other) as [->|_];
        [contradiction Hn; reflexivity | reflexivity].
    + exact Gc1.
Qed.

Definition campus0 : Campus :=
  mkCampus (mkStore [] [algebra] [admin0; hod4; hod5; student10])
    [Department.mk 4%nat "Mathematics" "MATH" (Some (User._id hod4)) true 8;
     Department.mk 5%nat "Mechanics" "MECH" (Some (User._id hod5)) true 8].

Lemma assigned_hod_heads_department_witness :
  heads (fst (assign_hod campus0 admin0 4%nat (Some (User._id hod5))))
    (User._id hod5) 4%nat /\
  option_map User.department
    (User_findById (User._id hod4)
       (store (fst (assign_hod campus0 admin0 4%nat
                      (Some (User._id hod5))))))
  = Some None.
Proof.
  destruct (assigned_hod_heads_department campus0
              (fst (assign_hod campus0 admin0 4%nat (Some (User._id hod5))))
              admin0 4%nat (Some (User._id hod5))
              (Department_findById 4%nat
                 (fst (assign_hod campus0 admin0 4%nat
                         (Some (User._id hod5)))))
              eq_refl)
    as (h & dep & Eh & _ & Ed & Hh & _ & Hold & _).
  injection Eh as <-. injection Ed as <-.
  split; [exact Hh|].
  rewrite (Hold (User._id hod4) eq_refl); [reflexivity | discriminate].
Defined.

(** X26. When DELETE /api/departments/:id answers 200, the actor is an admin,
    the department is still in the store, now inactive, no user, grade
    or subject has changed, and no request that [auth] lets through is
    made by a user of that department. *)
Theorem closed_department_has_no_actor (c c' : Campus) (actor : User.t)
  (id : ObjectId) (message : string) :
  delete_department c actor id = (c', Ok200 message) ->
  User.role actor = admin /\
  (exists d, Department_findById id c = Some d /\
             Department_findById id c' = Some (closed d)) /\
  store c' = store c /\
  (forall decoded u, auth (store c') decoded = Some u ->
                     User.department u <> Some id).
Proof.
  unfold delete_department. destruct (authorize [admin] actor) eqn:Ha;
    [cbn [negb] | intros H; discriminate].
  destruct (Department_findById id c) as [d|] eqn:Fd;
    [|intros H; discriminate].
  cbv zeta.
  destruct (Nat.ltb_spec 0 (active_users id c)) as [_|Hz];
    [intros H; discriminate|].
  destruct (Department_resave (closed d) c) as [e|c1] eqn:R;
    [intros H; discriminate|].
  intros H. injection H as <- _. apply Department_resave_inr in R.
  subst c1.
  assert (Eid : Department._id d = id).
  { unfold Department_findById in Fd. apply find_some in Fd.
    apply Nat.eqb_eq. tauto. }
  split.
  { unfold authorize, includes in Ha. simpl in Ha.
    rewrite orb_false_r in Ha. apply Role_eqb_eq. exact Ha. }
  split.
  { exists d. split; [reflexivity|]. unfold Department_findById. simpl.
    apply (write_back_department_found id d); [exact Fd | exact Eid]. }
  split; [reflexivity|].
  intros decoded u Hu Hd. simpl in Hu. unfold auth in Hu.
  destruct decoded as [uid|]; [|discriminate].
  destruct (User_findById uid (store c)) as [x|] eqn:Fx; [|discriminate].
  destruct (User.isActive x) eqn:Act; [|discriminate].
  injection Hu as ->. unfold User_findById in Fx. apply find_some in Fx.
  destruct Fx as [Hin _]. unfold active_users in Hz.
  assert (Hf : In u (filter (fun u => opt_id_is (User.department u) id
                                      && User.isActive u)
                       (users (store c)))).
  { apply filter_In. split; [exact Hin|]. rewrite Hd, Act. simpl.
    rewrite Nat.eqb_refl. reflexivity. }
  destruct (filter _ (users (store c))); [contradiction | simpl in Hz; lia].
Qed.

Definition campus_idle : Campus :=
  mkCampus (mkStore [] [] [admin0; hod5])
    [Department.mk 4%nat "Mathematics" "MATH" None true 8].

Lemma closed_department_has_no_actor_witness :
  exists d,
    Department_findById 4%nat campus_idle = Some d /\
    Department_findById 4%nat (fst (delete_department campus_idle admin0 4%nat))
    = Some (closed d).
Proof.
  destruct (closed_department_has_no_actor campus_idle
              (fst (delete_department campus_idle admin0 4%nat)) admin0
              4%nat "Department deactivated successfully" eq_refl)
    as (_ & E & _).
  exact E.
Defined.

(** ** The role checks of the single-grade routes, on an example *)

(** X27. [hod_single_grade_routes] on a head of department 4 who reads
    grade 1, recorded in a subject of that department. *)
Lemma hod_single_grade_routes_witness :
  exists g sj,
    Grade_findById 1%nat store7 = Some g /\
    Subject_findById (Grade.subject g) store7 = Some sj /\
    User.department hod4 = Some (Subject.department sj).
Proof.
  destruct (hod_single_grade_routes store7 hod4 eq_refl) as [G _].
  apply (G 1%nat). exact I.
Defined.

(** X28. [teacher_single_grade_routes] on teacher 31 who edits grade 1,
    recorded under teacher 30. *)
Lemma teacher_single_grade_routes_witness :
  put_grade store7 teacher31 1%nat (PutBody.mk (Some new_marks) None None)
    0%nat
  = (store7, Forbidden403 "Access denied").
Proof.
  destruct (teacher_single_grade_routes store7 teacher31 eq_refl)
    as (_ & _ & P & _).
  apply (P 1%nat _ 0%nat (grade_of 1 10 true)); [reflexivity | discriminate].
Defined.

(** ** client/src/contexts/AuthContext.js *)

Module AuthContext.
Section Reducer.

(** A user object as the server sends it, the body of a profile update,
    and [{ ...state.user, ...action.payload }]. *)
Variable Profile : Type.
Variable Patch : Type.
Variable spread : option Profile -> Patch -> Profile.

Record State := mkState {
  user : option Profile;
  token : option string;
  isAuthenticated : bool;
  loading : bool;
  error : option string
}.

Inductive Action :=
| LOGIN_START
| LOGIN_SUCCESS (payload_user : option Profile) (payload_token : string)
| LOGIN_FAILURE (payload : string)
| LOGOUT
| LOAD_USER_START
| LOAD_USER_SUCCESS (payload : option Profile)
| LOAD_USER_FAILURE (payload : string)
| UPDATE_USER (payload : Patch)
| CLEAR_ERROR
| UNKNOWN.

(** [initialState], given what [localStorage.getItem('token')] reads. *)
Definition initialState (stored : option string) : State :=
  mkState None stored false true None.

(** [authReducer], with the item [token] of [localStorage] it writes:
    the pair is the item and the state. *)
Definition authReducer (s : option string * State) (action : Action)
  : option string * State :=
  let (stored, state) := s in
  match action with
  | LOGIN_START | LOAD_USER_START =>
      (stored,
       mkState (user state) (token state) (isAuthenticated state) true None)
  | LOGIN_SUCCESS u t =>
      (Some t, mkState u (Some t) true false None)
  | LOAD_USER_SUCCESS u =>
      (stored, mkState u (token state) true false None)
  | LOGIN_FAILURE e | LOAD_USER_FAILURE e =>
      (None, mkState None None false false (Some e))
  | LOGOUT =>
      (None, mkState None None false false None)
  | UPDATE_USER p =>
      (stored,
       mkState (Some (spread (user state) p)) (token state)
         (isAuthenticated state) (loading state) (error state))
  | CLEAR_ERROR =>
      (stored,
       mkState (user state) (token state) (isAuthenticated state)
         (loading state) None)
  | UNKNOWN => (stored, state)
  end.

Definition dispatched (stored : option string) (actions : list Action)
  : option string * State :=
  fold_left authReducer actions (stored, initialState stored).

(** An action that signs the user out. *)
Definition signs_out (a : Action) : bool :=
  match a with
  | LOGIN_FAILURE _ | LOAD_USER_FAILURE _ | LOGOUT => true
  | _ => false
  end.

End Reducer.

Arguments user {Profile} _.
Arguments token {Profile} _.
Arguments isAuthenticated {Profile} _.
Arguments loading {Profile} _.
Arguments error {Profile} _.
Arguments authReducer {Profile Patch} spread s action.
Arguments dispatched {Profile Patch} spread stored actions.
Arguments signs_out {Profile Patch} a.

End AuthContext.

Lemma reducer_keeps_token {Profile Patch : Type}
  (spread : option Profile -> Patch -> Profile)
  (actions : list (AuthContext.Action Profile Patch))
  (s : option string * AuthContext.State Profile) :
  AuthContext.token (snd s) = fst s ->
  AuthContext.token (snd (fold_left (AuthContext.authReducer spread)
                            actions s))
  = fst (fold_left (AuthContext.authReducer spread) actions s).
Proof.
  revert s. induction actions as [|a rest IH]; intros [stored state] H;
    [exact H|].
  simpl fold_left. apply IH. simpl in H. destruct a; simpl; congruence.
Qed.

(** X29. Whatever actions are dispatched from the initial state, the token of
    the state is the item [token] of the local storage; and after an
    action that signs the user out (a failed login, a failed load, a
    logout) both are empty, there is no user and the state is not
    authenticated. *)
Theorem token_mirrors_storage {Profile Patch : Type}
  (spread : option Profile -> Patch -> Profile) (stored : option string)
  (actions : list (AuthContext.Action Profile Patch)) :
  let s := AuthContext.dispatched spread stored actions in
  AuthContext.token (snd s) = fst s /\
  forall a, AuthContext.signs_out a = true ->
            let s' := AuthContext.authReducer spread s a in
            fst s' = None /\ AuthContext.token (snd s') = None /\
            AuthContext.user (snd s') = None /\
            AuthContext.isAuthenticated (snd s') = false.
Proof.
  cbv zeta. split.
  - unfold AuthContext.dispatched. apply reducer_keeps_token. reflexivity.
  - intros a Ha.
    destruct (AuthContext.dispatched spread stored actions) as [st state].
    destruct a; try discriminate; simpl; repeat split.
Qed.
